(** * Airzone MQTT bridge: device model, correlation client and update cycle

    A shallow embedding of the synchronisation core of [airzone_mqtt_hass]
    ([device.py], [system.py], [zone.py], [common.py], [airzone.py]), of
    the queue of received messages of [mqtt.py] and of the loops of
    [interface.py], with the properties its specification states about it
    and further properties of the code.

    Conventions of the embedding.
    - Parsed JSON (the result of [json.loads]) is the inductive [json]; a
      Python [dict] obtained from JSON is an association list holding one
      binding per key, a Python [None] is [JNull].
    - A [datetime] is the number of microseconds since the epoch, a
      [timedelta] a number of microseconds, both in [Z].
    - Methods that mutate [self] are functions in the state-and-exception
      monad [M]: the state reached when an exception escapes is part of the
      result, as the object keeps the assignments made before the [raise].
    - The clock is read once per uninterrupted run of a coroutine: a
      function that calls [get_current_dt] takes the reading as [now].
    - A coroutine that waits does so while the router task handles the
      messages that arrive; the functions that wait take those messages as
      [waiting].
    - Floating point numbers and the Python built-ins that parse, print or
      convert them are the operations of the classes [PyFloat], [PyRepr]
      and [PyDatetime]; the string constants of [const.py] are the fields
      of the class [ApiConst]. *)

From stdpp Require Import base gmap strings list fin_maps pretty.
From Stdlib Require Import ZArith Lia.

Set Warnings "-register-all".

Local Open Scope string_scope.
Local Open Scope Z_scope.

(** ** Exceptions and results *)

Inductive exn : Type :=
  | AttributeError
  | TypeError
  | ValueError
  | OverflowError
  | IndexError
  | JSONDecodeError
  | RuntimeError
  | CancelledError
  | TimeoutError
  | AirzoneOffline
  | AirzonePollError
  | AirzoneTimeout.

Inductive result (A : Type) : Type :=
  | Ok (a : A)
  | Raise (e : exn).

Arguments Ok {A} a.
Arguments Raise {A} e.

(** The base class of [exceptions.py]: [AirzoneOffline], [AirzonePollError]
    and [AirzoneTimeout] derive from [AirzoneError]. *)
Definition is_AirzoneError (e : exn) : bool :=
  match e with
  | AirzoneOffline | AirzonePollError | AirzoneTimeout => true
  | _ => false
  end.

(** ** The state-and-exception monad *)

Definition M (S A : Type) : Type := S → S * result A.

Definition ret {S A} (a : A) : M S A := λ s, (s, Ok a).

Definition raise {S A} (e : exn) : M S A := λ s, (s, Raise e).

Definition bind {S A B} (m : M S A) (k : A → M S B) : M S B :=
  λ s, match m s with
       | (s', Ok a) => k a s'
       | (s', Raise e) => (s', Raise e)
       end.

Definition get {S} : M S S := λ s, (s, Ok s).

Definition modify {S} (f : S → S) : M S unit := λ s, (f s, Ok tt).

Definition lift_result {S A} (r : result A) : M S A := λ s, (s, r).

(** [try: m  except e: h(e)] *)
Definition try_except {S A} (m : M S A) (h : exn → M S A) : M S A :=
  λ s, match m s with
       | (s', Ok a) => (s', Ok a)
       | (s', Raise e) => h e s'
       end.

(** [try: m  finally: fin]; an exception of [fin] replaces that of [m]. *)
Definition try_finally {S A} (m : M S A) (fin : M S unit) : M S A :=
  λ s, match m s with
       | (s', r) =>
           match fin s' with
           | (s'', Ok _) => (s'', r)
           | (s'', Raise e) => (s'', Raise e)
           end
       end.

Notation "x <- m ;; k" := (bind m (λ x, k))
  (at level 20, m at level 99, k at level 200, only parsing).
Notation "m ;;; k" := (bind m (λ _, k))
  (at level 100, k at level 200, right associativity, only parsing).

(** [for x in xs: body(x)] *)
Fixpoint for_each {S A} (xs : list A) (body : A → M S unit) : M S unit :=
  match xs with
  | [] => ret tt
  | x :: xs' => body x ;;; for_each xs' body
  end.

(** ** Python values *)

(** Floating point numbers ([float] is an IEEE double in CPython) and the
    built-ins on them that the code relies on. *)
Class PyFloat : Type := {
  float : Type;
  (** [float(n)] for an [int]; [OverflowError] when [n] is too large *)
  float_of_int : Z → result float;
  (** [float(s)] for a [str]; [ValueError] when [s] is no literal *)
  float_of_string : string → result float;
  (** [bool(x)]: false exactly for zero *)
  float_truth : float → bool;
  (** [int(x)]: truncation; [ValueError] on NaN, [OverflowError] on infinity *)
  int_of_float : float → result Z;
  (** [int(s)] for a [str] *)
  int_of_string : string → result Z;
  (** [Some n] when [x == n] for the integer [n] (look-up of an enum member
      by value goes through [==] and [hash]) *)
  float_as_int : float → option Z;
  (** [round(x, 1)] *)
  float_round1 : float → float;
}.

Inductive json `{PyFloat} : Type :=
  | JNull
  | JBool (b : bool)
  | JInt (n : Z)
  | JFloat (x : float)
  | JStr (s : string)
  | JList (l : list json)
  | JObj (l : list (string * json)).

(** [repr] of the values whose printed form is CPython's own business:
    floats, lists and dicts. *)
Class PyRepr `{PyFloat} : Type := {
  py_repr : json → string;
}.

Section Values.
Context `{PF : PyFloat} `{PR : !PyRepr}.

Fixpoint dict_lookup (k : string) (l : list (string * json)) : option json :=
  match l with
  | [] => None
  | (k', v) :: l' => if String.eqb k k' then Some v else dict_lookup k l'
  end.

(** [obj.get(k)]: [None] when the key is absent; [AttributeError] when
    [obj] is no dict. *)
Definition py_get (obj : json) (k : string) : result json :=
  match obj with
  | JObj l => Ok (default JNull (dict_lookup k l))
  | _ => Raise AttributeError
  end.

(** [obj.get(k, d)] *)
Definition py_get_or (obj : json) (k : string) (d : json) : result json :=
  match obj with
  | JObj l => Ok (default d (dict_lookup k l))
  | _ => Raise AttributeError
  end.

Definition is_None (v : json) : bool :=
  match v with JNull => true | _ => false end.

(** [v == s] for a [str] constant [s] *)
Definition py_eq_str (v : json) (s : string) : bool :=
  match v with JStr s' => String.eqb s' s | _ => false end.

(** [bool(v)] *)
Definition py_bool (v : json) : bool :=
  match v with
  | JNull => false
  | JBool b => b
  | JInt n => negb (n =? 0)
  | JFloat x => float_truth x
  | JStr s => negb (String.eqb s "")
  | JList l => match l with [] => false | _ => true end
  | JObj l => match l with [] => false | _ => true end
  end.

(** [int(v)] *)
Definition py_int (v : json) : result Z :=
  match v with
  | JBool b => Ok (if b then 1 else 0)
  | JInt n => Ok n
  | JFloat x => int_of_float x
  | JStr s => int_of_string s
  | JNull | JList _ | JObj _ => Raise TypeError
  end.

(** [float(v)] *)
Definition py_float (v : json) : result float :=
  match v with
  | JBool b => float_of_int (if b then 1 else 0)
  | JInt n => float_of_int n
  | JFloat x => Ok x
  | JStr s => float_of_string s
  | JNull | JList _ | JObj _ => Raise TypeError
  end.

(** [str(v)], also what an f-string prints for [v] *)
Definition py_str (v : json) : string :=
  match v with
  | JNull => "None"
  | JBool b => if b then "True" else "False"
  | JInt n => pretty n
  | JStr s => s
  | JFloat _ | JList _ | JObj _ => py_repr v
  end.

(** The items a [for] loop sees: the elements of a list, the characters
    of a string, the keys of a dict; other values are not iterable. *)
Fixpoint chars (s : string) : list json :=
  match s with
  | EmptyString => []
  | String c s' => JStr (String c EmptyString) :: chars s'
  end.

Definition py_iter (v : json) : result (list json) :=
  match v with
  | JList l => Ok l
  | JStr s => Ok (chars s)
  | JObj l => Ok (map (λ kv, JStr kv.1) l)
  | JNull | JBool _ | JInt _ | JFloat _ => Raise TypeError
  end.
End Values.

(** ** [common.py] *)

Inductive AZ_Mode : Type :=
  | UNKNOWN | STOP | AUTO | COOLING | HEATING | VENTILATION | DRY
  | EMERGENCY_HEAT | HEAT_AIR | HEAT_RADIANT | HEAT_COMBINED | COOL_AIR
  | COOL_RADIANT | COOL_COMBINED | BYPASS | RECOVERY | REGULATION_TEMP
  | PURIFICATION | FAN_PURIFICATION | FAN_ENERGY.

Definition AZ_Mode_value (m : AZ_Mode) : Z :=
  match m with
  | UNKNOWN => -1
  | STOP => 0 | AUTO => 1 | COOLING => 2 | HEATING => 3 | VENTILATION => 4
  | DRY => 5 | EMERGENCY_HEAT => 6 | HEAT_AIR => 7 | HEAT_RADIANT => 8
  | HEAT_COMBINED => 9 | COOL_AIR => 10 | COOL_RADIANT => 11
  | COOL_COMBINED => 12 | BYPASS => 13 | RECOVERY => 14
  | REGULATION_TEMP => 15 | PURIFICATION => 16 | FAN_PURIFICATION => 17
  | FAN_ENERGY => 18
  end.

(** [AZ_Mode(n)] for an integer: the member of that value, and
    [_missing_] answers [UNKNOWN] for every other one. *)
Definition AZ_Mode_of_int (n : Z) : AZ_Mode :=
  match n with
  | 0 => STOP | 1 => AUTO | 2 => COOLING | 3 => HEATING | 4 => VENTILATION
  | 5 => DRY | 6 => EMERGENCY_HEAT | 7 => HEAT_AIR | 8 => HEAT_RADIANT
  | 9 => HEAT_COMBINED | 10 => COOL_AIR | 11 => COOL_RADIANT
  | 12 => COOL_COMBINED | 13 => BYPASS | 14 => RECOVERY
  | 15 => REGULATION_TEMP | 16 => PURIFICATION | 17 => FAN_PURIFICATION
  | 18 => FAN_ENERGY
  | _ => UNKNOWN
  end.

Inductive AZ_TemperatureUnit : Type :=
  | CELSIUS
  | FAHRENHEIT.

Definition AZ_TemperatureUnit_value (u : AZ_TemperatureUnit) : Z :=
  match u with CELSIUS => 0 | FAHRENHEIT => 1 end.

Inductive HA_UnitOfTemperature : Type :=
  | HA_CELSIUS
  | HA_FAHRENHEIT
  | HA_KELVIN.

Section Enums.
Context `{PF : PyFloat}.

(** The number a value is looked up by in an [IntEnum]: [True == 1] and
    [2.0 == 2] find the same member as the integer does. *)
Definition enum_key (v : json) : option Z :=
  match v with
  | JBool b => Some (if b then 1 else 0)
  | JInt n => Some n
  | JFloat x => float_as_int x
  | JNull | JStr _ | JList _ | JObj _ => None
  end.

(** [AZ_Mode(v)] *)
Definition AZ_Mode_of (v : json) : AZ_Mode :=
  match enum_key v with
  | Some n => AZ_Mode_of_int n
  | None => UNKNOWN
  end.

(** [AZ_TemperatureUnit(v)]: no [_missing_] hook, so a value that is no
    member raises [ValueError]. *)
Definition AZ_TemperatureUnit_of (v : json) : result AZ_TemperatureUnit :=
  match enum_key v with
  | Some 0 => Ok CELSIUS
  | Some 1 => Ok FAHRENHEIT
  | _ => Raise ValueError
  end.
End Enums.

(** ** [const.py] and [update.py]

    Neither module is part of the sources at hand. The string constants
    are taken as the fields of a class, so that every statement below holds
    for whatever values they have; where a statement needs two keys to
    differ, it says so. *)

Class ApiConst : Type := {
  (* MQTT topic segments *)
  AMT_EVENTS : string;
  AMT_INVOKE : string;
  AMT_ONLINE : string;
  AMT_REQUEST : string;
  AMT_RESPONSE : string;
  AMT_STATUS : string;
  AMT_V1 : string;
  (* keys and values of the gateway's payloads *)
  API_AIR_ACTIVE : string;
  API_AZ_GET_STATUS : string;
  API_AZ_SYSTEM : string;
  API_AZ_ZONE : string;
  API_BODY : string;
  API_CMD : string;
  API_DESTINATION : string;
  API_DEVICE_ID : string;
  API_DEVICE_TYPE : string;
  API_DEVICES : string;
  API_HEADERS : string;
  API_HUMIDITY : string;
  API_IS_CONNECTED : string;
  API_MAX : string;
  API_META : string;
  API_MIN : string;
  API_MODE : string;
  API_MODE_AVAILABLE : string;
  API_NAME : string;
  API_ONLINE : string;
  API_PARAMETERS : string;
  API_POWER : string;
  API_RAD_ACTIVE : string;
  API_RANGE_SP : string;
  API_REQ_ID : string;
  API_SETPOINT : string;
  API_STEP : string;
  API_SYSTEM_ID : string;
  API_TS : string;
  API_UNITS : string;
  API_ZONE_WORK_TEMP : string;
  (* device descriptions *)
  AZ_MANUFACTURER : string;
  AZ_MODEL_SYSTEM : string;
  AZ_MODEL_ZONE : string;
  (* keys of the published device data *)
  AZD_ACTIVE : string;
  AZD_AIR_ACTIVE : string;
  AZD_DEVICE_ID : string;
  AZD_HUMIDITY : string;
  AZD_ID : string;
  AZD_IS_CONNECTED : string;
  AZD_MODE : string;
  AZD_MODE_AVAILABLE : string;
  AZD_NAME : string;
  AZD_POWER : string;
  AZD_RAD_ACTIVE : string;
  AZD_SETPOINT : string;
  AZD_SETPOINT_MAX : string;
  AZD_SETPOINT_MIN : string;
  AZD_STEP : string;
  AZD_SYSTEM_ID : string;
  AZD_UNITS : string;
  AZD_ZONE_WORK_TEMP : string;
  (* Home Assistant topics and states *)
  HAD_AVAILABILITY : string;
  HAD_OFFLINE : string;
  HAD_ONLINE : string;
  HAD_STATE : string;
}.

(** [update.UpdateType] *)
Inductive UpdateType : Type :=
  | FULL
  | PARTIAL.

(** ** [device.py] *)

Record Device : Type := mkDevice {
  device_id : string;
  is_connected : bool;
  manufacturer : string;
  system_id : string;
  units : AZ_TemperatureUnit;
  (* assigned by the subclasses *)
  model : string;
  name : string;
  (* unassigned until [set_mqtt_topic] *)
  mqtt_topic : option string;
}.

Definition set_is_connected (v : bool) (d : Device) : Device :=
  mkDevice (device_id d) v (manufacturer d) (system_id d) (units d)
           (model d) (name d) (mqtt_topic d).

Definition set_units (v : AZ_TemperatureUnit) (d : Device) : Device :=
  mkDevice (device_id d) (is_connected d) (manufacturer d) (system_id d) v
           (model d) (name d) (mqtt_topic d).

Definition set_model (v : string) (d : Device) : Device :=
  mkDevice (device_id d) (is_connected d) (manufacturer d) (system_id d)
           (units d) v (name d) (mqtt_topic d).

Definition set_name (v : string) (d : Device) : Device :=
  mkDevice (device_id d) (is_connected d) (manufacturer d) (system_id d)
           (units d) (model d) v (mqtt_topic d).

Definition set_device_mqtt_topic (v : string) (d : Device) : Device :=
  mkDevice (device_id d) (is_connected d) (manufacturer d) (system_id d)
           (units d) (model d) (name d) (Some v).

(** [re.sub("[^0-9a-zA-Z_-]+", "_", s)]: every maximal run of characters
    outside the class becomes one underscore. *)
Definition is_id_char (c : Ascii.ascii) : bool :=
  let n := Ascii.nat_of_ascii c in
  ((48 <=? n) && (n <=? 57) || (65 <=? n) && (n <=? 90)
   || (97 <=? n) && (n <=? 122) || (n =? 95) || (n =? 45))%nat.

Fixpoint sub_non_id (in_run : bool) (s : string) : string :=
  match s with
  | EmptyString => EmptyString
  | String c s' =>
      if is_id_char c then String c (sub_non_id false s')
      else if in_run then sub_non_id true s'
      else String (Ascii.ascii_of_nat 95) (sub_non_id true s')
  end.

Section DeviceModel.
Context `{PF : PyFloat} `{PR : !PyRepr} `{AC : ApiConst}.

(** [Device.__init__] *)
Definition Device_init (data : json) : result Device :=
  match py_get data API_DEVICE_ID with
  | Raise e => Raise e
  | Ok dev_id =>
      match py_get data API_SYSTEM_ID with
      | Raise e => Raise e
      | Ok sys_id =>
          Ok {| device_id := py_str dev_id;
                is_connected := false;
                manufacturer := AZ_MANUFACTURER;
                system_id := py_str sys_id;
                units := CELSIUS;
                model := "";
                name := "";
                mqtt_topic := None |}
      end
  end.

(** [Device.get_id] *)
Definition get_id (d : Device) : string :=
  system_id d +:+ ":" +:+ device_id d.

(** [Device.get_id_ha] *)
Definition get_id_ha (d : Device) : string :=
  sub_non_id false (get_id d).

Definition get_is_connected (d : Device) : bool := is_connected d.

Definition get_units (d : Device) : AZ_TemperatureUnit := units d.

(** [Device.get_units_ha] *)
Definition get_units_ha (d : Device) : HA_UnitOfTemperature :=
  match get_units d with
  | CELSIUS => HA_CELSIUS
  | FAHRENHEIT => HA_FAHRENHEIT
  end.

(** [Device.data]: the dict display, evaluated left to right *)
Definition Device_data (d : Device) : gmap string json :=
  <[AZD_UNITS := JInt (AZ_TemperatureUnit_value (units d))]>
  (<[AZD_SYSTEM_ID := JStr (system_id d)]>
  (<[AZD_IS_CONNECTED := JBool (is_connected d)]>
  (<[AZD_ID := JStr (get_id d)]>
  (<[AZD_DEVICE_ID := JStr (device_id d)]> ∅)))).

(** [if v is not None: body(v)] *)
Definition if_not_None {S} (v : json) (body : json → M S unit) : M S unit :=
  if is_None v then ret tt else body v.

(** [Device.update] *)
Definition Device_update (data : json) (update_type : UpdateType)
  : M Device unit :=
  meta <- lift_result (py_get_or data API_META (JObj [])) ;;
  parameters <- lift_result (py_get_or data API_PARAMETERS (JObj [])) ;;
  is_connected <- lift_result (py_get parameters API_IS_CONNECTED) ;;
  if_not_None is_connected (λ v, modify (set_is_connected (py_bool v))) ;;;
  units <- lift_result (py_get meta API_UNITS) ;;
  if_not_None units (λ v,
    u <- lift_result (AZ_TemperatureUnit_of v) ;;
    modify (set_units u)) ;;;
  (* the partial update is only logged *)
  ret tt.
End DeviceModel.

(** ** [system.py] *)

Record System : Type := mkSystem {
  system_dev : Device;
}.

Section SystemModel.
Context `{PF : PyFloat} `{PR : !PyRepr} `{AC : ApiConst}.

(** Run a method of the base class on the [Device] part of a system. *)
Definition on_system_dev {A} (m : M Device A) : M System A :=
  λ s, let '(d, r) := m (system_dev s) in (mkSystem d, r).

(** [System.__init__] *)
Definition System_init (data : json) : result System :=
  match Device_init data with
  | Raise e => Raise e
  | Ok d =>
      Ok (mkSystem
            (set_name ("System [" +:+ get_id d +:+ "]")
               (set_model AZ_MODEL_SYSTEM d)))
  end.

(** [System.set_mqtt_topic] *)
Definition System_set_mqtt_topic (pfx : string) (s : System) : System :=
  mkSystem
    (set_device_mqtt_topic
       (pfx +:+ "/system/" +:+ get_id_ha (system_dev s)) (system_dev s)).

(** [System.data] *)
Definition System_data (s : System) : gmap string json :=
  Device_data (system_dev s).

(** [System.update] *)
Definition System_update (data : json) (update_type : UpdateType)
  : M System unit :=
  on_system_dev (Device_update data update_type) ;;;
  (* the partial update is only logged *)
  ret tt.
End SystemModel.

(** ** [zone.py] *)

Record Zone `{PyFloat} : Type := mkZone {
  zone_dev : Device;
  air_active : option bool;
  humidity : option Z;
  mode : option AZ_Mode;
  mode_available : list AZ_Mode;
  power : option bool;
  rad_active : option bool;
  setpoint : option float;
  setpoint_max : option float;
  setpoint_min : option float;
  step : option float;
  zone_work_temp : option float;
}.

Arguments mkZone {_} _ _ _ _ _ _ _ _ _ _ _ _.

Section ZoneModel.
Context `{PF : PyFloat} `{PR : !PyRepr} `{AC : ApiConst}.

Definition set_zone_dev (v : Device) (z : Zone) : Zone :=
  mkZone v (air_active z) (humidity z) (mode z) (mode_available z)
    (power z) (rad_active z) (setpoint z) (setpoint_max z)
    (setpoint_min z) (step z) (zone_work_temp z).

Definition set_air_active (v : option bool) (z : Zone) : Zone :=
  mkZone (zone_dev z) v (humidity z) (mode z) (mode_available z)
    (power z) (rad_active z) (setpoint z) (setpoint_max z)
    (setpoint_min z) (step z) (zone_work_temp z).

Definition set_humidity (v : option Z) (z : Zone) : Zone :=
  mkZone (zone_dev z) (air_active z) v (mode z) (mode_available z)
    (power z) (rad_active z) (setpoint z) (setpoint_max z)
    (setpoint_min z) (step z) (zone_work_temp z).

Definition set_mode (v : option AZ_Mode) (z : Zone) : Zone :=
  mkZone (zone_dev z) (air_active z) (humidity z) v (mode_available z)
    (power z) (rad_active z) (setpoint z) (setpoint_max z)
    (setpoint_min z) (step z) (zone_work_temp z).

Definition set_mode_available (v : list AZ_Mode) (z : Zone) : Zone :=
  mkZone (zone_dev z) (air_active z) (humidity z) (mode z) v
    (power z) (rad_active z) (setpoint z) (setpoint_max z)
    (setpoint_min z) (step z) (zone_work_temp z).

Definition set_power (v : option bool) (z : Zone) : Zone :=
  mkZone (zone_dev z) (air_active z) (humidity z) (mode z)
    (mode_available z) v (rad_active z) (setpoint z) (setpoint_max z)
    (setpoint_min z) (step z) (zone_work_temp z).

Definition set_rad_active (v : option bool) (z : Zone) : Zone :=
  mkZone (zone_dev z) (air_active z) (humidity z) (mode z)
    (mode_available z) (power z) v (setpoint z) (setpoint_max z)
    (setpoint_min z) (step z) (zone_work_temp z).

Definition set_setpoint (v : option float) (z : Zone) : Zone :=
  mkZone (zone_dev z) (air_active z) (humidity z) (mode z)
    (mode_available z) (power z) (rad_active z) v (setpoint_max z)
    (setpoint_min z) (step z) (zone_work_temp z).

Definition set_setpoint_max (v : option float) (z : Zone) : Zone :=
  mkZone (zone_dev z) (air_active z) (humidity z) (mode z)
    (mode_available z) (power z) (rad_active z) (setpoint z) v
    (setpoint_min z) (step z) (zone_work_temp z).

Definition set_setpoint_min (v : option float) (z : Zone) : Zone :=
  mkZone (zone_dev z) (air_active z) (humidity z) (mode z)
    (mode_available z) (power z) (rad_active z) (setpoint z)
    (setpoint_max z) v (step z) (zone_work_temp z).

Definition set_step (v : option float) (z : Zone) : Zone :=
  mkZone (zone_dev z) (air_active z) (humidity z) (mode z)
    (mode_available z) (power z) (rad_active z) (setpoint z)
    (setpoint_max z) (setpoint_min z) v (zone_work_temp z).

Definition set_zone_work_temp (v : option float) (z : Zone) : Zone :=
  mkZone (zone_dev z) (air_active z) (humidity z) (mode z)
    (mode_available z) (power z) (rad_active z) (setpoint z)
    (setpoint_max z) (setpoint_min z) (step z) v.

(** Run a method of the base class on the [Device] part of a zone. *)
Definition on_zone_dev {A} (m : M Device A) : M Zone A :=
  λ z, let '(d, r) := m (zone_dev z) in (set_zone_dev d z, r).

(** [Zone.__init__] *)
Definition Zone_init (data : json) : result Zone :=
  match Device_init data with
  | Raise e => Raise e
  | Ok d =>
      Ok {| zone_dev :=
              set_name ("Zone [" +:+ get_id d +:+ "]")
                (set_model AZ_MODEL_ZONE d);
            air_active := None;
            humidity := None;
            mode := None;
            mode_available := [];
            power := None;
            rad_active := None;
            setpoint := None;
            setpoint_max := None;
            setpoint_min := None;
            step := None;
            zone_work_temp := None |}
  end.

(** [Zone.get_active]: [bool(None)] is [False] *)
Definition get_active (z : Zone) : bool :=
  default false (air_active z) || default false (rad_active z).

Definition get_air_active (z : Zone) : option bool := air_active z.

Definition get_humidity (z : Zone) : option Z := humidity z.

Definition get_mode (z : Zone) : option Z :=
  match mode z with
  | Some m => Some (AZ_Mode_value m)
  | None => None
  end.

(** [Zone.get_mode_available]: [None] for the empty list *)
Definition get_mode_available (z : Zone) : option (list Z) :=
  let mode_available := map AZ_Mode_value (mode_available z) in
  if (0 <? length mode_available)%nat then Some mode_available else None.

Definition get_name (z : Zone) : string := name (zone_dev z).

Definition get_power (z : Zone) : option bool := power z.

Definition get_rad_active (z : Zone) : option bool := rad_active z.

Definition get_setpoint (z : Zone) : option float :=
  match setpoint z with
  | Some x => Some (float_round1 x)
  | None => None
  end.

Definition get_setpoint_max (z : Zone) : option float :=
  match setpoint_max z with
  | Some x => Some (float_round1 x)
  | None => None
  end.

Definition get_setpoint_min (z : Zone) : option float :=
  match setpoint_min z with
  | Some x => Some (float_round1 x)
  | None => None
  end.

Definition get_step (z : Zone) : option float :=
  match step z with
  | Some x => Some (float_round1 x)
  | None => None
  end.

Definition get_zone_work_temp (z : Zone) : option float :=
  match zone_work_temp z with
  | Some x => Some (float_round1 x)
  | None => None
  end.

(** [Zone.set_mqtt_topic] *)
Definition Zone_set_mqtt_topic (pfx : string) (z : Zone) : Zone :=
  set_zone_dev
    (set_device_mqtt_topic
       (pfx +:+ "/zone/" +:+ get_id_ha (zone_dev z)) (zone_dev z)) z.

(** [if v is not None: data[k] = v] *)
Definition put_if_set {A} (k : string) (v : option A) (to_json : A → json)
    (data : gmap string json) : gmap string json :=
  match v with
  | Some a => <[k := to_json a]> data
  | None => data
  end.

(** [Zone.data] *)
Definition Zone_data (z : Zone) : gmap string json :=
  let data := Device_data (zone_dev z) in
  let data := <[AZD_ACTIVE := JBool (get_active z)]> data in
  let data := put_if_set AZD_AIR_ACTIVE (get_air_active z) JBool data in
  let data := put_if_set AZD_HUMIDITY (get_humidity z) JInt data in
  let data := put_if_set AZD_MODE (get_mode z) JInt data in
  let data := put_if_set AZD_MODE_AVAILABLE (get_mode_available z)
                (λ l, JList (map JInt l)) data in
  let data := put_if_set AZD_NAME (Some (get_name z)) JStr data in
  let data := put_if_set AZD_POWER (get_power z) JBool data in
  let data := put_if_set AZD_RAD_ACTIVE (get_rad_active z) JBool data in
  let data := put_if_set AZD_SETPOINT (get_setpoint z) JFloat data in
  let data := put_if_set AZD_SETPOINT_MAX (get_setpoint_max z) JFloat data in
  let data := put_if_set AZD_SETPOINT_MIN (get_setpoint_min z) JFloat data in
  let data := put_if_set AZD_STEP (get_step z) JFloat data in
  let data := put_if_set AZD_ZONE_WORK_TEMP (get_zone_work_temp z) JFloat data in
  data.

(** [self.mode_available.extend([AZ_Mode(cur_mode)])] *)
Definition extend_mode_available (cur_mode : json) : M Zone unit :=
  modify (λ z, set_mode_available
                 (mode_available z ++ [AZ_Mode_of cur_mode]) z).

(** [Zone.update] *)
Definition Zone_update (data : json) (update_type : UpdateType)
  : M Zone unit :=
  on_zone_dev (Device_update data update_type) ;;;
  parameters <- lift_result (py_get_or data API_PARAMETERS (JObj [])) ;;
  air_active <- lift_result (py_get parameters API_AIR_ACTIVE) ;;
  if_not_None air_active (λ v,
    modify (set_air_active (Some (py_bool v)))) ;;;
  humidity <- lift_result (py_get parameters API_HUMIDITY) ;;
  if_not_None humidity (λ v,
    n <- lift_result (py_int v) ;;
    modify (set_humidity (Some n))) ;;;
  mode <- lift_result (py_get parameters API_MODE) ;;
  if_not_None mode (λ v,
    modify (set_mode (Some (AZ_Mode_of v)))) ;;;
  mode_available <- lift_result (py_get parameters API_MODE_AVAILABLE) ;;
  if_not_None mode_available (λ v,
    modify (set_mode_available []) ;;;
    items <- lift_result (py_iter v) ;;
    for_each items extend_mode_available) ;;;
  name <- lift_result (py_get parameters API_NAME) ;;
  if_not_None name (λ v,
    modify (λ z, set_zone_dev (set_name (py_str v) (zone_dev z)) z)) ;;;
  power <- lift_result (py_get parameters API_POWER) ;;
  if_not_None power (λ v,
    modify (set_power (Some (py_bool v)))) ;;;
  rad_active <- lift_result (py_get parameters API_RAD_ACTIVE) ;;
  if_not_None rad_active (λ v,
    modify (set_rad_active (Some (py_bool v)))) ;;;
  range_sp <- lift_result (py_get_or parameters API_RANGE_SP (JObj [])) ;;
  setpoint_max <- lift_result (py_get range_sp API_MAX) ;;
  if_not_None setpoint_max (λ v,
    x <- lift_result (py_float v) ;;
    modify (set_setpoint_max (Some x))) ;;;
  setpoint_min <- lift_result (py_get range_sp API_MIN) ;;
  if_not_None setpoint_min (λ v,
    x <- lift_result (py_float v) ;;
    modify (set_setpoint_min (Some x))) ;;;
  setpoint <- lift_result (py_get parameters API_SETPOINT) ;;
  if_not_None setpoint (λ v,
    x <- lift_result (py_float v) ;;
    modify (set_setpoint (Some x))) ;;;
  step <- lift_result (py_get parameters API_STEP) ;;
  if_not_None step (λ v,
    x <- lift_result (py_float v) ;;
    modify (set_step (Some x))) ;;;
  zone_work_temp <- lift_result (py_get parameters API_ZONE_WORK_TEMP) ;;
  if_not_None zone_work_temp (λ v,
    x <- lift_result (py_float v) ;;
    modify (set_zone_work_temp (Some x))) ;;;
  (* the partial update is only logged *)
  ret tt.
End ZoneModel.

(** ** [config.py] *)

Module Config.
Record t : Type := mk {
  poll_timeout : Z;
  scan_interval : Z;
  topic_airzone : string;
  topic_homeassistant : string;
  topic_interface : string;
}.

(** [Config.__init__]; [timedelta(minutes=15)] and
    [timedelta(seconds=60)] in microseconds *)
Definition init : t :=
  {| poll_timeout := 15 * 60 * 1000000;
     scan_interval := 60 * 1000000;
     topic_airzone := "airzone";
     topic_homeassistant := "homeassistant-test";
     topic_interface := "airzone-mqtt-hass" |}.
End Config.

(** ** String methods used by [airzone.py] *)

(** [s.replace(".", "_")] *)
Fixpoint replace_dot (s : string) : string :=
  match s with
  | EmptyString => EmptyString
  | String c s' =>
      String (if Ascii.eqb c (Ascii.ascii_of_nat 46)
              then Ascii.ascii_of_nat 95 else c) (replace_dot s')
  end.

(** [s.removeprefix(p)] *)
Fixpoint strip_prefix (p s : string) : option string :=
  match p, s with
  | EmptyString, _ => Some s
  | String a p', String b s' =>
      if Ascii.eqb a b then strip_prefix p' s' else None
  | String _ _, EmptyString => None
  end.

Definition removeprefix (p s : string) : string :=
  default s (strip_prefix p s).

(** [s.split("/")]: never empty, [""] splits into [[""]] *)
Fixpoint split_slash (s : string) : list string :=
  match s with
  | EmptyString => [EmptyString]
  | String c s' =>
      if Ascii.eqb c (Ascii.ascii_of_nat 47) then EmptyString :: split_slash s'
      else match split_slash s' with
           | [] => [String c EmptyString]
           | w :: ws => String c w :: ws
           end
  end.

(** ** [airzone.py] *)

(** Calendar fields of a [datetime] and [datetime.fromtimestamp], which are
    the standard library's. *)
Class PyDatetime `{PyFloat} : Type := {
  (** year, month, day, hour, minute, second, microsecond *)
  datetime_fields : Z → Z * Z * Z * Z * Z * Z * Z;
  (** [datetime.fromtimestamp(x, tz=TZ_UTC)] *)
  datetime_fromtimestamp : float → result Z;
}.

(** The request envelope [cmd_az_get_status] builds: its three headers; the
    body is [None]. *)
Record request : Type := mkRequest {
  req_cmd : string;
  req_destination : string;
  req_req_id : string;
}.

(** What is handed to [mqtt_publish]. The payload of a device publication
    is serialised when its task runs, and is not recorded. *)
Inductive payload : Type :=
  | PayloadRequest (r : request)
  | PayloadState
  | PayloadAvailability.

Record publication : Type := mkPublication {
  pub_topic : string;
  pub_payload : payload;
}.

(** The coroutine registered with [set_update_callback]: the repository
    registers [Interface.airzone_callback], which awaits [mqtt_update]. *)
Inductive Callback : Type :=
  | airzone_callback.

(** A message taken from the transport's queue: the clock reading when the
    router handles it, its topic, and its payload as [json.loads] sees it
    ([None] when the payload is no JSON document). *)
Record inbound `{PyFloat} : Type := mkInbound {
  in_now : Z;
  in_topic : string;
  in_payload : option json;
}.

Arguments mkInbound {_} _ _ _.

Record Airzone `{PyFloat} : Type := mkAirzone {
  api_init : bool;
  (* asyncio.Event: is it set? *)
  api_init_event : bool;
  (* asyncio.Lock: is it held? *)
  api_lock : bool;
  api_raw_data : gmap string json;
  (* asyncio.Event: is it set? *)
  api_resp : bool;
  api_req_id : string;
  callback_function : option Callback;
  config : Config.t;
  mqtt_prefix : string;
  airzone_mqtt_topic : string;
  online : bool;
  (* asyncio.Event: is it set? *)
  online_event : bool;
  poll_timeout : Z;
  scan_interval : Z;
  systems : gmap string System;
  update_dt : option Z;
  zones : gmap string Zone;
  (* the calls of [mqtt_publish] so far, oldest first *)
  published : list publication;
}.

Arguments mkAirzone {_} _ _ _ _ _ _ _ _ _ _ _ _ _ _ _ _ _ _.

Section AirzoneState.
Context `{PF : PyFloat}.

Definition set_api_init (v : bool) (st : Airzone) : Airzone :=
  mkAirzone v (api_init_event st) (api_lock st) (api_raw_data st)
    (api_resp st) (api_req_id st) (callback_function st) (config st)
    (mqtt_prefix st) (airzone_mqtt_topic st) (online st) (online_event st)
    (poll_timeout st) (scan_interval st) (systems st) (update_dt st)
    (zones st) (published st).

Definition set_api_init_event (v : bool) (st : Airzone) : Airzone :=
  mkAirzone (api_init st) v (api_lock st) (api_raw_data st) (api_resp st)
    (api_req_id st) (callback_function st) (config st) (mqtt_prefix st)
    (airzone_mqtt_topic st) (online st) (online_event st)
    (poll_timeout st) (scan_interval st) (systems st) (update_dt st)
    (zones st) (published st).

Definition set_api_lock (v : bool) (st : Airzone) : Airzone :=
  mkAirzone (api_init st) (api_init_event st) v (api_raw_data st)
    (api_resp st) (api_req_id st) (callback_function st) (config st)
    (mqtt_prefix st) (airzone_mqtt_topic st) (online st) (online_event st)
    (poll_timeout st) (scan_interval st) (systems st) (update_dt st)
    (zones st) (published st).

Definition set_api_raw_data (v : gmap string json) (st : Airzone) : Airzone :=
  mkAirzone (api_init st) (api_init_event st) (api_lock st) v
    (api_resp st) (api_req_id st) (callback_function st) (config st)
    (mqtt_prefix st) (airzone_mqtt_topic st) (online st) (online_event st)
    (poll_timeout st) (scan_interval st) (systems st) (update_dt st)
    (zones st) (published st).

Definition set_api_resp (v : bool) (st : Airzone) : Airzone :=
  mkAirzone (api_init st) (api_init_event st) (api_lock st)
    (api_raw_data st) v (api_req_id st) (callback_function st) (config st)
    (mqtt_prefix st) (airzone_mqtt_topic st) (online st) (online_event st)
    (poll_timeout st) (scan_interval st) (systems st) (update_dt st)
    (zones st) (published st).

Definition set_api_req_id (v : string) (st : Airzone) : Airzone :=
  mkAirzone (api_init st) (api_init_event st) (api_lock st)
    (api_raw_data st) (api_resp st) v (callback_function st) (config st)
    (mqtt_prefix st) (airzone_mqtt_topic st) (online st) (online_event st)
    (poll_timeout st) (scan_interval st) (systems st) (update_dt st)
    (zones st) (published st).

Definition set_callback_function (v : option Callback) (st : Airzone) : Airzone :=
  mkAirzone (api_init st) (api_init_event st) (api_lock st)
    (api_raw_data st) (api_resp st) (api_req_id st) v (config st)
    (mqtt_prefix st) (airzone_mqtt_topic st) (online st) (online_event st)
    (poll_timeout st) (scan_interval st) (systems st) (update_dt st)
    (zones st) (published st).

Definition set_online (v : bool) (st : Airzone) : Airzone :=
  mkAirzone (api_init st) (api_init_event st) (api_lock st)
    (api_raw_data st) (api_resp st) (api_req_id st) (callback_function st)
    (config st) (mqtt_prefix st) (airzone_mqtt_topic st) v
    (online_event st) (poll_timeout st) (scan_interval st) (systems st)
    (update_dt st) (zones st) (published st).

Definition set_online_event (v : bool) (st : Airzone) : Airzone :=
  mkAirzone (api_init st) (api_init_event st) (api_lock st)
    (api_raw_data st) (api_resp st) (api_req_id st) (callback_function st)
    (config st) (mqtt_prefix st) (airzone_mqtt_topic st) (online st) v
    (poll_timeout st) (scan_interval st) (systems st) (update_dt st)
    (zones st) (published st).

Definition set_systems (v : gmap string System) (st : Airzone) : Airzone :=
  mkAirzone (api_init st) (api_init_event st) (api_lock st)
    (api_raw_data st) (api_resp st) (api_req_id st) (callback_function st)
    (config st) (mqtt_prefix st) (airzone_mqtt_topic st) (online st)
    (online_event st) (poll_timeout st) (scan_interval st) v
    (update_dt st) (zones st) (published st).

Definition set_update_dt (v : option Z) (st : Airzone) : Airzone :=
  mkAirzone (api_init st) (api_init_event st) (api_lock st)
    (api_raw_data st) (api_resp st) (api_req_id st) (callback_function st)
    (config st) (mqtt_prefix st) (airzone_mqtt_topic st) (online st)
    (online_event st) (poll_timeout st) (scan_interval st) (systems st) v
    (zones st) (published st).

Definition set_zones (v : gmap string Zone) (st : Airzone) : Airzone :=
  mkAirzone (api_init st) (api_init_event st) (api_lock st)
    (api_raw_data st) (api_resp st) (api_req_id st) (callback_function st)
    (config st) (mqtt_prefix st) (airzone_mqtt_topic st) (online st)
    (online_event st) (poll_timeout st) (scan_interval st) (systems st)
    (update_dt st) v (published st).

Definition set_published (v : list publication) (st : Airzone) : Airzone :=
  mkAirzone (api_init st) (api_init_event st) (api_lock st)
    (api_raw_data st) (api_resp st) (api_req_id st) (callback_function st)
    (config st) (mqtt_prefix st) (airzone_mqtt_topic st) (online st)
    (online_event st) (poll_timeout st) (scan_interval st) (systems st)
    (update_dt st) (zones st) v.
End AirzoneState.

Section AirzoneModel.
Context `{PF : PyFloat} `{PR : !PyRepr} `{PD : !PyDatetime} `{AC : ApiConst}.

(** [Airzone.__init__] *)
Definition Airzone_init (config : Config.t) : Airzone :=
  {| api_init := false;
     api_init_event := false;
     api_lock := false;
     api_raw_data := {[API_AZ_GET_STATUS := JNull]};
     api_resp := false;
     api_req_id := "";
     callback_function := None;
     config := config;
     mqtt_prefix := Config.topic_airzone config +:+ "/" +:+ AMT_V1;
     airzone_mqtt_topic := Config.topic_airzone config;
     online := false;
     online_event := false;
     poll_timeout := Config.poll_timeout config;
     scan_interval := Config.scan_interval config;
     systems := ∅;
     update_dt := None;
     zones := ∅;
     published := [] |}.

(** [Airzone.set_update_callback] *)
Definition set_update_callback (cb : Callback) (st : Airzone) : Airzone :=
  set_callback_function (Some cb) st.

(** [Airzone.api_safe_str] *)
Definition api_safe_str (topic : string) : string := replace_dot topic.

(** [json.loads(payload)] *)
Definition json_loads (payload : option json) : result json :=
  match payload with
  | Some data => Ok data
  | None => Raise JSONDecodeError
  end.

(** [topic[0]] *)
Definition topic_0 (topic : list string) : result string :=
  match topic with
  | t :: _ => Ok t
  | [] => Raise IndexError
  end.

(** [if topic[0] == seg: topic.pop(0)], returning the list afterwards *)
Definition pop_if_first (seg : string) (topic : list string)
  : result (list string) :=
  match topic_0 topic with
  | Raise e => Raise e
  | Ok t => Ok (if String.eqb t seg then tail topic else topic)
  end.

(** [await self.mqtt_publish(topic, payload, 0, False)] *)
Definition mqtt_publish (topic : string) (p : payload) : M Airzone unit :=
  modify (λ st, set_published (published st ++ [mkPublication topic p]) st).

(** [Airzone.get_dev_avail] *)
Definition get_dev_avail (st : Airzone) (d : Device) : string :=
  if online st && get_is_connected d then HAD_ONLINE else HAD_OFFLINE.

(** [mqtt_update_system] and [mqtt_update_zone]: the state and the
    availability of one device; a device without topic publishes
    nothing, its task failing on the missing attribute. *)
Definition mqtt_update_device (d : Device) : list publication :=
  match mqtt_topic d with
  | Some device_topic =>
      [mkPublication (device_topic +:+ "/state") PayloadState;
       mkPublication (device_topic +:+ "/" +:+ HAD_AVAILABILITY)
         PayloadAvailability]
  | None => []
  end.

(** [Airzone.mqtt_update]: one task per system, then one per zone; what
    the tasks publish is recorded here, where they are created *)
Definition mqtt_update : M Airzone unit :=
  modify (λ st,
    set_published
      (published st
       ++ flat_map (λ kv, mqtt_update_device (system_dev kv.2))
            (map_to_list (systems st))
       ++ flat_map (λ kv, mqtt_update_device (zone_dev kv.2))
            (map_to_list (zones st))) st).

Definition run_callback (cb : Callback) : M Airzone unit :=
  match cb with
  | airzone_callback => mqtt_update
  end.

(** [Airzone.update_callback] *)
Definition update_callback (data : json) (now : Z) : M Airzone unit :=
  headers <- lift_result (py_get_or data API_HEADERS (JObj [])) ;;
  data_ts <- lift_result (py_get headers API_TS) ;;
  (if is_None data_ts
   then modify (set_update_dt (Some now))
   else x <- lift_result (py_float data_ts) ;;
        dt <- lift_result (datetime_fromtimestamp x) ;;
        modify (set_update_dt (Some dt))) ;;;
  st <- get ;;
  match callback_function st with
  | Some cb => run_callback cb
  | None => ret tt
  end.

(** A method run on an object that was just constructed and is not yet
    referenced from anywhere else: an exception discards the object. *)
Definition on_fresh {S} (m : M S unit) (s : S) : result S :=
  match m s with
  | (s', Ok _) => Ok s'
  | (_, Raise e) => Raise e
  end.

(** [if system_id not in self.systems: self.systems[system_id] = system] *)
Definition store_system (system : System) : M Airzone unit :=
  modify (λ st,
    let system_id := get_id (system_dev system) in
    match systems st !! system_id with
    | Some _ => st
    | None => set_systems (<[system_id := system]> (systems st)) st
    end).

(** [if zone_id not in self.zones: self.zones[zone_id] = zone] *)
Definition store_zone (zone : Zone) : M Airzone unit :=
  modify (λ st,
    let zone_id := get_id (zone_dev zone) in
    match zones st !! zone_id with
    | Some _ => st
    | None => set_zones (<[zone_id := zone]> (zones st)) st
    end).

(** The body of the loop of [api_az_get_status] *)
Definition api_az_get_status_device (mqtt_topic_pfx : string)
    (device : json) : M Airzone unit :=
  dev_type <- lift_result (py_get device API_DEVICE_TYPE) ;;
  if py_eq_str dev_type API_AZ_SYSTEM then
    system <- lift_result (System_init device) ;;
    system <- lift_result (on_fresh (System_update device FULL) system) ;;
    store_system (System_set_mqtt_topic mqtt_topic_pfx system)
  else if py_eq_str dev_type API_AZ_ZONE then
    zone <- lift_result (Zone_init device) ;;
    zone <- lift_result (on_fresh (Zone_update device FULL) zone) ;;
    store_zone (Zone_set_mqtt_topic mqtt_topic_pfx zone)
  else
    (* unknown device: logged *)
    ret tt.

(** [Airzone.api_az_get_status] *)
Definition api_az_get_status (data : json) (now : Z) : M Airzone unit :=
  let cur_dt := now in
  modify (λ st,
    set_api_raw_data (<[API_AZ_GET_STATUS := data]> (api_raw_data st)) st) ;;;
  body <- lift_result (py_get_or data API_BODY (JObj [])) ;;
  devices <- lift_result (py_get_or body API_DEVICES (JList [])) ;;
  st <- get ;;
  let mqtt_topic_pfx :=
    Config.topic_interface (config st) +:+ "/" +:+ airzone_mqtt_topic st in
  devices <- lift_result (py_iter devices) ;;
  for_each devices (api_az_get_status_device mqtt_topic_pfx) ;;;
  st <- get ;;
  (if negb (api_init st)
   then modify (set_api_init true) ;;; modify (set_api_init_event true)
   else ret tt) ;;;
  modify (set_update_dt (Some cur_dt)).

(** [Airzone.cmd_destination] *)
Definition cmd_destination (st : Airzone) (topic : string) : string :=
  let topic := api_safe_str topic in
  mqtt_prefix st +:+ "/" +:+ AMT_RESPONSE +:+ "/" +:+ topic.

(** [Airzone.cmd_req_id] *)
Definition cmd_req_id (req_id : string) (now : Z) : string :=
  let req_id := api_safe_str req_id in
  let '(year, month, day, hour, minute, second, microsecond) :=
    datetime_fields now in
  let cur_date := pretty year +:+ "/" +:+ pretty month +:+ "/" +:+ pretty day in
  let cur_time :=
    pretty hour +:+ ":" +:+ pretty minute +:+ ":" +:+ pretty second in
  let time_id := cur_date +:+ "-" +:+ cur_time +:+ "." +:+ pretty microsecond in
  AMT_REQUEST +:+ "-" +:+ time_id +:+ "-" +:+ req_id.

(** [Airzone.get_system]; the identifiers are formatted by an f-string *)
Definition get_system (st : Airzone) (system_id device_id : json)
  : option System :=
  systems st !! (py_str system_id +:+ ":" +:+ py_str device_id).

(** [Airzone.get_zone] *)
Definition get_zone (st : Airzone) (system_id device_id : json)
  : option Zone :=
  zones st !! (py_str system_id +:+ ":" +:+ py_str device_id).

(** A method called on the system stored under [key]: the object is
    mutated in place, also when the method raises. *)
Definition on_system (key : string) (system : System) (m : M System unit)
  : M Airzone unit :=
  λ st, let '(system', r) := m system in
        (set_systems (<[key := system']> (systems st)) st, r).

(** A method called on the zone stored under [key] *)
Definition on_zone (key : string) (zone : Zone) (m : M Zone unit)
  : M Airzone unit :=
  λ st, let '(zone', r) := m zone in
        (set_zones (<[key := zone']> (zones st)) st, r).

(** [Airzone.msg_events_status] *)
Definition msg_events_status (topic : list string) (payload : option json)
    (now : Z) : M Airzone unit :=
  topic <- lift_result (pop_if_first AMT_STATUS topic) ;;
  data <- lift_result (json_loads payload) ;;
  body <- lift_result (py_get_or data API_BODY (JObj [])) ;;
  device_id <- lift_result (py_get body API_DEVICE_ID) ;;
  device_type <- lift_result (py_get body API_DEVICE_TYPE) ;;
  system_id <- lift_result (py_get body API_SYSTEM_ID) ;;
  let key := py_str system_id +:+ ":" +:+ py_str device_id in
  st <- get ;;
  if py_eq_str device_type API_AZ_SYSTEM then
    match get_system st system_id device_id with
    | Some system =>
        on_system key system (System_update body PARTIAL) ;;;
        update_callback data now
    | None => ret tt
    end
  else if py_eq_str device_type API_AZ_ZONE then
    match get_zone st system_id device_id with
    | Some zone =>
        on_zone key zone (Zone_update body PARTIAL) ;;;
        update_callback data now
    | None => ret tt
    end
  else
    (* logged *)
    ret tt.

(** [Airzone.msg_events] *)
Definition msg_events (topic : list string) (payload : option json)
    (now : Z) : M Airzone unit :=
  topic <- lift_result (pop_if_first AMT_EVENTS topic) ;;
  t0 <- lift_result (topic_0 topic) ;;
  if String.eqb t0 AMT_STATUS then msg_events_status topic payload now
  else (* logged *) ret tt.

(** [Airzone.msg_online]; [self.online] is only ever tested for truth *)
Definition msg_online (payload : option json) : M Airzone unit :=
  data <- lift_result (json_loads payload) ;;
  v <- lift_result (py_get_or data API_ONLINE (JBool false)) ;;
  modify (set_online (py_bool v)) ;;;
  (if py_bool v
   then modify (set_online_event true)
   else modify (set_online_event false)).

(** [Airzone.msg_response] *)
Definition msg_response (topic : list string) (payload : option json)
    (now : Z) : M Airzone unit :=
  data <- lift_result (json_loads payload) ;;
  headers <- lift_result (py_get_or data API_HEADERS (JObj [])) ;;
  req_id <- lift_result (py_get headers API_REQ_ID) ;;
  st <- get ;;
  (if py_eq_str req_id (api_req_id st)
   then modify (set_api_resp true)
   else (* logged as an error *) ret tt) ;;;
  topic <- lift_result (pop_if_first AMT_RESPONSE topic) ;;
  t0 <- lift_result (topic_0 topic) ;;
  if String.eqb t0 (api_safe_str API_AZ_GET_STATUS) then
    api_az_get_status data now ;;;
    update_callback (JObj []) now
  else
    (* logged *)
    ret tt.

(** [Airzone.msg_process] *)
Definition msg_process (topic_str : string) (payload : option json)
    (now : Z) : M Airzone unit :=
  st <- get ;;
  let topic_str := removeprefix (mqtt_prefix st +:+ "/") topic_str in
  let topic := split_slash topic_str in
  t0 <- lift_result (topic_0 topic) ;;
  if String.eqb t0 AMT_EVENTS then msg_events topic payload now
  else if String.eqb t0 AMT_INVOKE then (* msg_invoke: logged *) ret tt
  else if String.eqb t0 AMT_ONLINE then msg_online payload
  else if String.eqb t0 AMT_RESPONSE then msg_response topic payload now
  else (* msg_unknown: logged *) ret tt.

(** [s.startswith(p)] *)
Definition startswith (s p : string) : bool :=
  match strip_prefix p s with Some _ => true | None => false end.

(** One turn of the loop of [Interface.mqtt_task]; the messages of Home
    Assistant and the unknown ones leave the [Airzone] object alone. *)
Definition mqtt_task_msg (msg : inbound) : M Airzone unit :=
  st <- get ;;
  if startswith (in_topic msg) (Config.topic_interface (config st))
  then ret tt
  else if startswith (in_topic msg) (airzone_mqtt_topic st)
  then msg_process (in_topic msg) (in_payload msg) (in_now msg)
  else ret tt.

(** What [Interface.mqtt_task] does to the [Airzone] object while another
    coroutine is suspended: it handles the queued messages in order. A
    message on which it raises ends the task, and the later ones are
    never handled. *)
Fixpoint mqtt_task (msgs : list inbound) (st : Airzone) : Airzone :=
  match msgs with
  | [] => st
  | msg :: msgs' =>
      match mqtt_task_msg msg st with
      | (st', Ok _) => mqtt_task msgs' st'
      | (st', Raise _) => st'
      end
  end.

(** [asyncio.Lock.release] *)
Definition Lock_release : M Airzone unit :=
  st <- get ;;
  if api_lock st then modify (set_api_lock false)
  else raise RuntimeError.

(** [async with self.api_lock], entered under the deadline of the caller:
    [asyncio.Lock.acquire]. Nothing but [cmd_invoke] takes the lock, and
    it holds it while it waits for its response under the deadline of its
    own caller. A lock that is held is therefore given back before the
    deadline of a later caller has come, at the latest when the deadline
    of its holder comes, which was set earlier for the same timeout; the
    release wakes the later caller, which takes the lock. The holder is
    taken to give the lock back before the router handles its next
    message. *)
Definition Lock_acquire : M Airzone unit :=
  st <- get ;;
  if api_lock st then
    (* the holder leaves its [async with]: [Lock.release] *)
    modify (set_api_lock false) ;;;
    modify (set_api_lock true)
  else
    modify (set_api_lock true).

(** [Airzone.cmd_invoke], run under a deadline of its caller. [waiting]
    holds the messages the router handles while the call waits for its
    response, up to the deadline; the call is cancelled at the deadline
    when it is still waiting then. Publishing does not suspend. *)
Definition cmd_invoke (data : request) (waiting : list inbound)
  : M Airzone unit :=
  st <- get ;;
  let topic := mqtt_prefix st +:+ "/" +:+ AMT_INVOKE in
  let req_id := req_req_id data in
  (* async with self.api_lock *)
  Lock_acquire ;;;
  try_finally
    (modify (set_api_resp false) ;;;
     modify (set_api_req_id req_id) ;;;
     mqtt_publish topic (PayloadRequest data) ;;;
     (* await self.api_resp.wait() *)
     modify (mqtt_task waiting) ;;;
     st <- get ;;
     if api_resp st then ret tt else raise CancelledError)
    Lock_release.

(** [Airzone.cmd_az_get_status] *)
Definition cmd_az_get_status (now : Z) (waiting : list inbound)
  : M Airzone unit :=
  st <- get ;;
  let data :=
    {| req_cmd := API_AZ_GET_STATUS;
       req_destination := cmd_destination st API_AZ_GET_STATUS;
       req_req_id := cmd_req_id API_AZ_GET_STATUS now |} in
  cmd_invoke data waiting.

(** [Airzone._update_events] *)
Definition _update_events (now : Z) (st : Airzone) : bool :=
  if negb (api_init st) then false
  else if negb (online st) then false
  else match update_dt st with
       | None => false
       | Some update_dt => now - update_dt <=? poll_timeout st
       end.

(** [async with asyncio.timeout(...)]: the cancellation it caused leaves
    the block as [TimeoutError] *)
Definition asyncio_timeout {A} (m : M Airzone A) : M Airzone A :=
  try_except m (λ e,
    match e with
    | CancelledError => raise TimeoutError
    | _ => raise e
    end).

(** [Airzone._update_polling] *)
Definition _update_polling (now : Z) (waiting : list inbound)
  : M Airzone unit :=
  st <- get ;;
  if negb (online st) then raise AirzoneOffline
  else
    try_except (asyncio_timeout (cmd_az_get_status now waiting)) (λ err,
      match err with
      | TimeoutError => Lock_release ;;; raise AirzoneTimeout
      | _ => raise err
      end) ;;;
    st <- get ;;
    if negb (api_init st) then raise AirzonePollError
    else ret tt.

(** [Airzone.update] *)
Definition update (now : Z) (waiting : list inbound) : M Airzone unit :=
  st <- get ;;
  if negb (_update_events now st)
  then (* a warning is logged when [api_init] holds *)
       _update_polling now waiting
  else ret tt.
End AirzoneModel.

(** [Interface.airzone_task]: one turn of its loop, which catches
    [AirzoneError] and nothing else. *)
Definition airzone_task_turn `{PyFloat} `{!PyRepr} `{!PyDatetime} `{ApiConst}
    (now : Z) (waiting : list inbound) : M Airzone unit :=
  try_except (update now waiting) (λ err,
    if is_AirzoneError err then (* logged *) ret tt else raise err).

(** ** Notions used by the statements *)

(** A device of either kind, as the store holds them. *)
Inductive AnyDevice `{PyFloat} : Type :=
  | ASystem (s : System)
  | AZone (z : Zone).

Section Notions.
Context `{PF : PyFloat} `{PR : !PyRepr} `{PD : !PyDatetime} `{AC : ApiConst}.

(** [device.update(delta, update_type)] on a device of either kind *)
Definition device_update (delta : json) (update_type : UpdateType)
    (d : AnyDevice) : AnyDevice * result unit :=
  match d with
  | ASystem s =>
      let '(s', r) := System_update delta update_type s in (ASystem s', r)
  | AZone z =>
      let '(z', r) := Zone_update delta update_type z in (AZone z', r)
  end.

(** The identity pair of a device *)
Definition identity (d : Device) : string * string :=
  (system_id d, device_id d).

(** The keys of the dict built by [Zone.data] *)
Definition zone_data_keys : list string :=
  [AZD_DEVICE_ID; AZD_ID; AZD_IS_CONNECTED; AZD_SYSTEM_ID; AZD_UNITS;
   AZD_ACTIVE; AZD_AIR_ACTIVE; AZD_HUMIDITY; AZD_MODE; AZD_MODE_AVAILABLE;
   AZD_NAME; AZD_POWER; AZD_RAD_ACTIVE; AZD_SETPOINT; AZD_SETPOINT_MAX;
   AZD_SETPOINT_MIN; AZD_STEP; AZD_ZONE_WORK_TEMP].

(** The keys [Device.update] and [Zone.update] read in the parameters of
    a delta, [API_POWER] left out *)
Definition parameter_keys_but_power : list string :=
  [API_IS_CONNECTED; API_AIR_ACTIVE; API_HUMIDITY; API_MODE;
   API_MODE_AVAILABLE; API_NAME; API_RAD_ACTIVE; API_RANGE_SP;
   API_SETPOINT; API_STEP; API_ZONE_WORK_TEMP].

(** What the program does to the [Airzone] object in one go: the
    interface registers its callback, the router handles a message, a
    full snapshot is applied, or an update cycle runs. *)
Inductive transition : Airzone → Airzone → Prop :=
  | on_set_update_callback (cb : Callback) (st : Airzone) :
      transition st (set_update_callback cb st)
  | on_message (msg : inbound) (st : Airzone) :
      transition st (mqtt_task_msg msg st).1
  | on_snapshot (data : json) (now : Z) (st : Airzone) :
      transition st (api_az_get_status data now st).1
  | on_update (now : Z) (waiting : list inbound) (st : Airzone) :
      transition st (update now waiting st).1.

(** The states the program reaches from a fresh [Airzone] object *)
Definition reachable (st : Airzone) : Prop :=
  ∃ config, rtc transition (Airzone_init config) st.

(** Did the update cycle publish a request, that is, poll? *)
Definition is_request (p : publication) : bool :=
  match pub_payload p with
  | PayloadRequest _ => true
  | _ => false
  end.

(** Is the data of the events fresh at the time [now]? *)
Definition fresh (now : Z) (st : Airzone) : Prop :=
  api_init st = true ∧ online st = true
  ∧ ∃ t, update_dt st = Some t ∧ now - t ≤ poll_timeout st.

(** The device the loop of [api_az_get_status] builds from an entry of
    the declared kind *)
Definition entry_system (mqtt_topic_pfx : string) (device : json)
  : result System :=
  match System_init device with
  | Raise e => Raise e
  | Ok system =>
      match on_fresh (System_update device FULL) system with
      | Raise e => Raise e
      | Ok system => Ok (System_set_mqtt_topic mqtt_topic_pfx system)
      end
  end.

Definition entry_zone (mqtt_topic_pfx : string) (device : json)
  : result Zone :=
  match Zone_init device with
  | Raise e => Raise e
  | Ok zone =>
      match on_fresh (Zone_update device FULL) zone with
      | Raise e => Raise e
      | Ok zone => Ok (Zone_set_mqtt_topic mqtt_topic_pfx zone)
      end
  end.

(** Every device is stored under its own id. *)
Definition keyed (st : Airzone) : Prop :=
  (∀ k s, systems st !! k = Some s → get_id (system_dev s) = k)
  ∧ (∀ k z, zones st !! k = Some z → get_id (zone_dev z) = k).

Definition polls (st st' : Airzone) : Prop :=
  ∃ p rest, is_request p = true ∧
            published st' = (published st ++ p :: rest)%list.

(** The correlation id a response message carries *)
Definition response_req_id (payload : option json) : result json :=
  match json_loads payload with
  | Raise e => Raise e
  | Ok data =>
      match py_get_or data API_HEADERS (JObj []) with
      | Raise e => Raise e
      | Ok headers => py_get headers API_REQ_ID
      end
  end.

(** Is the message a response that carries the correlation id [id]? The
    router hands a message to [msg_response] when its topic, the prefix
    taken off, starts with the response segment. *)
Definition answers (id : string) (st : Airzone) (msg : inbound) : bool :=
  negb (startswith (in_topic msg) (Config.topic_interface (config st)))
  && startswith (in_topic msg) (airzone_mqtt_topic st)
  && match split_slash
             (removeprefix (mqtt_prefix st +:+ "/") (in_topic msg)) with
     | t0 :: _ => String.eqb t0 AMT_RESPONSE
     | [] => false
     end
  && match response_req_id (in_payload msg) with
     | Ok req_id => py_eq_str req_id id
     | Raise _ => false
     end.

(** The state in which [cmd_invoke] starts to wait for the response: the
    lock taken, the event cleared, the id stored, the request published. *)
Definition request_sent (data : request) (st : Airzone) : Airzone :=
  set_published
    (published st
     ++ [mkPublication (mqtt_prefix st +:+ "/" +:+ AMT_INVOKE)
           (PayloadRequest data)])
    (set_api_req_id (req_req_id data)
       (set_api_resp false (set_api_lock true st))).

(** The request [cmd_az_get_status] sends at the time [now] *)
Definition get_status_request (st : Airzone) (now : Z) : request :=
  {| req_cmd := API_AZ_GET_STATUS;
     req_destination := cmd_destination st API_AZ_GET_STATUS;
     req_req_id := cmd_req_id API_AZ_GET_STATUS now |}.

(** What [msg_response] does once it has compared the ids: it looks at
    the command segment of the topic. *)
Definition response_dispatch (topic : list string) (data : json) (now : Z)
  : M Airzone unit :=
  topic <- lift_result (pop_if_first AMT_RESPONSE topic) ;;
  t0 <- lift_result (topic_0 topic) ;;
  if String.eqb t0 (api_safe_str API_AZ_GET_STATUS) then
    api_az_get_status data now ;;;
    update_callback (JObj []) now
  else
    ret tt.
End Notions.

(** ** Notions used by the proofs *)

(** An action keeps a property of the state, however it ends. *)
Definition keeps {S A} (P : S → Prop) (m : M S A) : Prop :=
  ∀ s, P s → P (m s).1.

(** A field seen in four states: [b] and [b'] are reached from [a] and
    [a']. Either the field was given one and the same value in both runs,
    or both runs left it as it was. *)
Definition cell {A} (a a' b b' : A) : Prop :=
  b = b' ∨ (b = a ∧ b' = a').

(** What the router never writes: [st] has it as [st0] has. *)
Definition constants_of `{PyFloat} (st0 st : Airzone) : Prop :=
  api_lock st = api_lock st0 ∧ api_req_id st = api_req_id st0
  ∧ config st = config st0 ∧ mqtt_prefix st = mqtt_prefix st0
  ∧ airzone_mqtt_topic st = airzone_mqtt_topic st0
  ∧ callback_function st = callback_function st0
  ∧ poll_timeout st = poll_timeout st0.

(** An action is uniform when, run from any two states, it ends in the
    same way and the states it reaches are related by [R], which is to
    say field by field what [cell] says. *)
Definition uniform {S A} (R : S → S → S → S → Prop) (m : M S A) : Prop :=
  ∀ s s', (m s).2 = (m s').2 ∧ R s s' (m s).1 (m s').1.

(** The relation for each kind of object: cell by cell. *)
Definition R_Device (a a' b b' : Device) : Prop :=
  cell (device_id a) (device_id a') (device_id b) (device_id b')
  ∧ cell (is_connected a) (is_connected a') (is_connected b) (is_connected b')
  ∧ cell (manufacturer a) (manufacturer a') (manufacturer b) (manufacturer b')
  ∧ cell (system_id a) (system_id a') (system_id b) (system_id b')
  ∧ cell (units a) (units a') (units b) (units b')
  ∧ cell (model a) (model a') (model b) (model b')
  ∧ cell (name a) (name a') (name b) (name b')
  ∧ cell (mqtt_topic a) (mqtt_topic a') (mqtt_topic b) (mqtt_topic b').

Definition R_System (a a' b b' : System) : Prop :=
  R_Device (system_dev a) (system_dev a') (system_dev b) (system_dev b').

Definition R_Zone `{PyFloat} (a a' b b' : Zone) : Prop :=
  R_Device (zone_dev a) (zone_dev a') (zone_dev b) (zone_dev b')
  ∧ cell (air_active a) (air_active a') (air_active b) (air_active b')
  ∧ cell (humidity a) (humidity a') (humidity b) (humidity b')
  ∧ cell (mode a) (mode a') (mode b) (mode b')
  ∧ cell (mode_available a) (mode_available a')
         (mode_available b) (mode_available b')
  ∧ cell (power a) (power a') (power b) (power b')
  ∧ cell (rad_active a) (rad_active a') (rad_active b) (rad_active b')
  ∧ cell (setpoint a) (setpoint a') (setpoint b) (setpoint b')
  ∧ cell (setpoint_max a) (setpoint_max a') (setpoint_max b) (setpoint_max b')
  ∧ cell (setpoint_min a) (setpoint_min a') (setpoint_min b) (setpoint_min b')
  ∧ cell (step a) (step a') (step b) (step b')
  ∧ cell (zone_work_temp a) (zone_work_temp a')
         (zone_work_temp b) (zone_work_temp b').

(** ** A sample instance

    Enough to run the model on concrete messages: floats are decimal
    numbers with three fractional digits, held as a number of thousandths,
    and only integer literals are parsed from strings. The constants are
    given sample values, different wherever the code tells two keys of one
    dict apart. *)

Definition digit_value (c : Ascii.ascii) : option Z :=
  let n := Z.of_nat (Ascii.nat_of_ascii c) in
  if (48 <=? n) && (n <=? 57) then Some (n - 48) else None.

Fixpoint parse_digits (acc : Z) (s : string) : option Z :=
  match s with
  | EmptyString => Some acc
  | String c s' =>
      match digit_value c with
      | Some d => parse_digits (10 * acc + d) s'
      | None => None
      end
  end.

Definition parse_int (s : string) : result Z :=
  match s with
  | EmptyString => Raise ValueError
  | String c s' =>
      if Ascii.eqb c (Ascii.ascii_of_nat 45) then
        match s' with
        | EmptyString => Raise ValueError
        | _ => match parse_digits 0 s' with
               | Some n => Ok (- n)
               | None => Raise ValueError
               end
        end
      else match parse_digits 0 s with
           | Some n => Ok n
           | None => Raise ValueError
           end
  end.

(** Round a number of thousandths to tenths, ties to even *)
Definition round_tenths (x : Z) : Z :=
  let q := x / 100 in
  let r := x mod 100 in
  let q' := if r <? 50 then q
            else if 50 <? r then q + 1
            else if Z.even q then q else q + 1 in
  q' * 100.

Definition sample_float : PyFloat :=
  {| float := Z;
     float_of_int := λ n, Ok (n * 1000);
     float_of_string := λ s,
       match parse_int s with
       | Ok n => Ok (n * 1000)
       | Raise e => Raise e
       end;
     float_truth := λ x, negb (x =? 0);
     int_of_float := λ x, Ok (Z.quot x 1000);
     int_of_string := parse_int;
     float_as_int := λ x, if x mod 1000 =? 0 then Some (x / 1000) else None;
     float_round1 := round_tenths |}.

Definition sample_repr : @PyRepr sample_float :=
  @Build_PyRepr sample_float
    (λ v, match v with
          | JFloat x =>
              pretty (Z.quot x 1000) +:+ "." +:+ pretty (Z.abs x mod 1000)
          | JList _ => "[...]"
          | JObj _ => "{...}"
          | _ => ""
          end).

(** The civil date of a day number counted from 1970-01-01 *)
Definition civil_from_days (days : Z) : Z * Z * Z :=
  let z := days + 719468 in
  let era := z / 146097 in
  let doe := z mod 146097 in
  let yoe := (doe - doe / 1460 + doe / 36524 - doe / 146096) / 365 in
  let doy := doe - (365 * yoe + yoe / 4 - yoe / 100) in
  let mp := (5 * doy + 2) / 153 in
  let d := doy - (153 * mp + 2) / 5 + 1 in
  let m := if mp <? 10 then mp + 3 else mp - 9 in
  let y := yoe + era * 400 + (if m <=? 2 then 1 else 0) in
  (y, m, d).

Definition sample_datetime : @PyDatetime sample_float :=
  @Build_PyDatetime sample_float
    (λ t, let us := t mod 1000000 in
          let secs := t / 1000000 in
          let '(y, m, d) := civil_from_days (secs / 86400) in
          let sod := secs mod 86400 in
          (y, m, d, sod / 3600, sod mod 3600 / 60, sod mod 60, us))
    (λ x, Ok (x * 1000)).

Definition sample_const : ApiConst :=
  {| AMT_EVENTS := "events";
     AMT_INVOKE := "invoke";
     AMT_ONLINE := "online";
     AMT_REQUEST := "request";
     AMT_RESPONSE := "response";
     AMT_STATUS := "status";
     AMT_V1 := "v1";
     API_AIR_ACTIVE := "air_active";
     API_AZ_GET_STATUS := "az.get_status";
     API_AZ_SYSTEM := "az_system";
     API_AZ_ZONE := "az_zone";
     API_BODY := "body";
     API_CMD := "cmd";
     API_DESTINATION := "destination";
     API_DEVICE_ID := "device_id";
     API_DEVICE_TYPE := "device_type";
     API_DEVICES := "devices";
     API_HEADERS := "headers";
     API_HUMIDITY := "humidity";
     API_IS_CONNECTED := "is_connected";
     API_MAX := "max";
     API_META := "meta";
     API_MIN := "min";
     API_MODE := "mode";
     API_MODE_AVAILABLE := "mode_available";
     API_NAME := "name";
     API_ONLINE := "online";
     API_PARAMETERS := "parameters";
     API_POWER := "power";
     API_RAD_ACTIVE := "rad_active";
     API_RANGE_SP := "range_sp";
     API_REQ_ID := "req_id";
     API_SETPOINT := "setpoint";
     API_STEP := "step";
     API_SYSTEM_ID := "system_id";
     API_TS := "ts";
     API_UNITS := "units";
     API_ZONE_WORK_TEMP := "zone_work_temp";
     AZ_MANUFACTURER := "Airzone";
     AZ_MODEL_SYSTEM := "System";
     AZ_MODEL_ZONE := "Zone";
     AZD_ACTIVE := "active";
     AZD_AIR_ACTIVE := "air_active";
     AZD_DEVICE_ID := "device_id";
     AZD_HUMIDITY := "humidity";
     AZD_ID := "id";
     AZD_IS_CONNECTED := "is_connected";
     AZD_MODE := "mode";
     AZD_MODE_AVAILABLE := "mode_available";
     AZD_NAME := "name";
     AZD_POWER := "power";
     AZD_RAD_ACTIVE := "rad_active";
     AZD_SETPOINT := "setpoint";
     AZD_SETPOINT_MAX := "setpoint_max";
     AZD_SETPOINT_MIN := "setpoint_min";
     AZD_STEP := "step";
     AZD_SYSTEM_ID := "system_id";
     AZD_UNITS := "units";
     AZD_ZONE_WORK_TEMP := "zone_work_temp";
     HAD_AVAILABILITY := "availability";
     HAD_OFFLINE := "offline";
     HAD_ONLINE := "online";
     HAD_STATE := "state" |}.

(** Sample messages and states *)

Section SampleData.
#[local] Existing Instances sample_float sample_repr sample_datetime sample_const.

(** A fresh object with the callback of [Interface] registered *)
Definition sample_airzone : Airzone :=
  set_update_callback airzone_callback (Airzone_init Config.init).

(** The same after the gateway announced itself on [airzone/v1/online] *)
Definition sample_online : Airzone :=
  (mqtt_task_msg
     (mkInbound 1000000 "airzone/v1/online"
        (Some (JObj [("online", JBool true)])))
     sample_airzone).1.

Definition sample_system_entry : json :=
  JObj [("device_type", JStr "az_system"); ("system_id", JInt 1);
        ("device_id", JInt 1)].

Definition sample_zone_entry : json :=
  JObj [("device_type", JStr "az_zone"); ("system_id", JInt 1);
        ("device_id", JInt 1);
        ("parameters", JObj [("setpoint", JInt 21); ("name", JStr "Salon")])].

(** The same zone, now switched on *)
Definition sample_zone_entry_on : json :=
  JObj [("device_type", JStr "az_zone"); ("system_id", JInt 1);
        ("device_id", JInt 1);
        ("parameters", JObj [("setpoint", JInt 21); ("name", JStr "Salon");
                             ("power", JBool true)])].

(** A response to [az.get_status], stamped by the gateway with the epoch
    second 1000 *)
Definition sample_snapshot (req_id : string) (devices : list json) : json :=
  JObj [("headers", JObj [("req_id", JStr req_id); ("ts", JInt 1000)]);
        ("body", JObj [("devices", JList devices)])].

Definition sample_response (now : Z) (req_id : string) (devices : list json)
  : inbound :=
  mkInbound now "airzone/v1/response/az_get_status"
    (Some (sample_snapshot req_id devices)).

(** An event of the zone 1:1 that carries the power parameter alone *)
Definition sample_power_event : json :=
  JObj [("body", JObj [("device_type", JStr "az_zone"); ("system_id", JInt 1);
                       ("device_id", JInt 1);
                       ("parameters", JObj [("power", JBool true)])])].

(** The store after a first snapshot with the one zone *)
Definition sample_with_zone : Airzone :=
  (api_az_get_status (sample_snapshot "r0" [sample_zone_entry]) 2000000
     sample_online).1.

(** The zone that snapshot stores under the key 1:1 *)
Definition sample_zone : Zone :=
  {| zone_dev :=
       {| device_id := "1";
          is_connected := false;
          manufacturer := "Airzone";
          system_id := "1";
          units := CELSIUS;
          model := "Zone";
          name := "Salon";
          mqtt_topic := Some "airzone-mqtt-hass/airzone/zone/1_1" |};
     air_active := None;
     humidity := None;
     mode := None;
     mode_available := [];
     power := None;
     rad_active := None;
     setpoint := Some 21000;
     setpoint_max := None;
     setpoint_min := None;
     step := None;
     zone_work_temp := None |}.

(** The system a snapshot with [sample_system_entry] stores, under the
    key 1:1 as well *)
Definition sample_system : System :=
  {| system_dev :=
       {| device_id := "1";
          is_connected := false;
          manufacturer := "Airzone";
          system_id := "1";
          units := CELSIUS;
          model := "System";
          name := "System [1:1]";
          mqtt_topic := Some "airzone-mqtt-hass/airzone/system/1_1" |} |}.

(** The store after a first snapshot with a system and a zone that have
    the same identity pair *)
Definition sample_shared : Airzone :=
  (api_az_get_status
     (sample_snapshot "r0" [sample_system_entry; sample_zone_entry]) 2000000
     sample_online).1.

(** The state after the event [sample_power_event] *)
Definition sample_powered : Airzone :=
  (mqtt_task_msg
     (mkInbound 6000000 "airzone/v1/events/status" (Some sample_power_event))
     sample_with_zone).1.

(** The gateway went offline after the first snapshot *)
Definition sample_offline : Airzone :=
  (mqtt_task_msg
     (mkInbound 2500000 "airzone/v1/online"
        (Some (JObj [("online", JBool false)])))
     sample_with_zone).1.

(** A request for the status is pending since the second 3 *)
Definition sample_pending : Airzone :=
  request_sent (get_status_request sample_online 3000000) sample_online.
End SampleData.

(** ** More of [device.py]: the topic of a device *)

(** [Device.get_mqtt_topic]; the attribute [mqtt_topic] is missing until
    [set_mqtt_topic] has run. *)
Definition get_mqtt_topic (d : Device) (sfx : option string) : result string :=
  match mqtt_topic d with
  | None => Raise AttributeError
  | Some topic =>
      Ok (match sfx with
          | Some sfx => topic +:+ "/" +:+ sfx
          | None => topic
          end)
  end.

(** ** [mqtt.py]: the queue of received messages

    [rx_msg_push] and [rx_msg_pop] run on the one event loop and take the
    lock [rx_lock] without waiting, no coroutine being suspended while it
    holds it: each runs in one go. *)

Record Mqtt (A : Type) : Type := mkMqtt {
  (* asyncio.Event: is it set? *)
  rx_event : bool;
  rx_list : list A;
}.

Arguments mkMqtt {A} _ _.
Arguments rx_event {A} _.
Arguments rx_list {A} _.

Section MqttModel.
Context {A : Type}.

(** [Mqtt.__init__], the queue part *)
Definition Mqtt_init : Mqtt A := mkMqtt false [].

(** [Mqtt.rx_msg_push] *)
Definition rx_msg_push (message : A) (q : Mqtt A) : Mqtt A :=
  mkMqtt true (rx_list q ++ [message]).

(** [Mqtt.rx_msg_pop]: [None] while the call waits for [rx_event];
    otherwise the queue afterwards and the message returned, which is
    [None] when the list was empty. *)
Definition rx_msg_pop (q : Mqtt A) : option (Mqtt A * option A) :=
  if rx_event q then
    let '(msg, rest) :=
      match rx_list q with
      | [] => (None, [])
      | m :: rest => (Some m, rest)
      end in
    Some (mkMqtt (match rest with [] => false | _ :: _ => rx_event q end) rest,
          msg)
  else None.

(** The calls made on the queue, in the order in which they run: the
    pushes of the transport's callback and the pops of the router. A pop
    that would wait does not run until a push has set the event. *)
Inductive rx_call : Type :=
  | rx_push (message : A)
  | rx_pop.

Fixpoint rx_run (calls : list rx_call) (q : Mqtt A)
  : Mqtt A * list (option A) :=
  match calls with
  | [] => (q, [])
  | rx_push message :: calls' => rx_run calls' (rx_msg_push message q)
  | rx_pop :: calls' =>
      match rx_msg_pop q with
      | Some (q', msg) =>
          let '(q'', out) := rx_run calls' q' in (q'', msg :: out)
      | None => rx_run calls' q
      end
  end.

(** The messages pushed by a sequence of calls *)
Fixpoint pushed (calls : list rx_call) : list A :=
  match calls with
  | [] => []
  | rx_push message :: calls' => message :: pushed calls'
  | rx_pop :: calls' => pushed calls'
  end.

(** The event is set exactly when a message is queued. *)
Definition rx_consistent (q : Mqtt A) : Prop :=
  rx_event q = true ↔ rx_list q ≠ [].
End MqttModel.

Arguments rx_call A : clear implicits.

(** ** More notions used by the statements *)

(** The characters the code names *)
Definition dot : Ascii.ascii := Ascii.ascii_of_nat 46.
Definition slash : Ascii.ascii := Ascii.ascii_of_nat 47.
Definition colon : Ascii.ascii := Ascii.ascii_of_nat 58.
Definition underscore : Ascii.ascii := Ascii.ascii_of_nat 95.

(** Does the character occur in the string? *)
Fixpoint has_char (c : Ascii.ascii) (s : string) : bool :=
  match s with
  | EmptyString => false
  | String c' s' => Ascii.eqb c' c || has_char c s'
  end.

(** Do all characters of the string pass the test? *)
Fixpoint string_forall (p : Ascii.ascii → bool) (s : string) : bool :=
  match s with
  | EmptyString => true
  | String c s' => p c && string_forall p s'
  end.

(** What no update of a device writes: the identity pair, the
    manufacturer, the model and the topic. *)
Definition anchor (d : Device)
  : string * string * string * string * option string :=
  (system_id d, device_id d, manufacturer d, model d, mqtt_topic d).

Section MoreNotions.
Context `{PF : PyFloat} `{PR : !PyRepr} `{PD : !PyDatetime} `{AC : ApiConst}.

(** The [Device] part of a device of either kind *)
Definition any_dev (d : AnyDevice) : Device :=
  match d with
  | ASystem s => system_dev s
  | AZone z => zone_dev z
  end.

(** The prefix [api_az_get_status] hands to [set_mqtt_topic] *)
Definition topic_pfx (st : Airzone) : string :=
  Config.topic_interface (config st) +:+ "/" +:+ airzone_mqtt_topic st.

(** The keys [Device.update] and [Zone.update] read in the parameters of
    a delta, [API_MODE_AVAILABLE] left out *)
Definition parameter_keys_but_mode_available : list string :=
  [API_IS_CONNECTED; API_AIR_ACTIVE; API_HUMIDITY; API_MODE; API_NAME;
   API_POWER; API_RAD_ACTIVE; API_RANGE_SP; API_SETPOINT; API_STEP;
   API_ZONE_WORK_TEMP].

(** The keys of the two maps of [a] are keys of [b]. *)
Definition keys_within (a b : Airzone) : Prop :=
  (∀ k, is_Some (systems a !! k) → is_Some (systems b !! k))
  ∧ (∀ k, is_Some (zones a !! k) → is_Some (zones b !! k)).

(** Of the fields that [Zone] adds to [Device], the power is on and the
    others are those of [zone]. *)
Definition only_power (zone zone' : Zone) : Prop :=
  power zone' = Some true
  ∧ air_active zone' = air_active zone
  ∧ humidity zone' = humidity zone
  ∧ mode zone' = mode zone
  ∧ mode_available zone' = mode_available zone
  ∧ rad_active zone' = rad_active zone
  ∧ setpoint zone' = setpoint zone
  ∧ setpoint_max zone' = setpoint_max zone
  ∧ setpoint_min zone' = setpoint_min zone
  ∧ step zone' = step zone
  ∧ zone_work_temp zone' = zone_work_temp zone.

(** The end of [api_az_get_status], after its loop over the entries:
    the flags of the first snapshot and the time of the update. An
    exception of the loop leaves the method before it gets there. *)
Definition snapshot_finish (now : Z) (r : Airzone * result unit)
  : Airzone * result unit :=
  match r with
  | (st, Ok _) =>
      (set_update_dt (Some now)
         (if api_init st then st
          else set_api_init_event true (set_api_init true st)),
       Ok tt)
  | (st, Raise e) => (st, Raise e)
  end.

(** The first segments [msg_process] tells apart *)
Definition first_segments : list string :=
  [AMT_EVENTS; AMT_INVOKE; AMT_ONLINE; AMT_RESPONSE].
End MoreNotions.

(** More sample messages *)

Section MoreSampleData.
#[local] Existing Instances sample_float sample_repr sample_datetime sample_const.


(** An event of the zone 1:1 with the power parameter alone, whose meta
    data name the unit 1, Fahrenheit *)
Definition sample_power_event_fahrenheit : json :=
  JObj [("body", JObj [("device_type", JStr "az_zone"); ("system_id", JInt 1);
                       ("device_id", JInt 1);
                       ("meta", JObj [("units", JInt 1)]);
                       ("parameters", JObj [("power", JBool true)])])].

(** The same with the number 7, which is no unit *)
Definition sample_power_event_no_unit : json :=
  JObj [("body", JObj [("device_type", JStr "az_zone"); ("system_id", JInt 1);
                       ("device_id", JInt 1);
                       ("meta", JObj [("units", JInt 7)]);
                       ("parameters", JObj [("power", JBool true)])])].

(** A zone entry whose meta data name the number 7 as the unit *)
Definition sample_zone_entry_no_unit : json :=
  JObj [("device_type", JStr "az_zone"); ("system_id", JInt 1);
        ("device_id", JInt 2); ("meta", JObj [("units", JInt 7)])].

(** A delta that lists the available modes, one of them unknown *)
Definition sample_modes_delta : json :=
  JObj [("parameters",
         JObj [("mode_available", JList [JInt 3; JInt 99])])].
End MoreSampleData.

(** * Properties *)

(** ** The monad *)

Section MonadFacts.
Context {S : Type}.

Lemma bind_inv_ok {A B} (m : M S A) (k : A → M S B) s s' b :
  bind m k s = (s', Ok b) → ∃ s1 a, m s = (s1, Ok a) ∧ k a s1 = (s', Ok b).
Proof.
  unfold bind. destruct (m s) as [s1 [a|e]]; [eauto|done].
Qed.

Section Keeps.
Context (P : S → Prop).

Lemma keeps_ret {A} (a : A) : keeps P (ret a).
Proof. by intros s. Qed.

Lemma keeps_raise {A} e : keeps P (raise (A:=A) e).
Proof. by intros s. Qed.

Lemma keeps_lift_result {A} (r : result A) : keeps P (lift_result r).
Proof. by intros s. Qed.

Lemma keeps_modify (f : S → S) : (∀ s, P s → P (f s)) → keeps P (modify f).
Proof. intros Hf s. apply Hf. Qed.

Lemma keeps_bind {A B} (m : M S A) (k : A → M S B) :
  keeps P m → (∀ a, keeps P (k a)) → keeps P (bind m k).
Proof.
  intros Hm Hk s Hs. unfold bind. specialize (Hm s Hs).
  destruct (m s) as [s1 [a|e]]; simpl in *; [by apply Hk|done].
Qed.

(** After [st <- get], the continuation may rely on [st] being the
    current state. *)
Lemma keeps_get_bind {B} (k : S → M S B) :
  (∀ s, P s → P (k s s).1) → keeps P (bind get k).
Proof. intros Hk s Hs. unfold bind, get. by apply Hk. Qed.

Lemma keeps_get {B} (k : S → M S B) :
  (∀ s, keeps P (k s)) → keeps P (bind get k).
Proof. intros Hk. apply keeps_get_bind. intros s. apply Hk. Qed.

Lemma keeps_for_each {A} (xs : list A) (body : A → M S unit) :
  (∀ x, keeps P (body x)) → keeps P (for_each xs body).
Proof.
  intros Hbody. induction xs as [|x xs IH]; simpl.
  - apply keeps_ret.
  - apply keeps_bind; [apply Hbody|done].
Qed.

Lemma keeps_try_except {A} (m : M S A) (h : exn → M S A) :
  keeps P m → (∀ e, keeps P (h e)) → keeps P (try_except m h).
Proof.
  intros Hm Hh s Hs. unfold try_except. specialize (Hm s Hs).
  destruct (m s) as [s1 [a|e]]; simpl in *; [done|by apply Hh].
Qed.

Lemma keeps_try_finally {A} (m : M S A) (fin : M S unit) :
  keeps P m → keeps P fin → keeps P (try_finally m fin).
Proof.
  intros Hm Hfin s Hs. unfold try_finally. specialize (Hm s Hs).
  destruct (m s) as [s1 r]; simpl in *. specialize (Hfin s1 Hm).
  by destruct (fin s1) as [s2 [[]|e]].
Qed.
End Keeps.
End MonadFacts.

(** Take an action apart along its structure; what is left are the state
    changes themselves and the calls of named methods. *)
Ltac keeps_struct :=
  repeat first
    [ progress intros
    | match goal with
      | |- keeps _ (ret _) => apply keeps_ret
      | |- keeps _ (raise _) => apply keeps_raise
      | |- keeps _ (lift_result _) => apply keeps_lift_result
      | |- keeps _ (bind get _) => apply keeps_get
      | |- keeps _ (bind _ _) => apply keeps_bind
      | |- keeps _ (for_each _ _) => apply keeps_for_each
      | |- keeps _ (try_except _ _) => apply keeps_try_except
      | |- keeps _ (try_finally _ _) => apply keeps_try_finally
      | |- keeps _ (modify _) => apply keeps_modify
      | |- keeps _ (if ?b then _ else _) => destruct b
      | |- keeps _ (match ?x with _ => _ end) => destruct x
      end ].

(** ** Updates overwrite fields *)

Lemma cell_refl {A} (a a' : A) : cell a a' a a'.
Proof. by right. Qed.

Lemma cell_trans {A} (a a' b b' c c' : A) :
  cell a a' b b' → cell b b' c c' → cell a a' c c'.
Proof. unfold cell. intros [?|[??]] [?|[??]]; subst; auto. Qed.

Lemma cell_same {A} (a a' b : A) : cell a a' b b.
Proof. by left. Qed.

Section Uniform.
Context {S : Type} (R : S → S → S → S → Prop).
Hypothesis R_refl : ∀ a a', R a a' a a'.
Hypothesis R_trans :
  ∀ a a' b b' c c', R a a' b b' → R b b' c c' → R a a' c c'.

Lemma uniform_ret {A} (a : A) : uniform R (ret a).
Proof using R_refl. intros s s'. simpl. auto. Qed.

Lemma uniform_lift_result {A} (r : result A) : uniform R (lift_result r).
Proof using R_refl. intros s s'. simpl. auto. Qed.

Lemma uniform_bind {A B} (m : M S A) (k : A → M S B) :
  uniform R m → (∀ a, uniform R (k a)) → uniform R (bind m k).
Proof using R_trans.
  intros Hm Hk s s'. unfold bind.
  destruct (Hm s s') as [Hr HR].
  destruct (m s) as [s1 r], (m s') as [s1' r']; simpl in *. subst r'.
  destruct r as [a|e]; [|done].
  destruct (Hk a s1 s1') as [Hr' HR']. eauto.
Qed.

Lemma uniform_if_not_None `{PyFloat} (v : json) (body : json → M S unit) :
  (∀ v, uniform R (body v)) → uniform R (if_not_None v body).
Proof using R_refl.
  intros Hbody. unfold if_not_None.
  destruct (is_None v); [apply uniform_ret|apply Hbody].
Qed.

Lemma uniform_modify (f : S → S) :
  (∀ s s', R s s' (f s) (f s')) → uniform R (modify f).
Proof. intros Hf s s'. simpl. auto. Qed.
End Uniform.

Ltac cells :=
  repeat split; simpl; first [apply cell_same | apply cell_refl].

Ltac cells_trans :=
  repeat match goal with H : _ ∧ _ |- _ => destruct H end;
  repeat split; eapply cell_trans; eassumption.

Lemma R_Device_refl a a' : R_Device a a' a a'.
Proof. cells. Qed.

Lemma R_Device_trans a a' b b' c c' :
  R_Device a a' b b' → R_Device b b' c c' → R_Device a a' c c'.
Proof. unfold R_Device. intros H1 H2. cells_trans. Qed.

Lemma R_System_refl a a' : R_System a a' a a'.
Proof. apply R_Device_refl. Qed.

Lemma R_System_trans a a' b b' c c' :
  R_System a a' b b' → R_System b b' c c' → R_System a a' c c'.
Proof. apply R_Device_trans. Qed.

Lemma R_Device_fixed a b c : R_Device a b b c → c = b.
Proof.
  unfold R_Device, cell. destruct a, b, c; simpl.
  intros H. repeat match goal with H : _ ∧ _ |- _ => destruct H end.
  f_equal; match goal with H : _ ∨ _ |- _ => by destruct H as [?|[??]] end.
Qed.

Section UpdateUniform.
Context `{PF : PyFloat} `{PR : !PyRepr} `{AC : ApiConst}.

Lemma R_Zone_refl (a a' : Zone) : R_Zone a a' a a'.
Proof. cells. Qed.

Lemma R_Zone_trans (a a' b b' c c' : Zone) :
  R_Zone a a' b b' → R_Zone b b' c c' → R_Zone a a' c c'.
Proof. unfold R_Zone, R_Device. intros H1 H2. cells_trans. Qed.

Lemma R_Zone_fixed (a b c : Zone) : R_Zone a b b c → c = b.
Proof.
  intros [Hdev H]. apply R_Device_fixed in Hdev.
  unfold cell in H. destruct a, b, c; simpl in *. subst.
  repeat match goal with H : _ ∧ _ |- _ => destruct H end.
  f_equal; match goal with H : _ ∨ _ |- _ => by destruct H as [?|[??]] end.
Qed.

Lemma Device_update_uniform data update_type :
  uniform R_Device (Device_update data update_type).
Proof.
  unfold Device_update.
  repeat first
    [ apply (uniform_bind _ R_Device_trans); [|intros ?]
    | apply (uniform_lift_result _ R_Device_refl)
    | apply (uniform_if_not_None _ R_Device_refl); intros ?
    | apply (uniform_ret _ R_Device_refl)
    | apply uniform_modify; intros ??; cells ].
Qed.

Lemma System_update_uniform data update_type :
  uniform R_System (System_update data update_type).
Proof.
  unfold System_update.
  apply (uniform_bind _ R_System_trans);
    [|intros ?; apply (uniform_ret _ R_System_refl)].
  intros s s'. unfold on_system_dev.
  destruct (Device_update_uniform data update_type
              (system_dev s) (system_dev s')) as [Hr HR].
  destruct (Device_update _ _ (system_dev s)),
           (Device_update _ _ (system_dev s')). done.
Qed.

Lemma on_zone_dev_uniform {A} (m : M Device A) :
  uniform R_Device m → uniform R_Zone (on_zone_dev m).
Proof.
  intros Hm z z'. unfold on_zone_dev.
  destruct (Hm (zone_dev z) (zone_dev z')) as [Hr HR].
  destruct (m (zone_dev z)), (m (zone_dev z')). simpl in *.
  split; [done|]. split; [done|]. cells.
Qed.

(** The loop that fills [mode_available] appends the modes of the items. *)
Lemma for_each_extend_mode_available items (z : Zone) :
  for_each items extend_mode_available z
  = (set_mode_available
       (mode_available z ++ map AZ_Mode_of items) z, Ok tt).
Proof.
  revert z. induction items as [|x items IH]; intros z; simpl.
  - unfold ret. rewrite app_nil_r. by destruct z.
  - unfold bind, extend_mode_available, modify. rewrite IH. simpl.
    by rewrite <- app_assoc.
Qed.

(** Emptying the list first makes the loop an overwrite. *)
Lemma mode_available_uniform v :
  uniform R_Zone
    (modify (set_mode_available []) ;;;
     items <- lift_result (py_iter v) ;;
     for_each items extend_mode_available).
Proof.
  intros z z'. unfold bind, modify, lift_result.
  destruct (py_iter v) as [items|e]; [|split; [done|cells]].
  rewrite !for_each_extend_mode_available. split; [done|cells].
Qed.

Lemma Zone_update_uniform data update_type :
  uniform R_Zone (Zone_update data update_type).
Proof.
  unfold Zone_update.
  repeat first
    [ apply mode_available_uniform
    | apply on_zone_dev_uniform, Device_update_uniform
    | apply (uniform_bind _ R_Zone_trans); [|intros ?]
    | apply (uniform_lift_result _ R_Zone_refl)
    | apply (uniform_if_not_None _ R_Zone_refl); intros ?
    | apply (uniform_ret _ R_Zone_refl)
    | apply uniform_modify; intros ??; cells ].
Qed.
End UpdateUniform.

(** C4. Applying a delta to a device, a system or a zone, a second time
    gives what applying it once gave: the same fields, and the same way
    of ending (normally, or with the same exception). *)
Theorem update_idempotent `{PyFloat} `{!PyRepr} `{ApiConst}
    (d : AnyDevice) (delta : json) (update_type : UpdateType) :
  device_update delta update_type (device_update delta update_type d).1
  = device_update delta update_type d.
Proof.
  destruct d as [s|z]; simpl.
  - destruct (System_update_uniform delta update_type s
                (System_update delta update_type s).1) as [Hr HR].
    destruct (System_update delta update_type s) as [s1 r] eqn:E1; simpl in *.
    destruct (System_update delta update_type s1) as [s2 r2] eqn:E2.
    simpl in *. subst r2. apply R_Device_fixed in HR.
    destruct s1, s2; simpl in *. by subst.
  - destruct (Zone_update_uniform delta update_type z
                (Zone_update delta update_type z).1) as [Hr HR].
    destruct (Zone_update delta update_type z) as [z1 r] eqn:E1; simpl in *.
    destruct (Zone_update delta update_type z1) as [z2 r2] eqn:E2.
    simpl in *. subst r2. apply R_Zone_fixed in HR. by subst.
Qed.

(** ** The update cycle *)

Section UpdateCycle.
Context `{PF : PyFloat} `{PR : !PyRepr} `{PD : !PyDatetime} `{AC : ApiConst}.

Lemma update_events_spec now (st : Airzone) :
  _update_events now st = true ↔ fresh now st.
Proof.
  unfold _update_events, fresh.
  destruct (api_init st), (online st), (update_dt st) as [t|]; simpl;
    try (split; [done|by intros (? & ? & ? & ? & ?)]).
  rewrite Z.leb_le. split.
  - intros Hle. eauto.
  - by intros (_ & _ & t' & [= <-] & Hle).
Qed.

Lemma update_fresh now waiting (st : Airzone) :
  _update_events now st = true → update now waiting st = (st, Ok tt).
Proof. intros Hev. unfold update, bind, get. by rewrite Hev. Qed.

Lemma update_stale now waiting (st : Airzone) :
  _update_events now st = false →
  update now waiting st = _update_polling now waiting st.
Proof. intros Hev. unfold update, bind, get. by rewrite Hev. Qed.

Lemma update_polling_offline now waiting (st : Airzone) :
  online st = false →
  _update_polling now waiting st = (st, Raise AirzoneOffline).
Proof. intros Hoff. unfold _update_polling, bind, get. by rewrite Hoff. Qed.

Lemma update_events_offline now (st : Airzone) :
  online st = false → _update_events now st = false.
Proof.
  intros Hoff. unfold _update_events. rewrite Hoff.
  by destruct (api_init st).
Qed.
End UpdateCycle.

(** ** Updates leave the identity alone *)

Section UpdateIdentity.
Context `{PF : PyFloat} `{PR : !PyRepr} `{AC : ApiConst}.

Lemma Device_update_keeps_identity data update_type i :
  keeps (λ d, identity d = i) (Device_update data update_type).
Proof.
  unfold Device_update, if_not_None. keeps_struct; done.
Qed.

Lemma System_update_identity data update_type (s : System) :
  identity (system_dev (System_update data update_type s).1)
  = identity (system_dev s).
Proof.
  unfold System_update, bind, on_system_dev.
  pose proof (Device_update_keeps_identity data update_type
                (identity (system_dev s)) (system_dev s) eq_refl) as Hd.
  by destruct (Device_update _ _ _) as [d [[]|e]].
Qed.

Lemma on_zone_dev_keeps_identity {A} (m : M Device A) i :
  keeps (λ d, identity d = i) m →
  keeps (λ z : Zone, identity (zone_dev z) = i) (on_zone_dev m).
Proof.
  intros Hm z Hz. unfold on_zone_dev. specialize (Hm (zone_dev z) Hz).
  by destruct (m (zone_dev z)).
Qed.

Lemma Zone_update_keeps_identity data update_type i :
  keeps (λ z : Zone, identity (zone_dev z) = i) (Zone_update data update_type).
Proof.
  unfold Zone_update, if_not_None, extend_mode_available.
  keeps_struct;
    try (apply on_zone_dev_keeps_identity, Device_update_keeps_identity);
    done.
Qed.

Lemma Zone_update_identity data update_type (z : Zone) :
  identity (zone_dev (Zone_update data update_type z).1)
  = identity (zone_dev z).
Proof. by apply Zone_update_keeps_identity. Qed.
End UpdateIdentity.

(** ** Properties of the state that the methods keep

    For a property [P] of the [Airzone] object, the assumptions below say
    which assignments keep it; each lemma uses those of the assignments
    its method makes. *)

Section Keeping.
Context `{PF : PyFloat} `{PR : !PyRepr} `{PD : !PyDatetime} `{AC : ApiConst}.
Variable P : Airzone → Prop.

Hypothesis P_api_raw_data : ∀ v st, P st → P (set_api_raw_data v st).
Hypothesis P_api_init : ∀ v st, P st → P (set_api_init v st).
Hypothesis P_api_init_event : ∀ v st, P st → P (set_api_init_event v st).
Hypothesis P_update_dt : ∀ v st, P st → P (set_update_dt v st).
Hypothesis P_online : ∀ v st, P st → P (set_online v st).
Hypothesis P_online_event : ∀ v st, P st → P (set_online_event v st).
Hypothesis P_api_resp : ∀ v st, P st → P (set_api_resp v st).
Hypothesis P_api_lock : ∀ v st, P st → P (set_api_lock v st).
Hypothesis P_api_req_id : ∀ v st, P st → P (set_api_req_id v st).
Hypothesis P_callback_function :
  ∀ v st, P st → P (set_callback_function v st).
Hypothesis P_published :
  ∀ l st, P st → P (set_published (published st ++ l) st).
Hypothesis P_store_system :
  ∀ s st, P st → systems st !! get_id (system_dev s) = None →
          P (set_systems (<[get_id (system_dev s) := s]> (systems st)) st).
Hypothesis P_store_zone :
  ∀ z st, P st → zones st !! get_id (zone_dev z) = None →
          P (set_zones (<[get_id (zone_dev z) := z]> (zones st)) st).
Hypothesis P_on_system :
  ∀ k s s' st, P st → systems st !! k = Some s →
               identity (system_dev s') = identity (system_dev s) →
               P (set_systems (<[k := s']> (systems st)) st).
Hypothesis P_on_zone :
  ∀ k z z' st, P st → zones st !! k = Some z →
               identity (zone_dev z') = identity (zone_dev z) →
               P (set_zones (<[k := z']> (zones st)) st).

Lemma mqtt_update_keeps : keeps P mqtt_update.
Proof using P_published. unfold mqtt_update. keeps_struct. by apply P_published. Qed.

Lemma update_callback_keeps data now : keeps P (update_callback data now).
Proof using P_published P_update_dt.
  unfold update_callback, run_callback. keeps_struct; auto using mqtt_update_keeps.
Qed.

Lemma store_system_keeps system : keeps P (store_system system).
Proof using P_store_system.
  unfold store_system. keeps_struct.
  destruct (systems s !! _) eqn:E; auto.
Qed.

Lemma store_zone_keeps zone : keeps P (store_zone zone).
Proof using P_store_zone.
  unfold store_zone. keeps_struct.
  destruct (zones s !! _) eqn:E; auto.
Qed.

Lemma api_az_get_status_device_keeps pfx device :
  keeps P (api_az_get_status_device pfx device).
Proof using P_store_system P_store_zone.
  unfold api_az_get_status_device.
  keeps_struct; auto using store_system_keeps, store_zone_keeps.
Qed.

Lemma api_az_get_status_keeps data now : keeps P (api_az_get_status data now).
Proof using P_store_system P_store_zone P_api_raw_data P_api_init
            P_api_init_event P_update_dt.
  unfold api_az_get_status.
  keeps_struct; auto using api_az_get_status_device_keeps.
Qed.

(** An event changes the device it names where it is stored. *)
Lemma msg_events_status_keeps topic payload now :
  keeps P (msg_events_status topic payload now).
Proof using P_on_system P_on_zone P_published P_update_dt.
  unfold msg_events_status.
  repeat (apply keeps_bind; [apply keeps_lift_result|intros ?]).
  apply keeps_get_bind. intros st Hst.
  destruct (py_eq_str _ API_AZ_SYSTEM); [|destruct (py_eq_str _ API_AZ_ZONE)].
  - unfold get_system. destruct (systems st !! _) as [system|] eqn:E; [|done].
    unfold bind at 1, on_system.
    pose proof (System_update_identity a1 PARTIAL system) as Hid.
    destruct (System_update a1 PARTIAL system) as [system' r]; simpl in Hid.
    assert (P (set_systems (<[_ := system']> (systems st)) st)) as HP
      by eauto.
    destruct r as [[]|e]; [by apply update_callback_keeps|done].
  - unfold get_zone. destruct (zones st !! _) as [zone|] eqn:E; [|done].
    unfold bind at 1, on_zone.
    pose proof (Zone_update_identity a1 PARTIAL zone) as Hid.
    destruct (Zone_update a1 PARTIAL zone) as [zone' r]; simpl in Hid.
    assert (P (set_zones (<[_ := zone']> (zones st)) st)) as HP
      by eauto.
    destruct r as [[]|e]; [by apply update_callback_keeps|done].
  - done.
Qed.

Lemma msg_events_keeps topic payload now :
  keeps P (msg_events topic payload now).
Proof using P_on_system P_on_zone P_published P_update_dt.
  unfold msg_events. keeps_struct. apply msg_events_status_keeps.
Qed.

Lemma msg_online_keeps payload : keeps P (msg_online payload).
Proof using P_online P_online_event.
  unfold msg_online. keeps_struct; auto.
Qed.

Lemma msg_response_keeps topic payload now :
  keeps P (msg_response topic payload now).
Proof using P_store_system P_store_zone P_api_raw_data P_api_init
            P_api_init_event P_update_dt P_published P_api_resp.
  unfold msg_response.
  keeps_struct;
    auto using api_az_get_status_keeps, update_callback_keeps.
Qed.

Lemma msg_process_keeps topic_str payload now :
  keeps P (msg_process topic_str payload now).
Proof using P_store_system P_store_zone P_api_raw_data P_api_init
            P_api_init_event P_update_dt P_published P_api_resp
            P_on_system P_on_zone P_online P_online_event.
  unfold msg_process.
  keeps_struct;
    auto using msg_events_keeps, msg_online_keeps, msg_response_keeps.
Qed.

Lemma mqtt_task_msg_keeps msg : keeps P (mqtt_task_msg msg).
Proof using P_store_system P_store_zone P_api_raw_data P_api_init
            P_api_init_event P_update_dt P_published P_api_resp
            P_on_system P_on_zone P_online P_online_event.
  unfold mqtt_task_msg. keeps_struct; auto using msg_process_keeps.
Qed.

Lemma mqtt_task_keeps msgs st : P st → P (mqtt_task msgs st).
Proof using P_store_system P_store_zone P_api_raw_data P_api_init
            P_api_init_event P_update_dt P_published P_api_resp
            P_on_system P_on_zone P_online P_online_event.
  revert st. induction msgs as [|msg msgs IH]; intros st Hst; simpl; [done|].
  pose proof (mqtt_task_msg_keeps msg st Hst) as Hmsg.
  destruct (mqtt_task_msg msg st) as [st' [[]|e]]; simpl in *; auto.
Qed.

Lemma Lock_release_keeps : keeps P Lock_release.
Proof using P_api_lock. unfold Lock_release. keeps_struct; auto. Qed.

Lemma cmd_invoke_keeps data waiting : keeps P (cmd_invoke data waiting).
Proof using All.
  unfold cmd_invoke, Lock_acquire, mqtt_publish.
  keeps_struct; auto using mqtt_task_keeps, Lock_release_keeps.
Qed.

Lemma update_polling_keeps now waiting :
  keeps P (_update_polling now waiting).
Proof using All.
  unfold _update_polling, asyncio_timeout, cmd_az_get_status.
  keeps_struct; auto using cmd_invoke_keeps, Lock_release_keeps.
Qed.

Lemma update_keeps now waiting : keeps P (update now waiting).
Proof using All.
  unfold update. keeps_struct. apply update_polling_keeps.
Qed.

Lemma transition_keeps st st' : transition st st' → P st → P st'.
Proof using All.
  intros [cb st0|msg st0|data now st0|now waiting st0] Hst.
  - by apply P_callback_function.
  - by apply mqtt_task_msg_keeps.
  - by apply api_az_get_status_keeps.
  - by apply update_keeps.
Qed.

Lemma transitions_keep st st' : rtc transition st st' → P st → P st'.
Proof using All.
  induction 1 as [|st st1 st' Hstep _ IH]; [done|].
  intros Hst. apply IH. by apply (transition_keeps st).
Qed.
End Keeping.

(** ** The correlation client *)

Section Correlation.
Context `{PF : PyFloat} `{PR : !PyRepr} `{PD : !PyDatetime} `{AC : ApiConst}.

Lemma response_dispatch_keeps (P : Airzone → Prop) topic data now :
  (∀ v st, P st → P (set_api_raw_data v st)) →
  (∀ v st, P st → P (set_api_init v st)) →
  (∀ v st, P st → P (set_api_init_event v st)) →
  (∀ v st, P st → P (set_update_dt v st)) →
  (∀ l st, P st → P (set_published (published st ++ l) st)) →
  (∀ s st, P st → systems st !! get_id (system_dev s) = None →
           P (set_systems (<[get_id (system_dev s) := s]> (systems st)) st)) →
  (∀ z st, P st → zones st !! get_id (zone_dev z) = None →
           P (set_zones (<[get_id (zone_dev z) := z]> (zones st)) st)) →
  keeps P (response_dispatch topic data now).
Proof.
  intros. unfold response_dispatch.
  keeps_struct; auto using api_az_get_status_keeps, update_callback_keeps.
Qed.

Lemma msg_response_raise topic payload now (st : Airzone) e :
  response_req_id payload = Raise e →
  msg_response topic payload now st = (st, Raise e).
Proof.
  unfold response_req_id, msg_response, bind, lift_result.
  destruct (json_loads payload) as [data|]; [|by intros [= ->]].
  destruct (py_get_or data API_HEADERS _) as [headers|]; [|by intros [= ->]].
  by intros ->.
Qed.

Lemma msg_response_mismatch topic payload data now (st : Airzone) req_id :
  json_loads payload = Ok data →
  response_req_id payload = Ok req_id →
  py_eq_str req_id (api_req_id st) = false →
  msg_response topic payload now st = response_dispatch topic data now st.
Proof.
  unfold response_req_id, msg_response, response_dispatch.
  intros -> Hid Hne. unfold bind at 1, lift_result at 1.
  unfold bind at 1, lift_result at 1.
  destruct (py_get_or data API_HEADERS _) as [headers|]; [|done].
  unfold bind at 1, lift_result at 1. rewrite Hid.
  unfold bind at 1, get. rewrite Hne. by unfold bind at 1, ret at 1.
Qed.

Lemma msg_response_match topic payload data now (st : Airzone) req_id :
  json_loads payload = Ok data →
  response_req_id payload = Ok req_id →
  py_eq_str req_id (api_req_id st) = true →
  msg_response topic payload now st
  = response_dispatch topic data now (set_api_resp true st).
Proof.
  unfold response_req_id, msg_response, response_dispatch.
  intros -> Hid Hne. unfold bind at 1, lift_result at 1.
  unfold bind at 1, lift_result at 1.
  destruct (py_get_or data API_HEADERS _) as [headers|]; [|done].
  unfold bind at 1, lift_result at 1. rewrite Hid.
  unfold bind at 1, get. rewrite Hne. by unfold bind at 1, modify at 1.
Qed.

Lemma constants_of_refl (st : Airzone) : constants_of st st.
Proof. by repeat split. Qed.

Lemma mqtt_task_msg_constants msg (st0 : Airzone) :
  keeps (constants_of st0) (mqtt_task_msg msg).
Proof. by apply mqtt_task_msg_keeps. Qed.

Lemma mqtt_task_constants msgs (st : Airzone) :
  constants_of st (mqtt_task msgs st).
Proof.
  by apply (mqtt_task_keeps (constants_of st)); [..|apply constants_of_refl].
Qed.

Lemma mqtt_task_published msgs (st : Airzone) :
  published st `prefix_of` published (mqtt_task msgs st).
Proof.
  apply (mqtt_task_keeps (λ st', published st `prefix_of` published st'));
    try done.
  intros l st' Hpre. simpl. by apply prefix_app_r.
Qed.

(** A message that does not answer the pending id leaves the event
    clear. *)
Lemma mqtt_task_msg_unanswered msg (st : Airzone) :
  answers (api_req_id st) st msg = false →
  api_resp st = false →
  api_resp (mqtt_task_msg msg st).1 = false.
Proof.
  intros Hans Hclear. unfold answers in Hans.
  unfold mqtt_task_msg, bind at 1, get.
  destruct (startswith _ (Config.topic_interface _)); [done|].
  destruct (startswith _ (airzone_mqtt_topic _)); [|done].
  unfold msg_process, bind at 1, get.
  destruct (split_slash _) as [|t0 topic]; [done|].
  unfold bind at 1, lift_result at 1, topic_0 at 1.
  simpl in Hans.
  destruct (String.eqb t0 AMT_EVENTS).
  { by apply (msg_events_keeps (λ st, api_resp st = false)). }
  destruct (String.eqb t0 AMT_INVOKE); [done|].
  destruct (String.eqb t0 AMT_ONLINE).
  { by apply (msg_online_keeps (λ st, api_resp st = false)). }
  destruct (String.eqb t0 AMT_RESPONSE); [|done].
  simpl in Hans.
  destruct (response_req_id (in_payload msg)) as [req_id|e] eqn:Hid.
  - destruct (json_loads (in_payload msg)) as [data|e] eqn:Hdata.
    + rewrite (msg_response_mismatch _ _ data _ _ req_id); [|done..].
      by apply (response_dispatch_keeps (λ st, api_resp st = false)).
    + unfold response_req_id in Hid. by rewrite Hdata in Hid.
  - by rewrite (msg_response_raise _ _ _ _ e).
Qed.

Lemma mqtt_task_unanswered msgs (st : Airzone) :
  (∀ msg, msg ∈ msgs → answers (api_req_id st) st msg = false) →
  api_resp st = false →
  api_resp (mqtt_task msgs st) = false.
Proof.
  assert (∀ st', constants_of st st' → api_resp st' = false →
                 (∀ msg, msg ∈ msgs → answers (api_req_id st) st msg = false) →
                 api_resp (mqtt_task msgs st') = false) as Hgen.
  { induction msgs as [|msg msgs IH]; intros st' Hc Hclear Hans; [done|].
    simpl.
    assert (answers (api_req_id st') st' msg = false) as Hmsg.
    { destruct Hc as (_ & Hid & Hcfg & Hpfx & Htopic & _).
      rewrite <- (Hans msg) by apply list_elem_of_here.
      unfold answers. by rewrite Hid, Hcfg, Hpfx, Htopic. }
    pose proof (mqtt_task_msg_unanswered msg st' Hmsg Hclear) as Hclear'.
    pose proof (mqtt_task_msg_constants msg st st' Hc) as Hc'.
    destruct (mqtt_task_msg msg st') as [st'' [[]|e]]; simpl in *; [|done].
    apply IH; [done..|]. intros msg' Hin. apply Hans. by apply list_elem_of_further. }
  intros Hans Hclear. apply Hgen; [apply constants_of_refl|done..].
Qed.

(** The caller has the lock when [acquire] returns, whether it had to
    wait for it or not. *)
Lemma Lock_acquire_run (st : Airzone) :
  Lock_acquire st = (set_api_lock true st, Ok tt).
Proof. unfold Lock_acquire, bind, get, modify. by destruct (api_lock st). Qed.

(** [cmd_invoke] when the lock is free: it waits in the state
    [request_sent], and gives the lock back when the wait ends. *)
Lemma cmd_invoke_free data waiting (st : Airzone) :
  api_lock st = false →
  cmd_invoke data waiting st
  = (set_api_lock false (mqtt_task waiting (request_sent data st)),
     if api_resp (mqtt_task waiting (request_sent data st))
     then Ok tt else Raise CancelledError).
Proof.
  intros _. unfold cmd_invoke, bind at 1, get.
  unfold bind at 1. rewrite Lock_acquire_run. unfold try_finally.
  unfold bind at 1, modify at 1. unfold bind at 1, modify at 1.
  unfold bind at 1, mqtt_publish, modify at 1.
  unfold bind at 1, modify at 1. unfold bind at 1, get.
  change (set_published (published _ ++ _) _) with (request_sent data st).
  destruct (mqtt_task_constants waiting (request_sent data st))
    as (Hlock & _).
  unfold Lock_release, bind, get, ret, raise.
  by destruct (api_resp _); rewrite Hlock.
Qed.

(** [cmd_invoke] when the lock is held: the call goes on as soon as the
    holder has given the lock back. *)
Lemma cmd_invoke_held data waiting (st : Airzone) :
  api_lock st = true →
  cmd_invoke data waiting st = cmd_invoke data waiting (set_api_lock false st).
Proof.
  intros _. unfold cmd_invoke, bind at 1, get. symmetry.
  unfold bind at 1, get. unfold bind at 1. symmetry. unfold bind at 1.
  by rewrite !Lock_acquire_run.
Qed.

(** The cycle when the gateway is online, the lock free and no response
    with the pending id arrives: the lock, released when the wait was
    cancelled, is released once more. *)
Lemma update_polling_unanswered now waiting (st : Airzone) :
  online st = true →
  api_lock st = false →
  api_resp (mqtt_task waiting
              (request_sent (get_status_request st now) st)) = false →
  _update_polling now waiting st
  = (set_api_lock false
       (mqtt_task waiting (request_sent (get_status_request st now) st)),
     Raise RuntimeError).
Proof.
  intros Hon Hfree Hclear.
  unfold _update_polling, bind at 1, get. rewrite Hon. cbn [negb].
  unfold bind at 1, try_except at 1, asyncio_timeout, try_except,
    cmd_az_get_status, bind at 1, get.
  cbv beta iota. fold (get_status_request st now).
  rewrite cmd_invoke_free by done. rewrite Hclear.
  by unfold raise, bind, Lock_release, get.
Qed.

(** The same when a response with the pending id arrives in time. *)
Lemma update_polling_answered now waiting (st : Airzone) :
  online st = true →
  api_lock st = false →
  api_resp (mqtt_task waiting
              (request_sent (get_status_request st now) st)) = true →
  let st' := set_api_lock false
               (mqtt_task waiting
                  (request_sent (get_status_request st now) st)) in
  _update_polling now waiting st
  = (st', if api_init st' then Ok tt else Raise AirzonePollError).
Proof.
  intros Hon Hfree Hset.
  unfold _update_polling, bind at 1, get. rewrite Hon. cbn [negb].
  unfold bind at 1, try_except at 1, asyncio_timeout, try_except,
    cmd_az_get_status, bind at 1, get.
  cbv beta iota. fold (get_status_request st now).
  rewrite cmd_invoke_free by done. rewrite Hset.
  unfold bind, get, raise, ret. by destruct (api_init _).
Qed.

Lemma update_offline_raises now waiting (st : Airzone) :
  online st = false →
  update now waiting st = (st, Raise AirzoneOffline).
Proof.
  intros Hoff. rewrite update_stale by by apply update_events_offline.
  by apply update_polling_offline.
Qed.

(** No message that answers the request: the event is still clear when
    the wait ends. *)
Lemma get_status_unanswered now waiting (st : Airzone) :
  (∀ msg, msg ∈ waiting →
          answers (cmd_req_id API_AZ_GET_STATUS now) st msg = false) →
  api_resp (mqtt_task waiting
              (request_sent (get_status_request st now) st)) = false.
Proof.
  intros Hans. apply mqtt_task_unanswered; [|done]. intros msg Hin.
  by rewrite <- (Hans msg Hin).
Qed.

(** With the gateway online and the lock free, the cycle publishes its
    request whatever happens next. *)
Lemma update_polling_polls now waiting (st : Airzone) :
  online st = true →
  api_lock st = false →
  polls st (_update_polling now waiting st).1.
Proof.
  intros Hon Hfree. unfold polls.
  set (st1 := request_sent (get_status_request st now) st).
  assert (published (_update_polling now waiting st).1
          = published (mqtt_task waiting st1)) as ->.
  { destruct (api_resp (mqtt_task waiting st1)) eqn:Hresp.
    - by rewrite update_polling_answered.
    - by rewrite update_polling_unanswered. }
  destruct (mqtt_task_published waiting st1) as [rest Hrest].
  exists (mkPublication (mqtt_prefix st +:+ "/" +:+ AMT_INVOKE)
            (PayloadRequest (get_status_request st now))), rest.
  split; [done|]. rewrite Hrest. unfold st1, request_sent. simpl.
  by rewrite <- app_assoc.
Qed.
End Correlation.

(** ** The update cycle and the correlation client: the stated properties *)

Section CycleProperties.
Context `{PF : PyFloat} `{PR : !PyRepr} `{PD : !PyDatetime} `{AC : ApiConst}.

(** C6. When the online flag is false, the update cycle raises
    [AirzoneOffline] at once and leaves the object as it was: no request
    is sent and nothing is published. *)
Theorem update_offline (st : Airzone) (now : Z) (waiting : list inbound) :
  online st = false →
  update now waiting st = (st, Raise AirzoneOffline)
  ∧ published (update now waiting st).1 = published st.
Proof.
  intros Hoff. by rewrite update_offline_raises.
Qed.

(** C3, as amended. The cycle returns at once, without polling, exactly
    when the data is fresh: the store initialised, the gateway online and
    the last update no older than the poll timeout. When it is not fresh
    and the gateway is online, the cycle polls (the lock being free, as it
    is between cycles); when the gateway is offline it raises
    [AirzoneOffline] and does not poll. In particular, online and with a
    last update one second older than the timeout it polls, and
    initialised, online and with a last update one second old it returns
    at once. *)
Theorem update_freshness (st : Airzone) (now : Z) (waiting : list inbound) :
  (fresh now st → update now waiting st = (st, Ok tt))
  ∧ (¬ fresh now st → online st = true → api_lock st = false →
     polls st (update now waiting st).1)
  ∧ (¬ fresh now st → online st = false →
     update now waiting st = (st, Raise AirzoneOffline))
  ∧ (online st = true → api_lock st = false →
     update_dt st = Some (now - poll_timeout st - 1000000) →
     polls st (update now waiting st).1)
  ∧ (api_init st = true → online st = true → 1000000 ≤ poll_timeout st →
     update_dt st = Some (now - 1000000) →
     update now waiting st = (st, Ok tt)).
Proof.
  assert (¬ fresh now st → _update_events now st = false) as Hstale.
  { intros Hnot. destruct (_update_events now st) eqn:E; [|done].
    by apply update_events_spec in E. }
  assert (¬ fresh now st → online st = true → api_lock st = false →
          polls st (update now waiting st).1) as Hpoll.
  { intros Hnot Hon Hfree. rewrite update_stale by auto.
    by apply update_polling_polls. }
  assert (fresh now st → update now waiting st = (st, Ok tt)) as Hfresh.
  { intros Hf. by apply update_fresh, update_events_spec. }
  repeat split; try done.
  - intros Hnot Hoff. by apply update_offline_raises.
  - intros Hon Hfree Hdt. apply Hpoll; [|done..].
    intros (_ & _ & t & Ht & Hle). rewrite Hdt in Ht.
    injection Ht as <-. lia.
  - intros Hinit Hon Hto Hdt. apply Hfresh.
    split; [done|]. split; [done|]. exists (now - 1000000).
    split; [done|]. lia.
Qed.

(** C2: what the code does. When the gateway is online, the lock free and
    no response with the id of the request arrives before the deadline,
    the cycle does not end with [AirzoneTimeout]: the lock was given back
    when the wait was cancelled, releasing it once more in the handler
    raises [RuntimeError], and that is what the caller sees. The lock is
    free afterwards, the event clear, and the pending id still that of
    the request. *)
Theorem update_polling_timeout (st : Airzone) (now : Z)
    (waiting : list inbound) :
  online st = true →
  api_lock st = false →
  (∀ msg, msg ∈ waiting →
          answers (cmd_req_id API_AZ_GET_STATUS now) st msg = false) →
  (_update_polling now waiting st).2 = Raise RuntimeError
  ∧ api_lock (_update_polling now waiting st).1 = false
  ∧ api_resp (_update_polling now waiting st).1 = false
  ∧ api_req_id (_update_polling now waiting st).1
    = cmd_req_id API_AZ_GET_STATUS now.
Proof.
  intros Hon Hfree Hans.
  set (st1 := request_sent (get_status_request st now) st).
  assert (api_resp (mqtt_task waiting st1) = false) as Hclear
    by by apply get_status_unanswered.
  rewrite update_polling_unanswered by done. fold st1.
  destruct (mqtt_task_constants waiting st1) as (_ & Hid & _).
  repeat split; done.
Qed.

(** [Interface.airzone_task] lets that exception through. *)
Lemma airzone_task_turn_timeout (st : Airzone) now waiting :
  ¬ fresh now st →
  online st = true →
  api_lock st = false →
  (∀ msg, msg ∈ waiting →
          answers (cmd_req_id API_AZ_GET_STATUS now) st msg = false) →
  (airzone_task_turn now waiting st).2 = Raise RuntimeError.
Proof.
  intros Hnot Hon Hfree Hans. unfold airzone_task_turn, try_except.
  rewrite update_stale.
  - by rewrite update_polling_unanswered
      by auto using get_status_unanswered.
  - destruct (_update_events now st) eqn:E; [|done].
    by apply update_events_spec in E.
Qed.
End CycleProperties.

Section ResponseProperties.
Context `{PF : PyFloat} `{PR : !PyRepr} `{PD : !PyDatetime} `{AC : ApiConst}.

Lemma response_dispatch_topic cmd rest data now (st : Airzone) :
  response_dispatch (AMT_RESPONSE :: cmd :: rest) data now st
  = if String.eqb cmd (api_safe_str API_AZ_GET_STATUS)
    then (api_az_get_status data now ;;; update_callback (JObj []) now) st
    else (st, Ok tt).
Proof.
  unfold response_dispatch, bind at 1, lift_result at 1, pop_if_first.
  simpl topic_0. cbv beta iota. rewrite String.eqb_refl. simpl tail.
  unfold bind at 1, lift_result at 1. simpl topic_0. cbv beta iota.
  by destruct (String.eqb cmd _).
Qed.

(** C1, as amended. A response whose correlation id differs from the
    pending one does not set the event the waiter sleeps on, and changes
    neither the pending id nor the lock. It is not discarded, though: the
    command segment of its topic is looked at all the same. On the topic
    of the status command the message is applied to the store as the full
    snapshot it is; on any other topic nothing changes at all. *)
Theorem response_mismatch (st : Airzone) (cmd : string) (rest : list string)
    (data req_id : json) (now : Z) :
  response_req_id (Some data) = Ok req_id →
  py_eq_str req_id (api_req_id st) = false →
  let topic := AMT_RESPONSE :: cmd :: rest in
  let st' := (msg_response topic (Some data) now st).1 in
  api_resp st' = api_resp st
  ∧ api_req_id st' = api_req_id st
  ∧ api_lock st' = api_lock st
  ∧ (cmd ≠ api_safe_str API_AZ_GET_STATUS →
     msg_response topic (Some data) now st = (st, Ok tt))
  ∧ (cmd = api_safe_str API_AZ_GET_STATUS →
     msg_response topic (Some data) now st
     = (api_az_get_status data now ;;; update_callback (JObj []) now) st).
Proof.
  intros Hid Hne topic st'. subst topic st'.
  rewrite (msg_response_mismatch _ _ data _ _ req_id) by done.
  assert (keeps (λ st', api_resp st' = api_resp st
                        ∧ api_req_id st' = api_req_id st
                        ∧ api_lock st' = api_lock st)
            (response_dispatch (AMT_RESPONSE :: cmd :: rest) data now))
    as Hkeeps by by apply response_dispatch_keeps.
  destruct (Hkeeps st) as (? & ? & ?); [done|].
  repeat split; try done; rewrite response_dispatch_topic.
  - intros Hcmd. apply String.eqb_neq in Hcmd. by rewrite Hcmd.
  - intros ->. by rewrite String.eqb_refl.
Qed.

Lemma update_callback_empty now (st : Airzone) :
  update_dt (update_callback (JObj []) now st).1 = Some now.
Proof.
  unfold update_callback, bind, lift_result, modify, get, ret. simpl.
  destruct (callback_function st) as [[]|]; done.
Qed.

(** C7, as amended. After a response to the status command has been
    handled without error, the freshness timestamp is the time at which
    it was handled, whatever timestamp its headers carry: the callback is
    run on an empty dict. *)
Theorem response_timestamp (st st' : Airzone) (rest : list string)
    (payload : option json) (now : Z) :
  msg_response (AMT_RESPONSE :: api_safe_str API_AZ_GET_STATUS :: rest)
    payload now st = (st', Ok tt) →
  update_dt st' = Some now.
Proof.
  intros Hrun.
  assert (∃ data st0,
            response_dispatch
              (AMT_RESPONSE :: api_safe_str API_AZ_GET_STATUS :: rest)
              data now st0 = (st', Ok tt)) as (data & st0 & Hdisp).
  { destruct (response_req_id payload) as [req_id|e] eqn:Hid.
    - destruct (json_loads payload) as [data|e] eqn:Hdata.
      + exists data. destruct (py_eq_str req_id (api_req_id st)) eqn:Heq.
        * exists (set_api_resp true st).
          by rewrite <- (msg_response_match _ payload _ _ _ req_id).
        * exists st.
          by rewrite <- (msg_response_mismatch _ payload _ _ _ req_id).
      + unfold response_req_id in Hid. by rewrite Hdata in Hid.
    - by rewrite (msg_response_raise _ _ _ _ e) in Hrun. }
  rewrite response_dispatch_topic, String.eqb_refl in Hdisp.
  apply bind_inv_ok in Hdisp as (st1 & [] & _ & Hcb).
  rewrite <- (update_callback_empty now st1). by rewrite Hcb.
Qed.

(** The timestamp of the headers is taken from an event, when the event
    is for a device of the store and its update went through. *)
Lemma update_callback_timestamp data headers ts x dt now (st : Airzone) :
  py_get_or data API_HEADERS (JObj []) = Ok headers →
  py_get headers API_TS = Ok ts →
  is_None ts = false →
  py_float ts = Ok x →
  datetime_fromtimestamp x = Ok dt →
  update_dt (update_callback data now st).1 = Some dt.
Proof.
  intros Hh Hts Hnone Hx Hdt.
  unfold update_callback, bind, lift_result, modify, get, ret.
  rewrite Hh, Hts, Hnone, Hx, Hdt. simpl.
  destruct (callback_function st) as [[]|]; done.
Qed.
End ResponseProperties.

(** ** The data of a zone *)

Section ZoneData.
Context `{PF : PyFloat} `{PR : !PyRepr} `{AC : ApiConst}.

Lemma lookup_put_if_set_ne {A} k k' (v : option A) to_json
    (data : gmap string json) :
  k' ≠ k → put_if_set k' v to_json data !! k = data !! k.
Proof.
  intros Hne. unfold put_if_set. destruct v; [|done].
  by rewrite lookup_insert_ne.
Qed.

Lemma lookup_put_if_set_None {A} k k' to_json (data : gmap string json) :
  put_if_set (A:=A) k' None to_json data !! k = data !! k.
Proof. done. Qed.

Lemma get_active_spec (z : Zone) :
  get_active z
  = bool_decide (air_active z = Some true ∨ rad_active z = Some true).
Proof.
  unfold get_active.
  symmetry.
  destruct (air_active z) as [[]|], (rad_active z) as [[]|];
    first [ apply bool_decide_eq_true_2; auto; fail
          | apply bool_decide_eq_false_2; intros [?|?]; done ].
Qed.
End ZoneData.

(** Two keys of a list without duplicates differ. The facts [k ∉ rest]
    come from taking the list apart. *)
Ltac nodup_facts H :=
  repeat (apply NoDup_cons in H as [? H]).

Ltac key_neq :=
  let E := fresh "E" in
  intros E;
  match goal with
  | H : ?k ∉ _ |- _ =>
      apply H; first [rewrite E | rewrite <- E];
      solve [repeat first [apply list_elem_of_here
                          | apply list_elem_of_further]]
  end.

Section ZoneDataProperty.
Context `{PF : PyFloat} `{PR : !PyRepr} `{AC : ApiConst}.

(** C10. The data of a zone always holds the active flag, true exactly
    when the air or the radiant stage is known to be active, an unknown
    one counting as inactive; the flag is there also when both are
    unknown. A field that is not known is left out of the data. The keys
    of the data are taken to be distinct. *)
Theorem zone_data_active (z : Zone) :
  NoDup zone_data_keys →
  Zone_data z !! AZD_ACTIVE
  = Some (JBool (bool_decide (air_active z = Some true
                              ∨ rad_active z = Some true)))
  ∧ (air_active z = None → Zone_data z !! AZD_AIR_ACTIVE = None)
  ∧ (rad_active z = None → Zone_data z !! AZD_RAD_ACTIVE = None)
  ∧ (humidity z = None → Zone_data z !! AZD_HUMIDITY = None)
  ∧ (mode z = None → Zone_data z !! AZD_MODE = None)
  ∧ (mode_available z = [] → Zone_data z !! AZD_MODE_AVAILABLE = None)
  ∧ (power z = None → Zone_data z !! AZD_POWER = None)
  ∧ (setpoint z = None → Zone_data z !! AZD_SETPOINT = None)
  ∧ (setpoint_max z = None → Zone_data z !! AZD_SETPOINT_MAX = None)
  ∧ (setpoint_min z = None → Zone_data z !! AZD_SETPOINT_MIN = None)
  ∧ (step z = None → Zone_data z !! AZD_STEP = None)
  ∧ (zone_work_temp z = None → Zone_data z !! AZD_ZONE_WORK_TEMP = None).
Proof.
  intros Hnd. unfold zone_data_keys in Hnd. nodup_facts Hnd.
  unfold Zone_data, Device_data, get_air_active, get_rad_active,
    get_humidity, get_mode, get_mode_available, get_power, get_setpoint,
    get_setpoint_max, get_setpoint_min, get_step, get_zone_work_temp.
  repeat split; try intros ->; simpl put_if_set;
    rewrite ?lookup_put_if_set_None;
    repeat first [ rewrite lookup_put_if_set_ne by key_neq
                 | rewrite lookup_insert_ne by key_neq
                 | rewrite lookup_put_if_set_None ];
    rewrite ?lookup_empty, ?lookup_insert_eq, ?get_active_spec; done.
Qed.
End ZoneDataProperty.

(** ** An event with the power parameter alone *)

Section PowerEvent.
Context `{PF : PyFloat} `{PR : !PyRepr} `{PD : !PyDatetime} `{AC : ApiConst}.

(** The delta with the one parameter [{power: true}]: it sets the power
    of a zone, and its unit when the meta data name one; when they name
    what is no unit, or are no dict, it raises and sets nothing. *)
Lemma Zone_update_power body meta update_type (z : Zone) :
  API_POWER ∉ parameter_keys_but_power →
  py_get_or body API_META (JObj []) = Ok meta →
  py_get_or body API_PARAMETERS (JObj [])
  = Ok (JObj [(API_POWER, JBool true)]) →
  Zone_update body update_type z
  = match py_get meta API_UNITS with
    | Raise e => (z, Raise e)
    | Ok units =>
        if is_None units then (set_power (Some true) z, Ok tt)
        else match AZ_TemperatureUnit_of units with
             | Ok u =>
                 (set_power (Some true)
                    (set_zone_dev (set_units u (zone_dev z)) z), Ok tt)
             | Raise e => (z, Raise e)
             end
    end.
Proof.
  intros Hkeys Hmeta Hparams.
  unfold parameter_keys_but_power in Hkeys.
  repeat (apply not_elem_of_cons in Hkeys as [? Hkeys]).
  repeat match goal with
         | H : API_POWER ≠ _ |- _ => apply not_eq_sym, String.eqb_neq in H
         end.
  unfold Zone_update, on_zone_dev, Device_update, bind, lift_result,
    if_not_None, modify, ret.
  rewrite Hmeta, Hparams. simpl.
  repeat match goal with
         | H : (?a =? ?b)%string = false |- context [(?a =? ?b)%string] =>
             rewrite H; simpl
         end.
  destruct (py_get meta API_UNITS) as [units|e]; [|by destruct z].
  destruct (is_None units); simpl;
    [|destruct (AZ_TemperatureUnit_of units) as [u|e]; simpl;
      [|by destruct z]].
  all: repeat match goal with
         | H : (?a =? ?b)%string = false |- context [(?a =? ?b)%string] =>
             rewrite H; simpl
         end.
  all: rewrite String.eqb_refl; simpl; by destruct z as [[]].
Qed.

(** C9, as amended. An event for a stored zone whose parameters are
    [{power: true}]. When the meta data of the event name no unit, it
    sets the power of that zone and leaves every other field of it as it
    was. When they name a unit, it sets the unit of the zone as well, and
    nothing else. When they name what is no unit, or are no dict, the
    event raises and changes nothing at all, the power included. The
    other zones and the systems are not touched in any case. The key of
    the power parameter is taken to differ from the keys of the other
    parameters. *)
Theorem event_power_only (st : Airzone) (topic : list string)
    (data body meta device_id device_type system_id : json) (zone : Zone)
    (now : Z) :
  API_POWER ∉ parameter_keys_but_power →
  topic ≠ [] →
  py_get_or data API_BODY (JObj []) = Ok body →
  py_get body API_DEVICE_ID = Ok device_id →
  py_get body API_DEVICE_TYPE = Ok device_type →
  py_get body API_SYSTEM_ID = Ok system_id →
  py_eq_str device_type API_AZ_SYSTEM = false →
  py_eq_str device_type API_AZ_ZONE = true →
  py_get_or body API_META (JObj []) = Ok meta →
  py_get_or body API_PARAMETERS (JObj [])
  = Ok (JObj [(API_POWER, JBool true)]) →
  get_zone st system_id device_id = Some zone →
  let key := py_str system_id +:+ ":" +:+ py_str device_id in
  let r := msg_events_status topic (Some data) now st in
  let changed (dev : Device) :=
    ∃ zone' : Zone,
      zones r.1 = <[key := zone']> (zones st)
      ∧ systems r.1 = systems st
      ∧ zone_dev zone' = dev
      ∧ only_power zone zone' in
  match py_get meta API_UNITS with
  | Raise e => r = (st, Raise e)
  | Ok units =>
      if is_None units then changed (zone_dev zone)
      else match AZ_TemperatureUnit_of units with
           | Ok u => changed (set_units u (zone_dev zone))
           | Raise e => r = (st, Raise e)
           end
  end.
Proof.
  intros Hkeys Htopic Hbody Hdev Htype Hsys Hnosys Hzone Hmeta Hparams
    Hstored key r changed.
  assert (r = (on_zone key zone (Zone_update body PARTIAL) ;;;
               update_callback data now) st) as Hrun.
  { subst r. unfold msg_events_status.
    unfold bind at 1, lift_result at 1, pop_if_first.
    destruct topic as [|t topic]; [done|]. simpl topic_0. cbv beta iota.
    unfold bind at 1, lift_result at 1. simpl json_loads. cbv beta iota.
    unfold bind at 1, lift_result at 1. rewrite Hbody.
    unfold bind at 1, lift_result at 1. rewrite Hdev.
    unfold bind at 1, lift_result at 1. rewrite Htype.
    unfold bind at 1, lift_result at 1. rewrite Hsys.
    unfold bind at 1, get. by rewrite Hnosys, Hzone, Hstored. }
  assert (∀ e, (Zone_update body PARTIAL zone) = (zone, Raise e) →
               r = (st, Raise e)) as Hraise.
  { intros e Hz. rewrite Hrun. unfold bind at 1, on_zone. rewrite Hz.
    unfold get_zone in Hstored. fold key in Hstored.
    rewrite (insert_id _ _ _ Hstored). by destruct st. }
  assert (∀ zone', (Zone_update body PARTIAL zone) = (zone', Ok tt) →
               zones r.1 = <[key := zone']> (zones st)
               ∧ systems r.1 = systems st) as Hok.
  { intros zone' Hz. rewrite Hrun. unfold bind at 1, on_zone. rewrite Hz.
    set (P := λ st' : Airzone,
           zones st' = <[key := zone']> (zones st)
           ∧ systems st' = systems st).
    by apply (update_callback_keeps P). }
  rewrite (Zone_update_power body meta) in Hraise, Hok by done.
  subst changed. cbv beta.
  destruct (py_get meta API_UNITS) as [units|e]; [|by apply Hraise].
  destruct (is_None units).
  - destruct (Hok _ eq_refl) as [Hz Hs]. eexists.
    split; [exact Hz|]. split; [exact Hs|]. split; [reflexivity|].
    unfold only_power. by repeat split.
  - destruct (AZ_TemperatureUnit_of units) as [u|e]; [|by apply Hraise].
    destruct (Hok _ eq_refl) as [Hz Hs]. eexists.
    split; [exact Hz|]. split; [exact Hs|]. split; [reflexivity|].
    unfold only_power. by repeat split.
Qed.
End PowerEvent.

(** ** The device store *)

Section Store.
Context `{PF : PyFloat} `{PR : !PyRepr} `{PD : !PyDatetime} `{AC : ApiConst}.

Lemma get_id_identity (d d' : Device) :
  identity d = identity d' → get_id d = get_id d'.
Proof. unfold identity, get_id. by intros [= -> ->]. Qed.

(** A snapshot leaves the devices of the store as they are. *)
Lemma api_az_get_status_keeps_system data now k (s : System) :
  keeps (λ st, systems st !! k = Some s) (api_az_get_status data now).
Proof.
  apply api_az_get_status_keeps; try done.
  intros s' st Hk Hfree. simpl. rewrite lookup_insert_ne; [done|].
  intros <-. by rewrite Hk in Hfree.
Qed.

Lemma api_az_get_status_keeps_zone data now k (z : Zone) :
  keeps (λ st, zones st !! k = Some z) (api_az_get_status data now).
Proof.
  apply api_az_get_status_keeps; try done.
  intros z' st Hk Hfree. simpl. rewrite lookup_insert_ne; [done|].
  intros <-. by rewrite Hk in Hfree.
Qed.

Lemma keyed_init config : keyed (Airzone_init config).
Proof. split; intros k d; simpl; by rewrite lookup_empty. Qed.

Lemma keyed_kept st st' : rtc transition st st' → keyed st → keyed st'.
Proof.
  apply transitions_keep; try done.
  - intros s st0 [Hs Hz] Hfree. split; [|done].
    intros k s'. simpl. rewrite lookup_insert.
    case_decide as Hk; [by intros [= <-]|by apply Hs].
  - intros z st0 [Hs Hz] Hfree. split; [done|].
    intros k z'. simpl. rewrite lookup_insert.
    case_decide as Hk; [by intros [= <-]|by apply Hz].
  - intros k s s' st0 [Hs Hz] Hk Hid. split; [|done].
    intros k' s''. simpl. rewrite lookup_insert.
    case_decide as Hk'; [|by apply Hs].
    intros [= <-]. subst k'. rewrite (get_id_identity _ _ Hid). by apply Hs.
  - intros k z z' st0 [Hs Hz] Hk Hid. split; [done|].
    intros k' z''. simpl. rewrite lookup_insert.
    case_decide as Hk'; [|by apply Hz].
    intros [= <-]. subst k'. rewrite (get_id_identity _ _ Hid). by apply Hz.
Qed.

Lemma system_identity_kept st st' k i :
  rtc transition st st' →
  (∃ s, systems st !! k = Some s ∧ identity (system_dev s) = i) →
  ∃ s', systems st' !! k = Some s' ∧ identity (system_dev s') = i.
Proof.
  apply (transitions_keep
           (λ st, ∃ s, systems st !! k = Some s
                       ∧ identity (system_dev s) = i)); try done.
  - intros s st0 (s0 & Hk & Hi) Hfree. exists s0. split; [|done].
    simpl. rewrite lookup_insert_ne; [done|].
    intros <-. by rewrite Hk in Hfree.
  - intros k' s s' st0 (s0 & Hk & Hi) Hk' Hid. simpl.
    rewrite lookup_insert. case_decide as Heq.
    + subst k'. exists s'. split; [done|]. rewrite Hid.
      rewrite Hk in Hk'. by injection Hk' as <-.
    + by exists s0.
Qed.

Lemma zone_identity_kept st st' k i :
  rtc transition st st' →
  (∃ z : Zone, zones st !! k = Some z ∧ identity (zone_dev z) = i) →
  ∃ z' : Zone, zones st' !! k = Some z' ∧ identity (zone_dev z') = i.
Proof.
  apply (transitions_keep
           (λ st, ∃ z : Zone, zones st !! k = Some z
                              ∧ identity (zone_dev z) = i)); try done.
  - intros z st0 (z0 & Hk & Hi) Hfree. exists z0. split; [|done].
    simpl. rewrite lookup_insert_ne; [done|].
    intros <-. by rewrite Hk in Hfree.
  - intros k' z z' st0 (z0 & Hk & Hi) Hk' Hid. simpl.
    rewrite lookup_insert. case_decide as Heq.
    + subst k'. exists z'. split; [done|]. rewrite Hid.
      rewrite Hk in Hk'. by injection Hk' as <-.
    + by exists z0.
Qed.

(** Between the runs of the program the lock is free. *)
Lemma transition_lock_free st st' :
  transition st st' → api_lock st = false → api_lock st' = false.
Proof.
  intros [cb st0|msg st0|data now st0|now waiting st0] Hfree.
  - done.
  - by apply (mqtt_task_msg_keeps (λ st, api_lock st = false)).
  - by apply (api_az_get_status_keeps (λ st, api_lock st = false)).
  - destruct (_update_events now st0) eqn:Hev.
    { by rewrite update_fresh. }
    rewrite update_stale by done.
    destruct (online st0) eqn:Hon.
    + destruct (api_resp (mqtt_task waiting
                  (request_sent (get_status_request st0 now) st0))) eqn:Hresp.
      * by rewrite update_polling_answered.
      * by rewrite update_polling_unanswered.
    + by rewrite update_polling_offline.
Qed.

Lemma reachable_lock_free st : reachable st → api_lock st = false.
Proof.
  intros [config Hreach].
  assert (∀ st0 st1, rtc transition st0 st1 →
                     api_lock st0 = false → api_lock st1 = false) as Hrtc.
  { induction 1 as [|st0 st1 st2 Hstep _ IH]; [done|].
    intros Hfree. apply IH. by apply (transition_lock_free st0). }
  by apply (Hrtc (Airzone_init config)).
Qed.

(** C8, as amended. In every state the program reaches, two systems of
    the store have different identity pairs, and so have two zones; a
    system and a zone are held in maps of their own and may share one.
    Whatever the program does next, a stored device stays under its key
    with the identity pair it has. *)
Theorem store_identity (st : Airzone) :
  reachable st →
  (∀ k1 k2 s1 s2,
     systems st !! k1 = Some s1 → systems st !! k2 = Some s2 → k1 ≠ k2 →
     identity (system_dev s1) ≠ identity (system_dev s2))
  ∧ (∀ k1 k2 (z1 z2 : Zone),
       zones st !! k1 = Some z1 → zones st !! k2 = Some z2 → k1 ≠ k2 →
       identity (zone_dev z1) ≠ identity (zone_dev z2))
  ∧ (∀ st', rtc transition st st' →
       (∀ k s, systems st !! k = Some s →
               ∃ s', systems st' !! k = Some s'
                     ∧ identity (system_dev s') = identity (system_dev s))
       ∧ (∀ k (z : Zone), zones st !! k = Some z →
               ∃ z' : Zone, zones st' !! k = Some z'
                     ∧ identity (zone_dev z') = identity (zone_dev z))).
Proof.
  intros [config Hreach].
  assert (keyed st) as [Hs Hz].
  { by apply (keyed_kept (Airzone_init config)), keyed_init. }
  repeat split.
  - intros k1 k2 s1 s2 H1 H2 Hne Hid. apply Hne.
    rewrite <- (Hs k1 s1 H1), <- (Hs k2 s2 H2). by apply get_id_identity.
  - intros k1 k2 z1 z2 H1 H2 Hne Hid. apply Hne.
    rewrite <- (Hz k1 z1 H1), <- (Hz k2 z2 H2). by apply get_id_identity.
  - intros k s Hk. apply (system_identity_kept st); eauto.
  - intros k z Hk. apply (zone_identity_kept st); eauto.
Qed.
End Store.

(** ** The properties on the sample instance *)

Section Samples.
#[local] Existing Instances sample_float sample_repr sample_datetime sample_const.

(** A response with somebody else's id, while a request is pending, is
    applied to the store all the same: C1 as it is stated does not hold. *)
Lemma response_mismatch_changes_store :
  let msg := sample_response 5000000 "request-of-another-client"
               [sample_zone_entry] in
  answers "request-of-another-client" sample_pending msg = true
  ∧ answers (api_req_id sample_pending) sample_pending msg = false
  ∧ api_resp (mqtt_task_msg msg sample_pending).1 = false
  ∧ zones sample_pending !! "1:1" = None
  ∧ zones (mqtt_task_msg msg sample_pending).1 !! "1:1" = Some sample_zone.
Proof.
  intros msg. subst msg.
  split; [reflexivity|]. split; [reflexivity|]. split; [reflexivity|]. split; reflexivity.
Qed.

Lemma response_mismatch_witness :
  let data := sample_snapshot "request-of-another-client" [sample_zone_entry] in
  let topic := ["response"; "az_get_status"] in
  api_resp (msg_response topic (Some data) 5000000 sample_pending).1 = false
  ∧ api_req_id (msg_response topic (Some data) 5000000 sample_pending).1
    = api_req_id sample_pending.
Proof.
  intros data topic.
  destruct (response_mismatch sample_pending "az_get_status" [] data
              (JStr "request-of-another-client") 5000000)
    as (Hresp & Hid & _); [reflexivity|reflexivity|].
  split; [exact Hresp|exact Hid].
Defined.

(** No response arrives before the deadline: the caller of the cycle sees
    [RuntimeError], and the loop of [Interface.airzone_task] does not
    catch it. *)
Lemma update_polling_timeout_witness :
  online sample_online = true
  ∧ api_lock sample_online = false
  ∧ (_update_polling 3000000 [] sample_online).2 = Raise RuntimeError
  ∧ api_req_id (_update_polling 3000000 [] sample_online).1
    = cmd_req_id "az.get_status" 3000000.
Proof.
  split; [reflexivity|]. split; [reflexivity|].
  destruct (update_polling_timeout sample_online 3000000 [])
    as (Hr & _ & _ & Hid); [reflexivity|reflexivity| |].
  - intros msg Hin. by apply elem_of_nil in Hin.
  - split; [exact Hr|exact Hid].
Defined.

Lemma airzone_task_turn_sample :
  (airzone_task_turn 3000000 [] sample_online).2 = Raise RuntimeError.
Proof. reflexivity. Qed.

(** Offline, though initialised and with recent data: the data is not
    fresh, and yet the cycle does not poll. C3 as it is stated does not
    hold. *)
Lemma update_offline_does_not_poll :
  api_init sample_offline = true
  ∧ update_dt sample_offline = Some 2000000
  ∧ ¬ fresh 3000000 sample_offline
  ∧ ¬ polls sample_offline (update 3000000 [] sample_offline).1.
Proof.
  split; [reflexivity|]. split; [reflexivity|]. split.
  - intros (_ & Hon & _). discriminate Hon.
  - intros (p & rest & _ & Hpub).
    rewrite update_offline_raises in Hpub by reflexivity.
    cbn [fst] in Hpub.
    apply (f_equal length) in Hpub. rewrite length_app in Hpub.
    change (length (p :: rest)) with (S (length rest)) in Hpub. lia.
Qed.

Lemma update_freshness_witness :
  ¬ fresh 3000000 sample_offline
  ∧ update 3000000 [] sample_offline = (sample_offline, Raise AirzoneOffline).
Proof.
  assert (¬ fresh 3000000 sample_offline) as Hnot
    by (intros (_ & Hon & _); discriminate Hon).
  split; [exact Hnot|].
  destruct (update_freshness sample_offline 3000000 [])
    as (_ & _ & Hoff & _).
  apply Hoff; [exact Hnot|reflexivity].
Defined.

(** The zone 1:1 is in the store with its power unknown. A second
    snapshot reports it switched on: the stored zone stays as it was,
    whereas the entry applied as an update would have set its power. C5 as
    it is stated does not hold. *)
Lemma snapshot_does_not_update_stored :
  let st' := (api_az_get_status (sample_snapshot "r1" [sample_zone_entry_on])
                4000000 sample_with_zone).1 in
  zones sample_with_zone !! "1:1" = Some sample_zone
  ∧ zones st' !! "1:1" = Some sample_zone
  ∧ power sample_zone = None
  ∧ power (Zone_update sample_zone_entry_on FULL sample_zone).1 = Some true.
Proof.
  intros st'. subst st'.
  split; [reflexivity|]. split; [reflexivity|]. split; reflexivity.
Qed.

Lemma sample_with_zone_stored :
  zones sample_with_zone !! "1:1" = Some sample_zone.
Proof. reflexivity. Qed.

Lemma update_offline_witness :
  online sample_offline = false
  ∧ update 3000000 [sample_response 3500000 "r2" [sample_zone_entry_on]]
      sample_offline
    = (sample_offline, Raise AirzoneOffline).
Proof.
  split; [reflexivity|].
  eapply proj1, update_offline. reflexivity.
Defined.

(** A poll that succeeds: the response carries the timestamp 1000 s, it is
    handled at the second 5, and the second 5 is what the freshness
    timestamp becomes. C7 as it is stated does not hold. *)
Lemma response_ignores_header_timestamp :
  let msg := sample_response 5000000 (cmd_req_id "az.get_status" 3000000)
               [sample_zone_entry] in
  (update 3000000 [msg] sample_online).2 = Ok tt
  ∧ update_dt (update 3000000 [msg] sample_online).1 = Some 5000000
  ∧ match float_of_int 1000 with
    | Ok x => datetime_fromtimestamp x
    | Raise e => Raise e
    end = Ok 1000000000.
Proof.
  intros msg. subst msg.
  split; [reflexivity|]. split; reflexivity.
Qed.

Lemma response_timestamp_witness :
  (msg_response ["response"; "az_get_status"]
     (Some (sample_snapshot "r0" [sample_zone_entry])) 5000000
     sample_online).2 = Ok tt
  ∧ update_dt
      (msg_response ["response"; "az_get_status"]
         (Some (sample_snapshot "r0" [sample_zone_entry])) 5000000
         sample_online).1
    = Some 5000000.
Proof.
  assert ((msg_response ["response"; "az_get_status"]
             (Some (sample_snapshot "r0" [sample_zone_entry])) 5000000
             sample_online).2 = Ok tt) as Hok by reflexivity.
  split; [exact Hok|].
  apply (response_timestamp sample_online _ []
           (Some (sample_snapshot "r0" [sample_zone_entry])) 5000000).
  destruct (msg_response _ _ _ _) as [st' r]. simpl in Hok. by subst r.
Defined.

(** A snapshot with a system and a zone of the same identity pair stores
    both: two devices of the store share a key. C8 as it is stated does
    not hold. *)
Lemma system_and_zone_share_key :
  systems sample_shared !! "1:1" = Some sample_system
  ∧ zones sample_shared !! "1:1" = Some sample_zone
  ∧ identity (system_dev sample_system) = identity (zone_dev sample_zone)
  ∧ get_id (system_dev sample_system) = get_id (zone_dev sample_zone).
Proof.
  split; [reflexivity|]. split; [reflexivity|]. split; reflexivity.
Qed.

Lemma sample_with_zone_reachable : reachable sample_with_zone.
Proof.
  exists Config.init.
  unfold sample_with_zone, sample_online, sample_airzone.
  apply (rtc_l _ _ (set_update_callback airzone_callback
                      (Airzone_init Config.init)));
    [apply on_set_update_callback|].
  eapply rtc_l; [apply on_message|].
  apply rtc_once, on_snapshot.
Qed.

Lemma store_identity_witness :
  reachable sample_with_zone
  ∧ ∃ z' : Zone, zones sample_powered !! "1:1" = Some z'
                 ∧ identity (zone_dev z') = ("1", "1").
Proof.
  split; [exact sample_with_zone_reachable|].
  destruct (store_identity sample_with_zone sample_with_zone_reachable)
    as (_ & _ & Hkept).
  destruct (Hkept sample_powered) as [_ Hzones].
  - apply rtc_once, on_message.
  - exact (Hzones "1:1" sample_zone sample_with_zone_stored).
Defined.

Lemma zone_data_active_witness :
  NoDup zone_data_keys
  ∧ Zone_data sample_zone !! AZD_ACTIVE
    = Some (JBool (bool_decide (air_active sample_zone = Some true
                                ∨ rad_active sample_zone = Some true)))
  ∧ Zone_data sample_zone !! AZD_AIR_ACTIVE = None.
Proof.
  assert (NoDup zone_data_keys) as Hkeys
    by (apply (bool_decide_unpack _); vm_compute; exact I).
  split; [exact Hkeys|].
  destruct (zone_data_active sample_zone Hkeys) as (Hactive & Hair & _).
  split; [exact Hactive|]. apply Hair. reflexivity.
Defined.
End Samples.

(** ** Strings *)

Section StringFacts.

Lemma append_cons c (a b : string) : String c a +:+ b = String c (a +:+ b).
Proof. reflexivity. Qed.

Lemma append_nil (b : string) : "" +:+ b = b.
Proof. reflexivity. Qed.

Lemma append_assoc (a b c : string) : (a +:+ b) +:+ c = a +:+ (b +:+ c).
Proof.
  induction a as [|x a IH]; [done|]. rewrite !append_cons. by f_equal.
Qed.

Lemma strip_prefix_app p s : strip_prefix p (p +:+ s) = Some s.
Proof.
  induction p as [|c p IH]; [done|]. rewrite append_cons. simpl.
  by rewrite Ascii.eqb_refl.
Qed.

Lemma removeprefix_app p s : removeprefix p (p +:+ s) = s.
Proof. unfold removeprefix. by rewrite strip_prefix_app. Qed.

Lemma startswith_app p s : startswith (p +:+ s) p = true.
Proof. unfold startswith. by rewrite strip_prefix_app. Qed.

Lemma split_slash_cons s : ∃ w ws, split_slash s = w :: ws.
Proof.
  induction s as [|c s (w & ws & IH)]; simpl; [by eauto|].
  destruct (Ascii.eqb c _); [by eauto|]. rewrite IH. by eauto.
Qed.

Lemma split_slash_word s :
  has_char slash s = false → split_slash s = [s].
Proof.
  induction s as [|c s IH]; simpl; [done|].
  intros [Hc Hs]%orb_false_elim. fold slash.
  by rewrite Hc, (IH Hs).
Qed.

Lemma split_slash_app a b :
  has_char slash a = false →
  split_slash (a +:+ "/" +:+ b) = a :: split_slash b.
Proof.
  induction a as [|c a IH]; [done|]. rewrite append_cons. simpl.
  intros [Hc Ha]%orb_false_elim. fold slash.
  by rewrite Hc, (IH Ha).
Qed.

Lemma has_char_replace_dot c s :
  c ≠ underscore → has_char c s = false → has_char c (replace_dot s) = false.
Proof.
  intros Hc. induction s as [|x s IH]; simpl; [done|].
  intros [Hx Hs]%orb_false_elim. rewrite (IH Hs), orb_false_r.
  destruct (Ascii.eqb x (Ascii.ascii_of_nat 46)); [|done].
  apply Ascii.eqb_neq. intros E. apply Hc. by rewrite <- E.
Qed.
End StringFacts.

(** ** Identifiers and topics made safe *)

Section SafeStrings.
Context `{PF : PyFloat} `{PR : !PyRepr} `{PD : !PyDatetime} `{AC : ApiConst}.

Lemma replace_dot_length s : String.length (replace_dot s) = String.length s.
Proof. induction s as [|c s IH]; simpl; [done|by rewrite IH]. Qed.

Lemma replace_dot_no_dot s : has_char dot (replace_dot s) = false.
Proof.
  induction s as [|c s IH]; simpl; [done|]. rewrite IH, orb_false_r.
  fold dot. destruct (Ascii.eqb c dot) eqn:E; [done|exact E].
Qed.

Lemma replace_dot_fixed s : has_char dot s = false → replace_dot s = s.
Proof.
  induction s as [|c s IH]; simpl; [done|].
  intros [Hc Hs]%orb_false_elim. fold dot. by rewrite Hc, (IH Hs).
Qed.

(** X1. The safe form of a command name has no dot left, is as long as
    the name, and is its own safe form; it has a slash only where the
    name has one, so that it is one segment of a topic when the name is. *)
Theorem api_safe_str_safe (topic : string) :
  has_char dot (api_safe_str topic) = false
  ∧ String.length (api_safe_str topic) = String.length topic
  ∧ api_safe_str (api_safe_str topic) = api_safe_str topic
  ∧ has_char slash (api_safe_str topic) = has_char slash topic.
Proof.
  unfold api_safe_str. split; [apply replace_dot_no_dot|].
  split; [apply replace_dot_length|].
  split; [apply replace_dot_fixed, replace_dot_no_dot|].
  induction topic as [|c s IH]; simpl; [done|]. rewrite IH. f_equal.
  destruct (Ascii.eqb c (Ascii.ascii_of_nat 46)) eqn:E; [|done].
  apply Ascii.eqb_eq in E. by subst c.
Qed.

Lemma sub_non_id_chars in_run s :
  string_forall is_id_char (sub_non_id in_run s) = true.
Proof.
  revert in_run. induction s as [|c s IH]; intros in_run; simpl; [done|].
  destruct (is_id_char c) eqn:E; simpl; [by rewrite E, IH|].
  destruct in_run; simpl; by rewrite IH.
Qed.

Lemma sub_non_id_fixed in_run s :
  string_forall is_id_char s = true → sub_non_id in_run s = s.
Proof.
  revert in_run. induction s as [|c s IH]; intros in_run; simpl; [done|].
  intros [Hc Hs]%andb_prop. by rewrite Hc, (IH false Hs).
Qed.

Lemma sub_non_id_app a s :
  string_forall is_id_char a = true →
  sub_non_id false (a +:+ s) = a +:+ sub_non_id false s.
Proof.
  induction a as [|c a IH]; [done|]. rewrite !append_cons. simpl.
  intros [Hc Ha]%andb_prop. by rewrite Hc, (IH Ha).
Qed.

(** X2. The identifier of a device for Home Assistant is made of
    letters, digits, underscores and hyphens only, whatever the gateway
    sent as ids; when both ids are made of such characters already, it is
    the two ids joined by an underscore. *)
Theorem get_id_ha_safe (d : Device) :
  string_forall is_id_char (get_id_ha d) = true
  ∧ (string_forall is_id_char (system_id d)
     && string_forall is_id_char (device_id d) = true →
     get_id_ha d = system_id d +:+ "_" +:+ device_id d).
Proof.
  unfold get_id_ha, get_id. split; [apply sub_non_id_chars|].
  intros [Hs Hd]%andb_prop. rewrite sub_non_id_app by done.
  f_equal. simpl. by rewrite sub_non_id_fixed.
Qed.
End SafeStrings.

(** ** The enumerations of [common.py] *)

Section EnumFacts.
Context `{PF : PyFloat}.

Lemma AZ_Mode_of_int_value m : AZ_Mode_of_int (AZ_Mode_value m) = m.
Proof. by destruct m. Qed.

Lemma AZ_Mode_value_of_int n :
  AZ_Mode_value (AZ_Mode_of_int n)
  = if (0 <=? n) && (n <=? 18) then n else -1.
Proof.
  destruct n as [|p|p]; [done| |done].
  do 5 (destruct p as [p|p|]; try done).
Qed.

(** X3. The mode of a zone goes through its number and back: the member
    found for the value of a mode is that mode, and the member found for
    a number is the one of that value when the number is between 0 and
    18, and [UNKNOWN], of value -1, for every other number. The unit of
    temperature goes through its number and back as well. *)
Theorem AZ_Mode_round_trip :
  (∀ m, AZ_Mode_of (JInt (AZ_Mode_value m)) = m)
  ∧ (∀ n, AZ_Mode_value (AZ_Mode_of (JInt n))
          = if (0 <=? n) && (n <=? 18) then n else -1)
  ∧ (∀ u, AZ_TemperatureUnit_of (JInt (AZ_TemperatureUnit_value u)) = Ok u).
Proof.
  split; [apply AZ_Mode_of_int_value|].
  split; [apply AZ_Mode_value_of_int|]. by intros [].
Qed.
End EnumFacts.

(** ** The queue of received messages *)

Section MqttFacts.
Context {A : Type}.

Lemma rx_consistent_init : rx_consistent (Mqtt_init (A:=A)).
Proof. by split. Qed.

Lemma rx_msg_push_consistent (message : A) q :
  rx_consistent (rx_msg_push message q).
Proof.
  split; [|done]. simpl. intros _ E. by apply app_eq_nil in E as [_ ?].
Qed.

(** A pop in a consistent queue: it waits when the list is empty, and
    takes the oldest message otherwise. *)
Lemma rx_msg_pop_consistent (q : Mqtt A) :
  rx_consistent q →
  match rx_list q with
  | [] => rx_msg_pop q = None
  | m :: rest =>
      ∃ q', rx_msg_pop q = Some (q', Some m)
            ∧ rx_list q' = rest ∧ rx_consistent q'
  end.
Proof.
  intros [H1 H2]. unfold rx_msg_pop.
  destruct (rx_list q) as [|m rest] eqn:E.
  - destruct (rx_event q); [by destruct H1|done].
  - rewrite H2 by done. eexists. split; [done|]. split; [done|].
    split; simpl; by destruct rest.
Qed.

Lemma rx_run_fifo (calls : list (rx_call A)) (q : Mqtt A) :
  rx_consistent q →
  rx_consistent (rx_run calls q).1
  ∧ (rx_list q ++ pushed calls
     = omap id (rx_run calls q).2 ++ rx_list (rx_run calls q).1)%list
  ∧ Forall is_Some (rx_run calls q).2.
Proof.
  revert q. induction calls as [|[message|] calls IH]; intros q Hq; simpl.
  - by rewrite app_nil_r.
  - destruct (IH (rx_msg_push message q)) as (Hc & Hl & Hs);
      [apply rx_msg_push_consistent|].
    split; [done|]. split; [|done].
    rewrite <- Hl. simpl. by rewrite <- app_assoc.
  - pose proof (rx_msg_pop_consistent q Hq) as Hpop.
    destruct (rx_list q) as [|m rest] eqn:E.
    + rewrite Hpop. destruct (IH q Hq) as (Hc & Hl & Hs).
      by rewrite E in Hl.
    + destruct Hpop as (q' & -> & Hrest & Hq').
      destruct (IH q' Hq') as (Hc & Hl & Hs).
      destruct (rx_run calls q') as [q'' out]. simpl in *.
      split; [done|]. split; [|by constructor].
      f_equal. rewrite <- Hrest. exact Hl.
Qed.

(** X4. The queue of received messages is first in, first out: after any
    sequence of pushes and pops on a new queue, the messages the pops
    returned, followed by those still queued, are the messages pushed, in
    the order of the pushes. No pop returned [None], and the event is set
    exactly when a message is queued. *)
Theorem rx_queue_fifo (calls : list (rx_call A)) :
  let q := (rx_run calls Mqtt_init).1 in
  let out := (rx_run calls Mqtt_init).2 in
  pushed calls = (omap id out ++ rx_list q)%list
  ∧ Forall is_Some out
  ∧ (rx_event q = true ↔ rx_list q ≠ []).
Proof.
  intros q out.
  destruct (rx_run_fifo calls Mqtt_init rx_consistent_init) as (Hc & Hl & Hs).
  by repeat split; try apply Hc.
Qed.
End MqttFacts.

(** ** The whole data of a zone *)

Section ZoneDataFields.
Context `{PF : PyFloat} `{PR : !PyRepr} `{AC : ApiConst}.

Lemma lookup_put_if_set_eq {A} k (v : option A) to_json
    (data : gmap string json) :
  data !! k = None → put_if_set k v to_json data !! k = to_json <$> v.
Proof.
  intros Hk. unfold put_if_set. destruct v; [|done].
  by rewrite lookup_insert_eq.
Qed.

(** X5. The data of a zone, key by key: the five entries of every
    device, the name, and each optional field under its key when it is
    known, the temperatures rounded to one decimal, the modes as their
    numbers, the list of available modes left out when it is empty; and
    no other key. The keys of the data are taken to be distinct. *)
Theorem zone_data_fields (z : Zone) :
  NoDup zone_data_keys →
  Zone_data z !! AZD_DEVICE_ID = Some (JStr (device_id (zone_dev z)))
  ∧ Zone_data z !! AZD_ID = Some (JStr (get_id (zone_dev z)))
  ∧ Zone_data z !! AZD_IS_CONNECTED
    = Some (JBool (is_connected (zone_dev z)))
  ∧ Zone_data z !! AZD_SYSTEM_ID = Some (JStr (system_id (zone_dev z)))
  ∧ Zone_data z !! AZD_UNITS
    = Some (JInt (AZ_TemperatureUnit_value (units (zone_dev z))))
  ∧ Zone_data z !! AZD_NAME = Some (JStr (name (zone_dev z)))
  ∧ Zone_data z !! AZD_AIR_ACTIVE = JBool <$> air_active z
  ∧ Zone_data z !! AZD_HUMIDITY = JInt <$> humidity z
  ∧ Zone_data z !! AZD_MODE = (λ m, JInt (AZ_Mode_value m)) <$> mode z
  ∧ Zone_data z !! AZD_MODE_AVAILABLE
    = match mode_available z with
      | [] => None
      | modes => Some (JList (map (λ m, JInt (AZ_Mode_value m)) modes))
      end
  ∧ Zone_data z !! AZD_POWER = JBool <$> power z
  ∧ Zone_data z !! AZD_RAD_ACTIVE = JBool <$> rad_active z
  ∧ Zone_data z !! AZD_SETPOINT
    = (λ x, JFloat (float_round1 x)) <$> setpoint z
  ∧ Zone_data z !! AZD_SETPOINT_MAX
    = (λ x, JFloat (float_round1 x)) <$> setpoint_max z
  ∧ Zone_data z !! AZD_SETPOINT_MIN
    = (λ x, JFloat (float_round1 x)) <$> setpoint_min z
  ∧ Zone_data z !! AZD_STEP = (λ x, JFloat (float_round1 x)) <$> step z
  ∧ Zone_data z !! AZD_ZONE_WORK_TEMP
    = (λ x, JFloat (float_round1 x)) <$> zone_work_temp z
  ∧ (∀ k, k ∉ zone_data_keys → Zone_data z !! k = None).
Proof.
  intros Hnd. unfold zone_data_keys in Hnd. nodup_facts Hnd.
  unfold Zone_data, Device_data, get_air_active, get_rad_active,
    get_humidity, get_mode, get_mode_available, get_power, get_setpoint,
    get_setpoint_max, get_setpoint_min, get_step, get_zone_work_temp,
    get_name.
  repeat split;
    try (repeat first [ rewrite lookup_put_if_set_ne by key_neq
                      | rewrite lookup_insert_ne by key_neq ];
         first
           [ by rewrite lookup_insert_eq
           | rewrite lookup_put_if_set_eq;
             [ first [ by destruct (air_active z)
                     | by destruct (humidity z)
                     | by destruct (mode z)
                     | by destruct (power z)
                     | by destruct (rad_active z)
                     | by destruct (setpoint z)
                     | by destruct (setpoint_max z)
                     | by destruct (setpoint_min z)
                     | by destruct (step z)
                     | by destruct (zone_work_temp z)
                     | done
                     | idtac ]
             | repeat first [ rewrite lookup_put_if_set_ne by key_neq
                            | rewrite lookup_insert_ne by key_neq ];
               by rewrite ?lookup_empty ] ]).
  - destruct (mode_available z) as [|m modes]; [done|]. simpl.
    by rewrite map_map.
  - intros k Hk. unfold zone_data_keys in Hk.
    repeat (apply not_elem_of_cons in Hk as [? Hk]).
    repeat first [ rewrite lookup_put_if_set_ne by done
                 | rewrite lookup_insert_ne by done ].
    apply lookup_empty.
Qed.
End ZoneDataFields.

(** ** What an update never writes *)

Section UpdateAnchor.
Context `{PF : PyFloat} `{PR : !PyRepr} `{PD : !PyDatetime} `{AC : ApiConst}.

Lemma Device_update_keeps_anchor data update_type a :
  keeps (λ d, anchor d = a) (Device_update data update_type).
Proof. unfold Device_update, if_not_None. keeps_struct; done. Qed.

Lemma on_zone_dev_keeps {A} (Q : Device → Prop) (m : M Device A) :
  keeps Q m → keeps (λ z : Zone, Q (zone_dev z)) (on_zone_dev m).
Proof.
  intros Hm z Hz. unfold on_zone_dev. specialize (Hm (zone_dev z) Hz).
  by destruct (m (zone_dev z)).
Qed.

Lemma System_update_anchor data update_type (s : System) :
  anchor (system_dev (System_update data update_type s).1)
  = anchor (system_dev s).
Proof.
  unfold System_update, bind, on_system_dev.
  pose proof (Device_update_keeps_anchor data update_type
                (anchor (system_dev s)) (system_dev s) eq_refl) as Hd.
  by destruct (Device_update _ _ _) as [d [[]|e]].
Qed.

Lemma Zone_update_anchor data update_type (z : Zone) :
  anchor (zone_dev (Zone_update data update_type z).1) = anchor (zone_dev z).
Proof.
  assert (keeps (λ z' : Zone, anchor (zone_dev z') = anchor (zone_dev z))
            (Zone_update data update_type)) as Hkeeps.
  { unfold Zone_update, if_not_None, extend_mode_available.
    keeps_struct;
      try (apply (on_zone_dev_keeps (λ d, anchor d = _)),
             Device_update_keeps_anchor);
      done. }
  by apply Hkeeps.
Qed.

Lemma anchor_get_id (d d' : Device) : anchor d = anchor d' → get_id d = get_id d'.
Proof. unfold anchor, get_id. by intros [= -> -> _ _ _]. Qed.

Lemma anchor_identity (d d' : Device) :
  anchor d = anchor d' → identity d = identity d'.
Proof. unfold anchor, identity. by intros [= -> -> _ _ _]. Qed.

Lemma anchor_mqtt_topic (d d' : Device) :
  anchor d = anchor d' → mqtt_topic d = mqtt_topic d'.
Proof. unfold anchor. by intros [= _ _ _ _ ->]. Qed.

(** X6. An update of a device, of either kind and whether it goes
    through or raises half way, leaves the device what it is and where it
    is: the identity pair, the manufacturer and the model stay, and so do
    the ids derived from them and the topic the device is published on. *)
Theorem device_update_anchor (delta : json) (update_type : UpdateType)
    (d : AnyDevice) :
  let d' := (device_update delta update_type d).1 in
  anchor (any_dev d') = anchor (any_dev d)
  ∧ get_id (any_dev d') = get_id (any_dev d)
  ∧ get_id_ha (any_dev d') = get_id_ha (any_dev d)
  ∧ (∀ sfx, get_mqtt_topic (any_dev d') sfx = get_mqtt_topic (any_dev d) sfx)
  ∧ match d, d' with
    | ASystem _, ASystem _ | AZone _, AZone _ => True
    | _, _ => False
    end.
Proof.
  intros d'.
  assert (anchor (any_dev d') = anchor (any_dev d)
          ∧ match d, d' with
            | ASystem _, ASystem _ | AZone _, AZone _ => True
            | _, _ => False
            end) as [Ha Hkind].
  { subst d'. destruct d as [s|z]; simpl.
    - pose proof (System_update_anchor delta update_type s) as Hs.
      by destruct (System_update _ _ s).
    - pose proof (Zone_update_anchor delta update_type z) as Hz.
      by destruct (Zone_update _ _ z). }
  split; [done|]. split; [by apply anchor_get_id|].
  split; [unfold get_id_ha; by rewrite (anchor_get_id _ _ Ha)|].
  split; [|done]. intros sfx. unfold get_mqtt_topic.
  by rewrite (anchor_mqtt_topic _ _ Ha).
Qed.
End UpdateAnchor.

(** ** Deltas without parameters, and the list of available modes *)

Section UpdateEdges.
Context `{PF : PyFloat} `{PR : !PyRepr} `{PD : !PyDatetime} `{AC : ApiConst}.

Lemma Device_update_no_parameters l update_type (d : Device) :
  dict_lookup API_META l = None →
  dict_lookup API_PARAMETERS l = None →
  Device_update (JObj l) update_type d = (d, Ok tt).
Proof.
  intros Hmeta Hparams.
  unfold Device_update, bind, lift_result, if_not_None, ret. simpl.
  by rewrite Hmeta, Hparams.
Qed.

(** X7. A delta that is a dict with neither parameters nor meta data
    changes nothing in a device of either kind and raises nothing: every
    field that is absent keeps its value. *)
Theorem update_no_parameters (l : list (string * json))
    (update_type : UpdateType) (d : AnyDevice) :
  dict_lookup API_META l = None →
  dict_lookup API_PARAMETERS l = None →
  device_update (JObj l) update_type d = (d, Ok tt).
Proof.
  intros Hmeta Hparams. destruct d as [s|z]; simpl.
  - unfold System_update, bind, on_system_dev, ret.
    rewrite Device_update_no_parameters by done. by destruct s.
  - unfold Zone_update, bind, on_zone_dev, lift_result, if_not_None, ret.
    rewrite Device_update_no_parameters by done. simpl.
    rewrite Hparams. simpl. by destruct z.
Qed.

(** X8. A delta whose only parameter is a list of available modes
    replaces the list of the zone by the modes of the items, a number
    that is no mode giving [UNKNOWN]; what the list held before is gone,
    and nothing else changes. The key of the parameter is taken to
    differ from the keys of the other parameters. *)
Theorem Zone_update_mode_available (body meta : json) (items : list json)
    (update_type : UpdateType) (z : Zone) :
  API_MODE_AVAILABLE ∉ parameter_keys_but_mode_available →
  py_get_or body API_META (JObj []) = Ok meta →
  py_get meta API_UNITS = Ok JNull →
  py_get_or body API_PARAMETERS (JObj [])
  = Ok (JObj [(API_MODE_AVAILABLE, JList items)]) →
  Zone_update body update_type z
  = (set_mode_available (map AZ_Mode_of items) z, Ok tt).
Proof.
  intros Hkeys Hmeta Hunits Hparams.
  unfold parameter_keys_but_mode_available in Hkeys.
  repeat (apply not_elem_of_cons in Hkeys as [? Hkeys]).
  repeat match goal with
         | H : API_MODE_AVAILABLE ≠ _ |- _ =>
             apply not_eq_sym, String.eqb_neq in H
         end.
  unfold Zone_update, on_zone_dev, Device_update, bind, lift_result,
    if_not_None, modify, ret.
  rewrite Hmeta, Hparams. simpl. rewrite Hunits. simpl.
  repeat match goal with
         | H : (?a =? ?b)%string = false |- context [(?a =? ?b)%string] =>
             rewrite H; simpl
         end.
  rewrite String.eqb_refl. simpl.
  rewrite for_each_extend_mode_available. simpl.
  repeat match goal with
         | H : (?a =? ?b)%string = false |- context [(?a =? ?b)%string] =>
             rewrite H; simpl
         end.
  by destruct z as [[]].
Qed.
End UpdateEdges.

(** ** Properties of the state that the methods keep, taken together

    Some properties relate two fields that a method assigns one after the
    other, and hold again once it has assigned both: the two online
    attributes in [msg_online], the flags of the first snapshot and the
    timestamp in [api_az_get_status]. The assumptions below are about
    those assignments taken together, and about a device stored with the
    topic of the object. *)

Lemma Forall_flat_map {A B} (Q : B → Prop) (f : A → list B) (l : list A) :
  (∀ x, x ∈ l → Forall Q (f x)) → Forall Q (flat_map f l).
Proof.
  induction l as [|x l IH]; intros Hf; simpl; [done|].
  apply Forall_app. split; [apply Hf, list_elem_of_here|].
  apply IH. intros y Hy. apply Hf. by apply list_elem_of_further.
Qed.

Section Invariants.
Context `{PF : PyFloat} `{PR : !PyRepr} `{PD : !PyDatetime} `{AC : ApiConst}.
Variable P : Airzone → Prop.

Hypothesis I_api_raw_data : ∀ v st, P st → P (set_api_raw_data v st).
Hypothesis I_update_dt : ∀ t st, P st → P (set_update_dt (Some t) st).
Hypothesis I_init :
  ∀ t st, P st → api_init st = false →
          P (set_update_dt (Some t)
               (set_api_init_event true (set_api_init true st))).
Hypothesis I_online :
  ∀ b st, P st → P (set_online_event b (set_online b st)).
Hypothesis I_api_resp : ∀ v st, P st → P (set_api_resp v st).
Hypothesis I_api_lock : ∀ v st, P st → P (set_api_lock v st).
Hypothesis I_api_req_id : ∀ v st, P st → P (set_api_req_id v st).
Hypothesis I_callback_function :
  ∀ v st, P st → P (set_callback_function v st).
Hypothesis I_published :
  ∀ l st, P st → Forall (λ p, is_request p = false) l →
          P (set_published (published st ++ l) st).
Hypothesis I_request :
  ∀ topic r st, P st →
                P (set_published
                     (published st ++ [mkPublication topic (PayloadRequest r)])
                     st).
Hypothesis I_store_system :
  ∀ s st, P st → systems st !! get_id (system_dev s) = None →
          P (set_systems
               (<[get_id (system_dev s)
                  := System_set_mqtt_topic (topic_pfx st) s]> (systems st))
               st).
Hypothesis I_store_zone :
  ∀ z st, P st → zones st !! get_id (zone_dev z) = None →
          P (set_zones
               (<[get_id (zone_dev z)
                  := Zone_set_mqtt_topic (topic_pfx st) z]> (zones st))
               st).
Hypothesis I_on_system :
  ∀ k s s' st, P st → systems st !! k = Some s →
               anchor (system_dev s') = anchor (system_dev s) →
               P (set_systems (<[k := s']> (systems st)) st).
Hypothesis I_on_zone :
  ∀ k z z' st, P st → zones st !! k = Some z →
               anchor (zone_dev z') = anchor (zone_dev z) →
               P (set_zones (<[k := z']> (zones st)) st).

Lemma mqtt_update_device_no_request (d : Device) :
  Forall (λ p, is_request p = false) (mqtt_update_device d).
Proof.
  unfold mqtt_update_device. destruct (mqtt_topic d); by repeat constructor.
Qed.

Lemma mqtt_update_inv : keeps P mqtt_update.
Proof using I_published.
  unfold mqtt_update. keeps_struct. apply I_published; [done|].
  apply Forall_app. split; apply Forall_flat_map; intros [k d] _;
    apply mqtt_update_device_no_request.
Qed.

Lemma update_callback_inv data now : keeps P (update_callback data now).
Proof using I_published I_update_dt.
  unfold update_callback, run_callback. keeps_struct; auto using mqtt_update_inv.
Qed.

Lemma store_system_inv c s :
  keeps (λ st, P st ∧ topic_pfx st = c)
    (store_system (System_set_mqtt_topic c s)).
Proof using I_store_system.
  intros st [HP Hc]. unfold store_system, modify. simpl.
  destruct (systems st !! _) eqn:E; [done|]. split; [|done].
  subst c. by apply I_store_system.
Qed.

Lemma store_zone_inv c z :
  keeps (λ st, P st ∧ topic_pfx st = c)
    (store_zone (Zone_set_mqtt_topic c z)).
Proof using I_store_zone.
  intros st [HP Hc]. unfold store_zone, modify. simpl.
  destruct (zones st !! _) eqn:E; [done|]. split; [|done].
  subst c. by apply I_store_zone.
Qed.

Lemma api_az_get_status_device_inv c device :
  keeps (λ st, P st ∧ topic_pfx st = c) (api_az_get_status_device c device).
Proof using I_store_system I_store_zone.
  unfold api_az_get_status_device.
  keeps_struct; auto using store_system_inv, store_zone_inv.
Qed.

Lemma api_az_get_status_inv data now : keeps P (api_az_get_status data now).
Proof using I_store_system I_store_zone I_api_raw_data I_init I_update_dt.
  unfold api_az_get_status.
  apply keeps_bind; [by apply keeps_modify; intros; apply I_api_raw_data|].
  intros _. apply keeps_bind; [apply keeps_lift_result|]. intros body.
  apply keeps_bind; [apply keeps_lift_result|]. intros devices.
  apply keeps_get_bind. intros st Hst. fold (topic_pfx st).
  unfold bind at 1, lift_result at 1.
  destruct (py_iter devices) as [items|e]; [|done].
  pose proof (keeps_for_each (λ st', P st' ∧ topic_pfx st' = topic_pfx st)
                items (api_az_get_status_device (topic_pfx st))
                (api_az_get_status_device_inv (topic_pfx st))
                st (conj Hst eq_refl)) as [Hloop _].
  unfold bind at 1.
  destruct (for_each items _ st) as [st1 [[]|e]]; [|done]. simpl in Hloop.
  unfold bind, get, modify, ret.
  destruct (api_init st1) eqn:Hinit; simpl.
  - by apply I_update_dt.
  - by apply I_init.
Qed.

Lemma msg_events_status_inv topic payload now :
  keeps P (msg_events_status topic payload now).
Proof using I_on_system I_on_zone I_published I_update_dt.
  unfold msg_events_status.
  repeat (apply keeps_bind; [apply keeps_lift_result|intros ?]).
  apply keeps_get_bind. intros st Hst.
  destruct (py_eq_str _ API_AZ_SYSTEM); [|destruct (py_eq_str _ API_AZ_ZONE)].
  - unfold get_system. destruct (systems st !! _) as [system|] eqn:E; [|done].
    unfold bind at 1, on_system.
    pose proof (System_update_anchor a1 PARTIAL system) as Hid.
    destruct (System_update a1 PARTIAL system) as [system' r]; simpl in Hid.
    assert (P (set_systems (<[_ := system']> (systems st)) st)) as HP
      by eauto.
    destruct r as [[]|e]; [by apply update_callback_inv|done].
  - unfold get_zone. destruct (zones st !! _) as [zone|] eqn:E; [|done].
    unfold bind at 1, on_zone.
    pose proof (Zone_update_anchor a1 PARTIAL zone) as Hid.
    destruct (Zone_update a1 PARTIAL zone) as [zone' r]; simpl in Hid.
    assert (P (set_zones (<[_ := zone']> (zones st)) st)) as HP
      by eauto.
    destruct r as [[]|e]; [by apply update_callback_inv|done].
  - done.
Qed.

Lemma msg_events_inv topic payload now :
  keeps P (msg_events topic payload now).
Proof using I_on_system I_on_zone I_published I_update_dt.
  unfold msg_events. keeps_struct. apply msg_events_status_inv.
Qed.

Lemma msg_online_inv payload : keeps P (msg_online payload).
Proof using I_online.
  unfold msg_online.
  apply keeps_bind; [apply keeps_lift_result|]. intros data.
  apply keeps_bind; [apply keeps_lift_result|]. intros v.
  intros st Hst. unfold bind, modify. destruct (py_bool v); by apply I_online.
Qed.

Lemma msg_response_inv topic payload now :
  keeps P (msg_response topic payload now).
Proof using I_store_system I_store_zone I_api_raw_data I_init I_update_dt
            I_published I_api_resp.
  unfold msg_response.
  keeps_struct;
    auto using api_az_get_status_inv, update_callback_inv.
Qed.

Lemma msg_process_inv topic_str payload now :
  keeps P (msg_process topic_str payload now).
Proof using I_store_system I_store_zone I_api_raw_data I_init I_update_dt
            I_published I_api_resp I_on_system I_on_zone I_online.
  unfold msg_process.
  keeps_struct;
    auto using msg_events_inv, msg_online_inv, msg_response_inv.
Qed.

Lemma mqtt_task_msg_inv msg : keeps P (mqtt_task_msg msg).
Proof using I_store_system I_store_zone I_api_raw_data I_init I_update_dt
            I_published I_api_resp I_on_system I_on_zone I_online.
  unfold mqtt_task_msg. keeps_struct; auto using msg_process_inv.
Qed.

Lemma mqtt_task_inv msgs st : P st → P (mqtt_task msgs st).
Proof using I_store_system I_store_zone I_api_raw_data I_init I_update_dt
            I_published I_api_resp I_on_system I_on_zone I_online.
  revert st. induction msgs as [|msg msgs IH]; intros st Hst; simpl; [done|].
  pose proof (mqtt_task_msg_inv msg st Hst) as Hmsg.
  destruct (mqtt_task_msg msg st) as [st' [[]|e]]; simpl in *; auto.
Qed.

Lemma Lock_release_inv : keeps P Lock_release.
Proof using I_api_lock. unfold Lock_release. keeps_struct; auto. Qed.

Lemma cmd_invoke_inv data waiting : keeps P (cmd_invoke data waiting).
Proof using All.
  unfold cmd_invoke, Lock_acquire, mqtt_publish.
  keeps_struct; auto using mqtt_task_inv, Lock_release_inv.
Qed.

Lemma update_polling_inv now waiting :
  keeps P (_update_polling now waiting).
Proof using All.
  unfold _update_polling, asyncio_timeout, cmd_az_get_status.
  keeps_struct; auto using cmd_invoke_inv, Lock_release_inv.
Qed.

Lemma update_inv now waiting : keeps P (update now waiting).
Proof using All.
  unfold update. keeps_struct. apply update_polling_inv.
Qed.

Lemma transition_inv st st' : transition st st' → P st → P st'.
Proof using All.
  intros [cb st0|msg st0|data now st0|now waiting st0] Hst.
  - by apply I_callback_function.
  - by apply mqtt_task_msg_inv.
  - by apply api_az_get_status_inv.
  - by apply update_inv.
Qed.

Lemma transitions_inv st st' : rtc transition st st' → P st → P st'.
Proof using All.
  induction 1 as [|st st1 st' Hstep _ IH]; [done|].
  intros Hst. apply IH. by apply (transition_inv st).
Qed.
End Invariants.

(** ** What holds in every state the program reaches *)

Section StateInvariants.
Context `{PF : PyFloat} `{PR : !PyRepr} `{PD : !PyDatetime} `{AC : ApiConst}.

(** X9. The event [online_event], on which the update task waits before
    its first cycle, is set exactly when the gateway is known to be
    online: [msg_online] is the only writer of either, and it writes
    both. *)
Theorem online_event_tracks_online (st : Airzone) :
  reachable st → online_event st = online st.
Proof.
  intros [config Hreach].
  cut (online_event (Airzone_init config) = online (Airzone_init config));
    [|done].
  revert Hreach.
  by apply (transitions_inv (λ st, online_event st = online st)).
Qed.

(** X10. The event [api_init_event], on which the task of the Home
    Assistant configuration waits, is set exactly when the store is
    initialised; and an initialised store has a time of last update, so
    that the freshness of its data is a matter of the clock alone. *)
Theorem init_event_tracks_init (st : Airzone) :
  reachable st →
  api_init_event st = api_init st
  ∧ (api_init st = true → is_Some (update_dt st)).
Proof.
  intros [config Hreach].
  cut (api_init_event (Airzone_init config) = api_init (Airzone_init config)
       ∧ (api_init (Airzone_init config) = true
          → is_Some (update_dt (Airzone_init config)))); [|done].
  revert Hreach.
  apply (transitions_inv
           (λ st, api_init_event st = api_init st
                  ∧ (api_init st = true → is_Some (update_dt st))));
    try done.
  intros t st0 [Hev Hdt]. split; [done|]. by eexists.
Qed.

(** X11. What the program never takes back: once the store is
    initialised it stays so, a time of last update stays set, what was
    published stays published, and the configuration, the topics and the
    timeouts are those of the start. *)
Theorem nothing_taken_back (st st' : Airzone) :
  rtc transition st st' →
  (api_init st = true → api_init st' = true)
  ∧ (is_Some (update_dt st) → is_Some (update_dt st'))
  ∧ published st `prefix_of` published st'
  ∧ config st' = config st
  ∧ mqtt_prefix st' = mqtt_prefix st
  ∧ airzone_mqtt_topic st' = airzone_mqtt_topic st
  ∧ poll_timeout st' = poll_timeout st
  ∧ scan_interval st' = scan_interval st.
Proof.
  intros Hrtc. split; [|split; [|split]].
  - revert Hrtc.
    by apply (transitions_inv (λ st, api_init st = true)).
  - revert Hrtc.
    by apply (transitions_inv (λ st, is_Some (update_dt st))).
  - cut (published st `prefix_of` published st); [|done].
    revert Hrtc.
    apply (transitions_inv (λ st', published st `prefix_of` published st'));
      try done.
    + intros l st0 Hpre _. simpl. by apply prefix_app_r.
    + intros topic r st0 Hpre. simpl. by apply prefix_app_r.
  - cut (config st = config st
         ∧ mqtt_prefix st = mqtt_prefix st
         ∧ airzone_mqtt_topic st = airzone_mqtt_topic st
         ∧ poll_timeout st = poll_timeout st
         ∧ scan_interval st = scan_interval st); [|done].
    revert Hrtc.
    by apply (transitions_inv
                (λ st', config st' = config st
                        ∧ mqtt_prefix st' = mqtt_prefix st
                        ∧ airzone_mqtt_topic st' = airzone_mqtt_topic st
                        ∧ poll_timeout st' = poll_timeout st
                        ∧ scan_interval st' = scan_interval st)).
Qed.

(** The topics of a fresh object, which nothing changes: the prefix of
    the gateway is its topic followed by the version. *)
Lemma reachable_wiring (st : Airzone) :
  reachable st →
  mqtt_prefix st = airzone_mqtt_topic st +:+ "/" +:+ AMT_V1.
Proof.
  intros [config Hreach].
  cut (mqtt_prefix (Airzone_init config)
       = airzone_mqtt_topic (Airzone_init config) +:+ "/" +:+ AMT_V1);
    [|done].
  revert Hreach.
  by apply (transitions_inv
              (λ st, mqtt_prefix st
                     = airzone_mqtt_topic st +:+ "/" +:+ AMT_V1)).
Qed.

(** Every device of the store was given its topic. *)
Lemma reachable_topics (st : Airzone) :
  reachable st →
  (∀ k s, systems st !! k = Some s →
          mqtt_topic (system_dev s)
          = Some (topic_pfx st +:+ "/system/" +:+ get_id_ha (system_dev s)))
  ∧ (∀ k (z : Zone), zones st !! k = Some z →
          mqtt_topic (zone_dev z)
          = Some (topic_pfx st +:+ "/zone/" +:+ get_id_ha (zone_dev z))).
Proof.
  intros [config Hreach].
  cut ((∀ k s, systems (Airzone_init config) !! k = Some s →
               mqtt_topic (system_dev s)
               = Some (topic_pfx (Airzone_init config) +:+ "/system/"
                       +:+ get_id_ha (system_dev s)))
       ∧ (∀ k (z : Zone), zones (Airzone_init config) !! k = Some z →
               mqtt_topic (zone_dev z)
               = Some (topic_pfx (Airzone_init config) +:+ "/zone/"
                       +:+ get_id_ha (zone_dev z))));
    [|split; intros k d; simpl; by rewrite lookup_empty].
  revert Hreach.
  apply (transitions_inv
           (λ st,
              (∀ k s, systems st !! k = Some s →
                      mqtt_topic (system_dev s)
                      = Some (topic_pfx st +:+ "/system/"
                              +:+ get_id_ha (system_dev s)))
              ∧ (∀ k (z : Zone), zones st !! k = Some z →
                      mqtt_topic (zone_dev z)
                      = Some (topic_pfx st +:+ "/zone/"
                              +:+ get_id_ha (zone_dev z)))));
    try done.
  - intros s st0 [Hs Hz] Hfree. split; [|done].
    intros k s'. simpl. rewrite lookup_insert.
    case_decide as Hk; [by intros [= <-]|by apply Hs].
  - intros z st0 [Hs Hz] Hfree. split; [done|].
    intros k z'. simpl. rewrite lookup_insert.
    case_decide as Hk; [by intros [= <-]|by apply Hz].
  - intros k s s' st0 [Hs Hz] Hk Ha. split; [|done].
    intros k' s''. simpl. rewrite lookup_insert.
    case_decide as Hk'; [|by apply Hs].
    intros [= <-]. unfold get_id_ha.
    rewrite (anchor_mqtt_topic _ _ Ha), (anchor_get_id _ _ Ha).
    by apply (Hs k).
  - intros k z z' st0 [Hs Hz] Hk Ha. split; [done|].
    intros k' z''. simpl. rewrite lookup_insert.
    case_decide as Hk'; [|by apply Hz].
    intros [= <-]. unfold get_id_ha.
    rewrite (anchor_mqtt_topic _ _ Ha), (anchor_get_id _ _ Ha).
    by apply (Hz k).
Qed.

(** X12. Every device of the store has its topic: asking a stored
    system or zone for it never fails on a missing attribute, and the
    topic is the topic of the interface, the topic of the gateway, the
    kind of the device and its identifier for Home Assistant, joined by
    slashes. *)
Theorem stored_device_topic (st : Airzone) :
  reachable st →
  (∀ k s, systems st !! k = Some s →
          get_mqtt_topic (system_dev s) None
          = Ok (Config.topic_interface (config st) +:+ "/"
                +:+ airzone_mqtt_topic st +:+ "/system/"
                +:+ get_id_ha (system_dev s)))
  ∧ (∀ k (z : Zone), zones st !! k = Some z →
          get_mqtt_topic (zone_dev z) None
          = Ok (Config.topic_interface (config st) +:+ "/"
                +:+ airzone_mqtt_topic st +:+ "/zone/"
                +:+ get_id_ha (zone_dev z))).
Proof.
  intros Hreach. destruct (reachable_topics st Hreach) as [Hs Hz].
  split; intros k d Hk; unfold get_mqtt_topic.
  - rewrite (Hs k d Hk). unfold topic_pfx. by rewrite !append_assoc.
  - rewrite (Hz k d Hk). unfold topic_pfx. by rewrite !append_assoc.
Qed.

Lemma length_flat_map_const {A B} (f : A → list B) (n : nat) (l : list A) :
  (∀ x, x ∈ l → length (f x) = n) →
  length (flat_map f l) = (n * length l)%nat.
Proof.
  induction l as [|x l IH]; intros Hf; simpl; [lia|].
  rewrite length_app, (Hf x), IH; [lia| |apply list_elem_of_here].
  intros y Hy. apply Hf. by apply list_elem_of_further.
Qed.

(** What [mqtt_update] publishes for a device that has the topic of the
    store *)
Lemma mqtt_update_device_stored (st : Airzone) (d : Device) kind :
  mqtt_topic d = Some (topic_pfx st +:+ kind +:+ get_id_ha d) →
  length (mqtt_update_device d) = 2%nat
  ∧ Forall (λ p, startswith (pub_topic p)
                   (Config.topic_interface (config st)) = true)
      (mqtt_update_device d).
Proof.
  intros Ht. unfold mqtt_update_device. rewrite Ht. split; [done|].
  unfold topic_pfx.
  repeat constructor; simpl; rewrite !append_assoc; apply startswith_app.
Qed.

(** X13. The callback of the interface publishes two messages for every
    device of the store, its state and its availability, after what was
    published before; each goes to a topic under the topic of the
    interface, and the router, handed such a message back by the broker,
    leaves the object as it is. *)
Theorem mqtt_update_publishes (st : Airzone) :
  reachable st →
  ∃ l, published (mqtt_update st).1 = (published st ++ l)%list
       ∧ length l = (2 * (size (systems st) + size (zones st)))%nat
       ∧ Forall (λ p, ∀ now payload,
                   mqtt_task_msg (mkInbound now (pub_topic p) payload) st
                   = (st, Ok tt)) l.
Proof.
  intros Hreach. destruct (reachable_topics st Hreach) as [Hs Hz].
  eexists. split; [done|]. split.
  - rewrite length_app.
    rewrite (length_flat_map_const _ 2), (length_flat_map_const _ 2).
    + rewrite !length_map_to_list. lia.
    + intros [k z] Hin%elem_of_map_to_list.
      by apply (mqtt_update_device_stored st _ "/zone/"), (Hz k).
    + intros [k s] Hin%elem_of_map_to_list.
      by apply (mqtt_update_device_stored st _ "/system/"), (Hs k).
  - assert (∀ p, startswith (pub_topic p)
                   (Config.topic_interface (config st)) = true →
                 ∀ now payload,
                   mqtt_task_msg (mkInbound now (pub_topic p) payload) st
                   = (st, Ok tt)) as Hback.
    { intros p Hp now payload. unfold mqtt_task_msg, bind, get. simpl.
      by rewrite Hp. }
    apply Forall_app. split; apply Forall_flat_map.
    + intros [k s] Hin%elem_of_map_to_list.
      eapply Forall_impl; [|exact Hback].
      by apply (mqtt_update_device_stored st _ "/system/"), (Hs k).
    + intros [k z] Hin%elem_of_map_to_list.
      eapply Forall_impl; [|exact Hback].
      by apply (mqtt_update_device_stored st _ "/zone/"), (Hz k).
Qed.

(** X14. An event never adds a device to the store nor takes one out of
    it, whatever its topic and payload and however it ends: it leaves
    the keys of both maps, the flags of the first snapshot, the online
    flag, and the lock, the id and the event of the pending request as
    they are. *)
Theorem events_create_nothing (topic : list string) (payload : option json)
    (now : Z) (st : Airzone) :
  let st' := (msg_events topic payload now st).1 in
  (∀ k, is_Some (systems st' !! k) ↔ is_Some (systems st !! k))
  ∧ (∀ k, is_Some (zones st' !! k) ↔ is_Some (zones st !! k))
  ∧ api_init st' = api_init st
  ∧ online st' = online st
  ∧ api_lock st' = api_lock st
  ∧ api_req_id st' = api_req_id st
  ∧ api_resp st' = api_resp st.
Proof.
  intros st'. subst st'.
  cut ((∀ k, is_Some (systems st !! k) ↔ is_Some (systems st !! k))
       ∧ (∀ k, is_Some (zones st !! k) ↔ is_Some (zones st !! k))
       ∧ api_init st = api_init st
       ∧ online st = online st
       ∧ api_lock st = api_lock st
       ∧ api_req_id st = api_req_id st
       ∧ api_resp st = api_resp st); [|done].
  apply (msg_events_inv
           (λ st',
              (∀ k, is_Some (systems st' !! k) ↔ is_Some (systems st !! k))
              ∧ (∀ k, is_Some (zones st' !! k) ↔ is_Some (zones st !! k))
              ∧ api_init st' = api_init st
              ∧ online st' = online st
              ∧ api_lock st' = api_lock st
              ∧ api_req_id st' = api_req_id st
              ∧ api_resp st' = api_resp st)); try done.
  - intros k s s' st0 (Hs & Hrest) Hk _. split; [|done].
    intros k'. simpl. rewrite lookup_insert_is_Some, <- (Hs k').
    split; [intros [<-|[_ ?]]; [by rewrite Hk|done]|].
    intros Hk'. destruct (decide (k = k')); [by left|by right].
  - intros k z z' st0 (Hs & Hz & Hrest) Hk _. split; [done|]. split; [|done].
    intros k'. simpl. rewrite lookup_insert_is_Some, <- (Hz k').
    split; [intros [<-|[_ ?]]; [by rewrite Hk|done]|].
    intros Hk'. destruct (decide (k = k')); [by left|by right].
Qed.
End StateInvariants.

(** ** The router: topics and payloads *)

Section RouterFacts.
Context `{PF : PyFloat} `{PR : !PyRepr} `{PD : !PyDatetime} `{AC : ApiConst}.

(** What [msg_process] does with a topic under the prefix of the
    gateway: it looks at the segments of the rest. *)
Lemma msg_process_under_prefix (st : Airzone) s payload now :
  msg_process (mqtt_prefix st +:+ "/" +:+ s) payload now st
  = match split_slash s with
    | [] => (st, Raise IndexError)
    | t0 :: rest =>
        if String.eqb t0 AMT_EVENTS then msg_events (t0 :: rest) payload now st
        else if String.eqb t0 AMT_INVOKE then (st, Ok tt)
        else if String.eqb t0 AMT_ONLINE then msg_online payload st
        else if String.eqb t0 AMT_RESPONSE
             then msg_response (t0 :: rest) payload now st
        else (st, Ok tt)
    end.
Proof.
  unfold msg_process, bind at 1, get.
  rewrite <- append_assoc, removeprefix_app.
  unfold bind, lift_result, topic_0.
  destruct (split_slash s) as [|t0 rest]; [done|].
  by repeat destruct (String.eqb t0 _).
Qed.

Lemma first_segments_neq :
  NoDup first_segments →
  String.eqb AMT_ONLINE AMT_EVENTS = false
  ∧ String.eqb AMT_ONLINE AMT_INVOKE = false
  ∧ String.eqb AMT_RESPONSE AMT_EVENTS = false
  ∧ String.eqb AMT_RESPONSE AMT_INVOKE = false
  ∧ String.eqb AMT_RESPONSE AMT_ONLINE = false.
Proof.
  intros Hnd. unfold first_segments in Hnd. nodup_facts Hnd.
  repeat split; apply String.eqb_neq; key_neq.
Qed.

Lemma msg_process_online (st : Airzone) payload now :
  NoDup first_segments →
  has_char slash AMT_ONLINE = false →
  msg_process (mqtt_prefix st +:+ "/" +:+ AMT_ONLINE) payload now st
  = msg_online payload st.
Proof.
  intros (H1 & H2 & _)%first_segments_neq Hword.
  rewrite msg_process_under_prefix, split_slash_word by done.
  by rewrite H1, H2, String.eqb_refl.
Qed.

Lemma msg_process_response (st : Airzone) cmd payload now :
  NoDup first_segments →
  has_char slash AMT_RESPONSE = false →
  has_char slash cmd = false →
  msg_process (mqtt_prefix st +:+ "/" +:+ AMT_RESPONSE +:+ "/" +:+ cmd)
    payload now st
  = msg_response [AMT_RESPONSE; cmd] payload now st.
Proof.
  intros (_ & _ & H1 & H2 & H3)%first_segments_neq Hword Hcmd.
  rewrite msg_process_under_prefix, split_slash_app, split_slash_word
    by done.
  by rewrite H1, H2, H3, String.eqb_refl.
Qed.

Lemma msg_events_undecodable topic now (st : Airzone) :
  (msg_events topic None now st).1 = st.
Proof.
  unfold msg_events, msg_events_status, bind, lift_result, json_loads.
  destruct (pop_if_first AMT_EVENTS topic) as [topic'|]; [|done].
  destruct (topic_0 topic') as [t0|]; [|done].
  destruct (String.eqb t0 AMT_STATUS); [|done].
  by destruct (pop_if_first AMT_STATUS topic').
Qed.

(** X15. A payload that is no JSON document never changes the object,
    on whatever topic it comes; it is not dropped either: on the topic
    of the online state, on a response topic and on the topic of the
    status events, [msg_process] raises the decoding error, which
    nothing between it and the loop of the router catches. The first
    segments of the topics are taken to be distinct single words. *)
Theorem undecodable_payload (st : Airzone) (now : Z) :
  NoDup first_segments →
  has_char slash AMT_EVENTS = false →
  has_char slash AMT_ONLINE = false →
  has_char slash AMT_RESPONSE = false →
  has_char slash AMT_STATUS = false →
  (∀ topic_str, (msg_process topic_str None now st).1 = st)
  ∧ msg_process (mqtt_prefix st +:+ "/" +:+ AMT_ONLINE) None now st
    = (st, Raise JSONDecodeError)
  ∧ (∀ cmd, has_char slash cmd = false →
       msg_process (mqtt_prefix st +:+ "/" +:+ AMT_RESPONSE +:+ "/" +:+ cmd)
         None now st
       = (st, Raise JSONDecodeError))
  ∧ msg_process (mqtt_prefix st +:+ "/" +:+ AMT_EVENTS +:+ "/" +:+ AMT_STATUS)
      None now st
    = (st, Raise JSONDecodeError).
Proof.
  intros Hnd Hev Hon Hresp Hstatus. split; [|split; [|split]].
  - intros topic_str. unfold msg_process, bind at 1, get.
    unfold bind, lift_result.
    destruct (topic_0 _) as [t0|]; [|done].
    destruct (String.eqb t0 AMT_EVENTS); [apply msg_events_undecodable|].
    destruct (String.eqb t0 AMT_INVOKE); [done|].
    destruct (String.eqb t0 AMT_ONLINE); [done|].
    by destruct (String.eqb t0 AMT_RESPONSE).
  - by rewrite msg_process_online.
  - intros cmd Hcmd. by rewrite msg_process_response.
  - rewrite msg_process_under_prefix, split_slash_app, split_slash_word
      by done.
    rewrite String.eqb_refl.
    unfold msg_events, msg_events_status, bind, lift_result, pop_if_first.
    simpl. rewrite !String.eqb_refl. simpl. by rewrite String.eqb_refl.
Qed.


(** X17. The destination a request names is a topic whose messages the
    router takes for responses to the command of the request: the safe
    form of the command is the one segment after the response segment,
    and for the status command the response is applied as a snapshot.
    The first segments are taken to be distinct, and the response
    segment and the command to have no slash. *)
Theorem response_destination (st : Airzone) (cmd : string)
    (payload : option json) (now : Z) :
  NoDup first_segments →
  has_char slash AMT_RESPONSE = false →
  has_char slash cmd = false →
  msg_process (cmd_destination st cmd) payload now st
  = msg_response [AMT_RESPONSE; api_safe_str cmd] payload now st
  ∧ ∀ data, response_dispatch [AMT_RESPONSE; api_safe_str API_AZ_GET_STATUS]
              data now st
            = (api_az_get_status data now ;;; update_callback (JObj []) now) st.
Proof.
  intros Hnd Hresp Hcmd. split.
  - unfold cmd_destination. apply msg_process_response; [done..|].
    unfold api_safe_str. by apply has_char_replace_dot.
  - intros data. by rewrite response_dispatch_topic, String.eqb_refl.
Qed.
End RouterFacts.

(** ** A poll that is answered *)

Section PollAnswered.
Context `{PF : PyFloat} `{PR : !PyRepr} `{PD : !PyDatetime} `{AC : ApiConst}.

(** How a snapshot ends depends on the payload alone, not on the object
    it is applied to. *)
Lemma api_az_get_status_device_result pfx pfx' device (st st' : Airzone) :
  (api_az_get_status_device pfx device st).2
  = (api_az_get_status_device pfx' device st').2.
Proof.
  unfold api_az_get_status_device, bind, lift_result, store_system,
    store_zone, modify, ret.
  destruct (py_get device API_DEVICE_TYPE) as [dev_type|]; [|done].
  destruct (py_eq_str dev_type API_AZ_SYSTEM).
  { destruct (System_init device) as [s|]; [|done].
    by destruct (on_fresh _ s). }
  destruct (py_eq_str dev_type API_AZ_ZONE); [|done].
  destruct (Zone_init device) as [z|]; [|done].
  by destruct (on_fresh _ z).
Qed.

Lemma for_each_device_result pfx pfx' items (st st' : Airzone) :
  (for_each items (api_az_get_status_device pfx) st).2
  = (for_each items (api_az_get_status_device pfx') st').2.
Proof.
  revert st st'. induction items as [|x items IH]; intros st st'; [done|].
  simpl. unfold bind.
  pose proof (api_az_get_status_device_result pfx pfx' x st st') as Hx.
  destruct (api_az_get_status_device pfx x st) as [s1 [[]|e]],
           (api_az_get_status_device pfx' x st') as [s1' [[]|e']];
    simpl in Hx; done.
Qed.

Lemma api_az_get_status_result data now now' (st st' : Airzone) :
  (api_az_get_status data now st).2 = (api_az_get_status data now' st').2.
Proof.
  unfold api_az_get_status, bind at 1, modify at 1.
  unfold bind at 2, modify at 1.
  unfold bind, lift_result, get.
  destruct (py_get_or data API_BODY _) as [body|]; [|done].
  destruct (py_get_or body API_DEVICES _) as [devices|]; [|done].
  destruct (py_iter devices) as [items|]; [|done].
  pose proof (for_each_device_result
                (Config.topic_interface (config st) +:+ "/"
                 +:+ airzone_mqtt_topic st)
                (Config.topic_interface (config st') +:+ "/"
                 +:+ airzone_mqtt_topic st')
                items
                (set_api_raw_data (<[API_AZ_GET_STATUS:=data]> (api_raw_data st)) st)
                (set_api_raw_data (<[API_AZ_GET_STATUS:=data]> (api_raw_data st')) st'))
    as Hloop.
  simpl in Hloop |- *.
  destruct (for_each items _ _) as [s1 [[]|e]],
           (for_each items _ _) as [s1' [[]|e']]; simpl in Hloop; try done.
  unfold modify, ret. by destruct (api_init s1), (api_init s1').
Qed.

(** A snapshot that goes through leaves the store initialised, at the
    time it was applied. *)
Lemma api_az_get_status_ok data now (st st' : Airzone) :
  api_az_get_status data now st = (st', Ok tt) →
  api_init st' = true ∧ update_dt st' = Some now.
Proof.
  unfold api_az_get_status, bind at 1, modify at 1.
  unfold bind, lift_result, get.
  destruct (py_get_or data API_BODY _) as [body|]; [|done].
  destruct (py_get_or body API_DEVICES _) as [devices|]; [|done].
  destruct (py_iter devices) as [items|]; [|done].
  destruct (for_each items _ _) as [s1 [[]|e]]; [|done].
  unfold modify, ret. destruct (api_init s1) eqn:Hinit; simpl.
  - by intros [= <-].
  - by intros [= <-].
Qed.

Lemma update_callback_empty_ok now (st : Airzone) :
  (update_callback (JObj []) now st).2 = Ok tt.
Proof.
  unfold update_callback, bind, lift_result, modify, get, ret. simpl.
  destruct (callback_function st) as [[]|]; done.
Qed.

(** The router handles one message while the request waits. *)
Lemma mqtt_task_one msg (st : Airzone) :
  mqtt_task [msg] st = (mqtt_task_msg msg st).1.
Proof. simpl. by destruct (mqtt_task_msg msg st) as [st' [[]|e]]. Qed.

(** The response to the status request of the time [now], handled at the
    time [t] while the request waits: it sets the event and is applied
    as a snapshot. *)
Lemma response_handled_run (st : Airzone) data now t :
  reachable st →
  NoDup first_segments →
  has_char slash AMT_RESPONSE = false →
  has_char slash API_AZ_GET_STATUS = false →
  startswith (cmd_destination st API_AZ_GET_STATUS)
    (Config.topic_interface (config st)) = false →
  response_req_id (Some data)
  = Ok (JStr (cmd_req_id API_AZ_GET_STATUS now)) →
  let s1 := request_sent (get_status_request st now) st in
  mqtt_task_msg
    (mkInbound t (cmd_destination st API_AZ_GET_STATUS) (Some data)) s1
  = (api_az_get_status data t ;;; update_callback (JObj []) t)
      (set_api_resp true s1).
Proof.
  intros Hreach Hnd Hresp Hcmd Hown Hid s1.
  pose proof (reachable_wiring st Hreach) as Hwire.
  unfold mqtt_task_msg, bind at 1, get.
  change (config s1) with (config st).
  change (airzone_mqtt_topic s1) with (airzone_mqtt_topic st).
  cbn [in_topic in_payload in_now]. rewrite Hown.
  assert (startswith (cmd_destination st API_AZ_GET_STATUS)
            (airzone_mqtt_topic st) = true) as ->.
  { unfold cmd_destination. rewrite Hwire, !append_assoc.
    apply startswith_app. }
  change (cmd_destination st API_AZ_GET_STATUS)
    with (cmd_destination s1 API_AZ_GET_STATUS).
  unfold cmd_destination.
  rewrite msg_process_response;
    [|done..|by apply has_char_replace_dot].
  rewrite (msg_response_match _ _ data _ _
             (JStr (cmd_req_id API_AZ_GET_STATUS now)));
    [|done|done|by simpl; rewrite String.eqb_refl].
  by rewrite response_dispatch_topic, String.eqb_refl.
Qed.

Lemma response_handled (st : Airzone) data now t :
  reachable st →
  NoDup first_segments →
  has_char slash AMT_RESPONSE = false →
  has_char slash API_AZ_GET_STATUS = false →
  startswith (cmd_destination st API_AZ_GET_STATUS)
    (Config.topic_interface (config st)) = false →
  response_req_id (Some data)
  = Ok (JStr (cmd_req_id API_AZ_GET_STATUS now)) →
  (api_az_get_status data t st).2 = Ok tt →
  let st1 := mqtt_task
               [mkInbound t (cmd_destination st API_AZ_GET_STATUS) (Some data)]
               (request_sent (get_status_request st now) st) in
  api_resp st1 = true ∧ api_init st1 = true ∧ update_dt st1 = Some t.
Proof.
  intros Hreach Hnd Hresp Hcmd Hown Hid Hsnap st1. subst st1.
  rewrite mqtt_task_one, response_handled_run by done.
  set (s2 := set_api_resp true _).
  pose proof (api_az_get_status_result data t t s2 st) as Hr.
  rewrite Hsnap in Hr.
  assert (api_resp (api_az_get_status data t s2).1 = true) as Hset.
  { by apply (api_az_get_status_inv (λ st, api_resp st = true)). }
  unfold bind.
  destruct (api_az_get_status data t s2) as [s3 [[]|e]] eqn:Hs3; [|done].
  destruct (api_az_get_status_ok _ _ _ _ Hs3) as [Hinit _].
  split; [|split].
  - by apply (update_callback_inv (λ st, api_resp st = true)).
  - by apply (update_callback_inv (λ st, api_init st = true)).
  - apply update_callback_empty.
Qed.

(** X18. A poll that is answered. In a state the program reaches, with
    the gateway online and the data not fresh, the cycle publishes its
    request; when the response arrives on the destination of the
    request, with the id of the request and a snapshot that applies, the
    cycle returns normally, the lock is free again, the store is
    initialised, and the time of last update is the time at which the
    response was handled. The response topic is taken not to lie under
    the topic of the interface. *)
Theorem poll_answered (st : Airzone) (data : json) (now t : Z) :
  reachable st →
  NoDup first_segments →
  has_char slash AMT_RESPONSE = false →
  has_char slash API_AZ_GET_STATUS = false →
  startswith (cmd_destination st API_AZ_GET_STATUS)
    (Config.topic_interface (config st)) = false →
  online st = true →
  _update_events now st = false →
  response_req_id (Some data)
  = Ok (JStr (cmd_req_id API_AZ_GET_STATUS now)) →
  (api_az_get_status data t st).2 = Ok tt →
  let msg :=
    mkInbound t (cmd_destination st API_AZ_GET_STATUS) (Some data) in
  let st' := (update now [msg] st).1 in
  (update now [msg] st).2 = Ok tt
  ∧ api_init st' = true
  ∧ update_dt st' = Some t
  ∧ api_lock st' = false
  ∧ polls st st'.
Proof.
  intros Hreach Hnd Hresp Hcmd Hown Hon Hstale Hid Hsnap msg st'.
  subst msg st'.
  pose proof (reachable_lock_free st Hreach) as Hfree.
  destruct (response_handled st data now t) as (Hset & Hinit & Hdt);
    [done..|].
  split; [|split; [|split; [|split]]];
    try (rewrite update_stale by done; by apply update_polling_polls).
  all: rewrite update_stale, update_polling_answered by done;
    cbn [fst snd set_api_lock api_init update_dt api_lock].
  - by rewrite Hinit.
  - exact Hinit.
  - exact Hdt.
  - reflexivity.
Qed.

(** X19. How a cycle can end in a state the program reaches. It returns
    normally only with the store initialised and the gateway online at
    its start; it raises [AirzoneOffline] exactly off a gateway that is
    offline, changing nothing; [AirzonePollError] when the response came
    and the store is still not initialised; [RuntimeError], from the
    second release of the lock, when no response came; and never
    [AirzoneTimeout] nor any other exception. The lock is free when it
    ends. *)
Theorem update_outcomes (st : Airzone) (now : Z) (waiting : list inbound) :
  reachable st →
  let st' := (update now waiting st).1 in
  match (update now waiting st).2 with
  | Ok _ => api_init st' = true ∧ online st = true
  | Raise AirzoneOffline => online st = false ∧ st' = st
  | Raise AirzonePollError =>
      online st = true ∧ api_init st' = false ∧ api_resp st' = true
  | Raise RuntimeError => online st = true ∧ api_resp st' = false
  | Raise _ => False
  end
  ∧ api_lock st' = false.
Proof.
  intros Hreach st'. subst st'.
  pose proof (reachable_lock_free st Hreach) as Hfree.
  destruct (_update_events now st) eqn:Hev.
  { rewrite update_fresh by done. simpl. split; [|done].
    by apply update_events_spec in Hev as (? & ? & _). }
  rewrite update_stale by done.
  destruct (online st) eqn:Hon.
  - destruct (api_resp (mqtt_task waiting
                (request_sent (get_status_request st now) st))) eqn:Hresp.
    + rewrite update_polling_answered by done. simpl.
      by destruct (api_init _) eqn:Hinit.
    + by rewrite update_polling_unanswered.
  - by rewrite update_polling_offline.
Qed.
End PollAnswered.

(** ** The online announcement, the time of an event, a snapshot twice *)

Section MoreScenarios.
Context `{PF : PyFloat} `{PR : !PyRepr} `{PD : !PyDatetime} `{AC : ApiConst}.

(** X20. The announcement of the gateway sets the online flag and the
    event to the truth of what it carries under the online key, a
    payload without the key counting as offline, and touches no device;
    after an announcement that counts as offline, every cycle raises
    [AirzoneOffline] at once. *)
Theorem online_announcement (st : Airzone) (data v : json) :
  py_get_or data API_ONLINE (JBool false) = Ok v →
  let st1 := (msg_online (Some data) st).1 in
  online st1 = py_bool v
  ∧ online_event st1 = py_bool v
  ∧ systems st1 = systems st
  ∧ zones st1 = zones st
  ∧ (py_bool v = false →
     ∀ now waiting, update now waiting st1 = (st1, Raise AirzoneOffline)).
Proof.
  intros Hv st1. subst st1.
  unfold msg_online, bind, lift_result, modify. simpl. rewrite Hv.
  destruct (py_bool v) eqn:Hb; simpl; repeat split; try done.
  intros _ now waiting. by apply update_offline_raises.
Qed.



Lemma keys_within_refl (a : Airzone) : keys_within a a.
Proof. by split. Qed.

Lemma keys_within_trans (a b c : Airzone) :
  keys_within a b → keys_within b c → keys_within a c.
Proof. intros [H1 H2] [H3 H4]. split; intros k Hk; auto. Qed.

(** The loop of a snapshot only adds keys. *)
Lemma api_az_get_status_device_grows pfx device (st : Airzone) :
  keys_within st (api_az_get_status_device pfx device st).1.
Proof.
  apply (api_az_get_status_device_keeps (λ st', keys_within st st'));
    [..|apply keys_within_refl].
  - intros s st0 [Hs Hz] _. split; [|done]. intros k Hk. simpl.
    rewrite lookup_insert_is_Some.
    destruct (decide (get_id (system_dev s) = k)); [by left|right; auto].
  - intros z st0 [Hs Hz] _. split; [done|]. intros k Hk. simpl.
    rewrite lookup_insert_is_Some.
    destruct (decide (get_id (zone_dev z) = k)); [by left|right; auto].
Qed.

Lemma for_each_device_grows pfx items (st : Airzone) :
  keys_within st (for_each items (api_az_get_status_device pfx) st).1.
Proof.
  revert st. induction items as [|x items IH]; intros st;
    [apply keys_within_refl|].
  simpl. unfold bind.
  pose proof (api_az_get_status_device_grows pfx x st) as Hx.
  destruct (api_az_get_status_device pfx x st) as [s1 [[]|e]]; [|done].
  eapply keys_within_trans; [exact Hx|apply IH].
Qed.

Lemma System_set_mqtt_topic_id pfx (s : System) :
  get_id (system_dev (System_set_mqtt_topic pfx s)) = get_id (system_dev s).
Proof. reflexivity. Qed.

Lemma Zone_set_mqtt_topic_id pfx (z : Zone) :
  get_id (zone_dev (Zone_set_mqtt_topic pfx z)) = get_id (zone_dev z).
Proof. reflexivity. Qed.

(** An entry handled once is in the store: handling it again, in a
    store that has the keys of the first, changes nothing. *)
Lemma api_az_get_status_device_again pfx pfx' device (st st' : Airzone) :
  keys_within (api_az_get_status_device pfx device st).1 st' →
  (api_az_get_status_device pfx' device st').1 = st'.
Proof.
  unfold api_az_get_status_device, bind, lift_result.
  destruct (py_get device API_DEVICE_TYPE) as [dev_type|]; [|done].
  destruct (py_eq_str dev_type API_AZ_SYSTEM).
  { destruct (System_init device) as [s0|]; [|done].
    destruct (on_fresh _ s0) as [s|]; [|done].
    unfold store_system, modify. cbn [fst].
    rewrite !System_set_mqtt_topic_id. intros [Hs _].
    destruct (systems st' !! get_id (system_dev s)) eqn:E; [done|].
    destruct (Hs (get_id (system_dev s))) as [? Hin]; [|congruence].
    destruct (systems st !! get_id (system_dev s)) eqn:E'.
    - by rewrite E'.
    - cbn [systems set_systems]. by rewrite lookup_insert_eq. }
  destruct (py_eq_str dev_type API_AZ_ZONE); [|done].
  destruct (Zone_init device) as [z0|]; [|done].
  destruct (on_fresh _ z0) as [z|]; [|done].
  unfold store_zone, modify. cbn [fst].
  rewrite !Zone_set_mqtt_topic_id. intros [_ Hz].
  destruct (zones st' !! get_id (zone_dev z)) eqn:E; [done|].
  destruct (Hz (get_id (zone_dev z))) as [? Hin]; [|congruence].
  destruct (zones st !! get_id (zone_dev z)) eqn:E'.
  - by rewrite E'.
  - cbn [zones set_zones]. by rewrite lookup_insert_eq.
Qed.

Lemma for_each_device_again pfx pfx' items (st st' : Airzone) :
  keys_within (for_each items (api_az_get_status_device pfx) st).1 st' →
  (for_each items (api_az_get_status_device pfx') st').1 = st'.
Proof.
  revert st. induction items as [|x items IH]; intros st; [done|].
  simpl. unfold bind. intros Hin.
  pose proof (api_az_get_status_device_result pfx pfx' x st st') as Hr.
  pose proof (api_az_get_status_device_again pfx pfx' x st st') as Hx.
  pose proof (for_each_device_grows pfx items) as Hgrow.
  destruct (api_az_get_status_device pfx x st) as [s1 [[]|e]];
    destruct (api_az_get_status_device pfx' x st') as [s1' r'];
    simpl in Hr, Hx; subst r'.
  - rewrite Hx; [by apply (IH s1)|].
    eapply keys_within_trans; [apply Hgrow|exact Hin].
  - by apply Hx.
Qed.

(** [api_az_get_status] step by step: the raw data, the loop over the
    entries, and, when the loop went through, the flags of the first
    snapshot and the time. *)
Lemma api_az_get_status_run data now (st : Airzone) :
  api_az_get_status data now st
  = let s0 := set_api_raw_data
                (<[API_AZ_GET_STATUS := data]> (api_raw_data st)) st in
    match py_get_or data API_BODY (JObj []) with
    | Raise e => (s0, Raise e)
    | Ok body =>
        match py_get_or body API_DEVICES (JList []) with
        | Raise e => (s0, Raise e)
        | Ok devices =>
            match py_iter devices with
            | Raise e => (s0, Raise e)
            | Ok items =>
                match for_each items
                        (api_az_get_status_device (topic_pfx st)) s0 with
                | (sl, Raise e) => (sl, Raise e)
                | (sl, Ok _) =>
                    (set_update_dt (Some now)
                       (if api_init sl then sl
                        else set_api_init_event true (set_api_init true sl)),
                     Ok tt)
                end
            end
        end
    end.
Proof.
  unfold api_az_get_status, bind at 1, modify at 1.
  unfold bind, lift_result, get. cbv zeta.
  destruct (py_get_or data API_BODY _) as [body|]; [|done].
  destruct (py_get_or body API_DEVICES _) as [devices|]; [|done].
  destruct (py_iter devices) as [items|]; [|done].
  change (Config.topic_interface (config (set_api_raw_data ?v st)) +:+ "/"
          +:+ airzone_mqtt_topic (set_api_raw_data ?v st))
    with (topic_pfx st).
  destruct (for_each items _ _) as [sl [[]|e]]; [|done].
  unfold modify, ret. by destruct (api_init sl).
Qed.

Lemma api_az_get_status_again data now now' (st : Airzone) :
  let st1 := (api_az_get_status data now st).1 in
  ∃ st2, api_az_get_status data now' st1
         = (st2, (api_az_get_status data now st).2)
         ∧ systems st2 = systems st1
         ∧ zones st2 = zones st1
         ∧ api_init st2 = api_init st1.
Proof.
  intros st1.
  rewrite (api_az_get_status_run data now' st1). cbv zeta.
  subst st1. rewrite (api_az_get_status_run data now st). cbv zeta.
  destruct (py_get_or data API_BODY _) as [body|]; [|by eexists].
  destruct (py_get_or body API_DEVICES _) as [devices|]; [|by eexists].
  destruct (py_iter devices) as [entries|]; [|by eexists].
  set (s0 := set_api_raw_data _ st).
  pose proof (λ pfx', for_each_device_result (topic_pfx st) pfx' entries s0)
    as Hres.
  pose proof (λ pfx', for_each_device_again (topic_pfx st) pfx' entries s0)
    as Hagain.
  destruct (for_each entries _ s0) as [sl [[]|e]]; cbn [fst snd] in *.
  - set (st1 := set_update_dt _ _).
    set (s0' := set_api_raw_data _ st1).
    specialize (Hres (topic_pfx st1) s0').
    specialize (Hagain (topic_pfx st1) s0').
    destruct (for_each entries _ s0') as [sl' r']. cbn [fst snd] in *.
    subst r'.
    assert (sl' = s0') as ->.
    { apply Hagain. unfold s0', st1.
      split; intros k Hk; by destruct (api_init sl). }
    eexists. split; [done|]. unfold s0', st1.
    destruct (api_init sl) eqn:Hinit; simpl; by rewrite ?Hinit.
  - set (s0' := set_api_raw_data _ sl).
    specialize (Hres (topic_pfx sl) s0').
    specialize (Hagain (topic_pfx sl) s0').
    destruct (for_each entries _ s0') as [sl' r']. cbn [fst snd] in *.
    subst r'.
    assert (sl' = s0') as -> by (apply Hagain; by split).
    by eexists.
Qed.

(** X22. A snapshot applied a second time changes neither map of the
    store and ends as it did the first time, whether the first
    application went through or raised at some entry: the devices of
    its entries are in the store already, and a device that is in the
    store is left as it is. The store is initialised after the second
    application exactly when it was after the first. *)
Theorem snapshot_twice (st : Airzone) (data : json) (now now' : Z) :
  let st1 := (api_az_get_status data now st).1 in
  let st2 := (api_az_get_status data now' st1).1 in
  systems st2 = systems st1
  ∧ zones st2 = zones st1
  ∧ api_init st2 = api_init st1
  ∧ (api_az_get_status data now' st1).2 = (api_az_get_status data now st).2.
Proof.
  intros st1 st2. subst st2 st1.
  destruct (api_az_get_status_again data now now' st)
    as (st2 & -> & Hs & Hz & Hinit).
  done.
Qed.

Lemma for_each_app {S A} (xs ys : list A) (body : A → M S unit) (s : S) :
  for_each (xs ++ ys) body s
  = match for_each xs body s with
    | (s1, Ok _) => for_each ys body s1
    | (s1, Raise e) => (s1, Raise e)
    end.
Proof.
  revert s. induction xs as [|x xs IH]; intros s; simpl; [done|].
  unfold bind. destruct (body x s) as [s1 [[]|e]]; [apply IH|done].
Qed.

(** An entry on which the body of the loop raises changes nothing. *)
Lemma api_az_get_status_device_raise pfx device (st : Airzone) e :
  (api_az_get_status_device pfx device st).2 = Raise e →
  api_az_get_status_device pfx device st = (st, Raise e).
Proof.
  unfold api_az_get_status_device, bind, lift_result, store_system,
    store_zone, modify, ret.
  destruct (py_get device API_DEVICE_TYPE) as [dev_type|];
    [|by intros [= ->]].
  destruct (py_eq_str dev_type API_AZ_SYSTEM).
  { destruct (System_init device) as [s0|]; [|by intros [= ->]].
    destruct (on_fresh _ s0) as [s|]; [done|by intros [= ->]]. }
  destruct (py_eq_str dev_type API_AZ_ZONE); [|done].
  destruct (Zone_init device) as [z0|]; [|by intros [= ->]].
  destruct (on_fresh _ z0) as [z|]; [done|by intros [= ->]].
Qed.

(** C5, as amended. A full snapshot is applied entry by entry, in the
    order of the list, each entry in the state that the entries before
    it left. An entry is classified by its declared type. For a system
    or a zone entry a device is built from the entry, and it is stored
    when its key is not in the map of its kind yet; when the key is in
    the map, the new device is dropped and nothing changes: the entry is
    not applied to the stored device. An entry of any other type changes
    nothing. An entry whose type cannot be read, or from which the
    device cannot be built, raises and changes nothing, and the snapshot
    ends there: the entries before it have been handled, those after it
    are not, and the store is not marked as initialised nor given the
    time of the update, which happens only after the last entry. The
    devices already stored stay as they are through a whole snapshot,
    however it ends. *)
Theorem snapshot_entry (st : Airzone) (mqtt_topic_pfx : string)
    (device dev_type data body : json) (before after : list json) (now : Z) :
  let r := api_az_get_status_device mqtt_topic_pfx device st in
  (∀ e, py_get device API_DEVICE_TYPE = Raise e → r = (st, Raise e))
  ∧ (py_get device API_DEVICE_TYPE = Ok dev_type →
     py_eq_str dev_type API_AZ_SYSTEM = true →
     match entry_system mqtt_topic_pfx device with
     | Raise e => r = (st, Raise e)
     | Ok system =>
         match systems st !! get_id (system_dev system) with
         | Some _ => r = (st, Ok tt)
         | None =>
             r = (set_systems
                    (<[get_id (system_dev system) := system]> (systems st))
                    st,
                  Ok tt)
         end
     end)
  ∧ (py_get device API_DEVICE_TYPE = Ok dev_type →
     py_eq_str dev_type API_AZ_SYSTEM = false →
     py_eq_str dev_type API_AZ_ZONE = true →
     match entry_zone mqtt_topic_pfx device with
     | Raise e => r = (st, Raise e)
     | Ok zone =>
         match zones st !! get_id (zone_dev zone) with
         | Some _ => r = (st, Ok tt)
         | None =>
             r = (set_zones
                    (<[get_id (zone_dev zone) := zone]> (zones st)) st,
                  Ok tt)
         end
     end)
  ∧ (py_get device API_DEVICE_TYPE = Ok dev_type →
     py_eq_str dev_type API_AZ_SYSTEM = false →
     py_eq_str dev_type API_AZ_ZONE = false →
     r = (st, Ok tt))
  ∧ (py_get_or data API_BODY (JObj []) = Ok body →
     py_get_or body API_DEVICES (JList [])
     = Ok (JList (before ++ device :: after)) →
     let handle := api_az_get_status_device (topic_pfx st) in
     let rb :=
       for_each before handle
         (set_api_raw_data
            (<[API_AZ_GET_STATUS := data]> (api_raw_data st)) st) in
     rb.2 = Ok tt →
     api_init rb.1 = api_init st
     ∧ update_dt rb.1 = update_dt st
     ∧ api_az_get_status data now st
       = snapshot_finish now
           match handle device rb.1 with
           | (st1, Ok _) => for_each after handle st1
           | (_, Raise e) => (rb.1, Raise e)
           end)
  ∧ (∀ k s, systems st !! k = Some s →
            systems (api_az_get_status data now st).1 !! k = Some s)
  ∧ (∀ k z, zones st !! k = Some z →
            zones (api_az_get_status data now st).1 !! k = Some z).
Proof.
  intros r. subst r.
  split; [|split; [|split; [|split; [|split; [|split]]]]].
  - intros e Htype. unfold api_az_get_status_device, bind, lift_result.
    by rewrite Htype.
  - intros Htype Hsys.
    unfold api_az_get_status_device, entry_system, bind, lift_result.
    rewrite Htype, Hsys.
    destruct (System_init device) as [s0|]; [|done].
    destruct (on_fresh _ s0) as [s1|]; [|done].
    unfold store_system, modify.
    by destruct (systems st !! _).
  - intros Htype Hsys Hzone.
    unfold api_az_get_status_device, entry_zone, bind, lift_result.
    rewrite Htype, Hsys, Hzone.
    destruct (Zone_init device) as [z0|]; [|done].
    destruct (on_fresh _ z0) as [z1|]; [|done].
    unfold store_zone, modify.
    by destruct (zones st !! _).
  - intros Htype Hsys Hzone.
    unfold api_az_get_status_device, bind, lift_result.
    by rewrite Htype, Hsys, Hzone.
  - intros Hbody Hdevices handle rb Hbefore.
    assert (api_init rb.1 = api_init st ∧ update_dt rb.1 = update_dt st)
      as [Hinit Hdt].
    { subst rb.
      by apply (keeps_for_each
                  (λ st', api_init st' = api_init st
                          ∧ update_dt st' = update_dt st) before handle);
        [intros x; by apply api_az_get_status_device_keeps|]. }
    split; [done|]. split; [done|].
    rewrite api_az_get_status_run. cbv zeta. rewrite Hbody, Hdevices.
    cbn [py_iter]. rewrite for_each_app. fold handle. fold rb.
    destruct rb as [sb [[]|eb]]; [|done]. cbn [fst snd for_each].
    unfold bind at 1.
    pose proof (api_az_get_status_device_raise (topic_pfx st) device sb)
      as Hraise. fold handle in Hraise.
    destruct (handle device sb) as [st1 [[]|e]]; [done|].
    by rewrite (Hraise e eq_refl).
  - intros k s Hk. by apply api_az_get_status_keeps_system.
  - intros k z Hk. by apply api_az_get_status_keeps_zone.
Qed.
End MoreScenarios.

(** ** The loop of the update task *)

Section TaskTurn.
Context `{PF : PyFloat} `{PR : !PyRepr} `{PD : !PyDatetime} `{AC : ApiConst}.

(** X24. One turn of the loop of the update task, in a state the
    program reaches: the errors of the cycle that the loop catches are
    all it raises but one. The turn ends normally, the loop going on to
    sleep, unless the gateway was online, the data not fresh and no
    response came: then the [RuntimeError] of the second release of the
    lock leaves the loop, and the task is over. *)
Theorem airzone_task_turn_outcomes (st : Airzone) (now : Z)
    (waiting : list inbound) :
  reachable st →
  let r := airzone_task_turn now waiting st in
  r.1 = (update now waiting st).1
  ∧ api_lock r.1 = false
  ∧ (r.2 = Ok tt
     ∨ (r.2 = Raise RuntimeError
        ∧ online st = true ∧ _update_events now st = false
        ∧ api_resp r.1 = false)).
Proof.
  intros Hreach r. subst r.
  pose proof (reachable_lock_free st Hreach) as Hfree.
  unfold airzone_task_turn, try_except.
  destruct (_update_events now st) eqn:Hev.
  { rewrite update_fresh by done. auto. }
  rewrite update_stale by done.
  destruct (online st) eqn:Hon.
  - destruct (api_resp (mqtt_task waiting
                (request_sent (get_status_request st now) st))) eqn:Hresp.
    + rewrite update_polling_answered by done. cbv zeta.
      destruct (api_init _); simpl; auto.
    + rewrite update_polling_unanswered by done. simpl. auto 10.
  - rewrite update_polling_offline by done. simpl. auto.
Qed.
End TaskTurn.

(** ** The further properties on the sample instance *)

Section MoreSamples.
#[local] Existing Instances sample_float sample_repr sample_datetime sample_const.

Lemma sample_first_segments : NoDup first_segments.
Proof. apply (bool_decide_unpack _). vm_compute. exact I. Qed.

Lemma sample_online_reachable : reachable sample_online.
Proof.
  exists Config.init. unfold sample_online, sample_airzone.
  apply (rtc_l _ _ (set_update_callback airzone_callback
                      (Airzone_init Config.init)));
    [apply on_set_update_callback|].
  apply rtc_once, on_message.
Qed.

Lemma get_id_ha_safe_witness : get_id_ha (zone_dev sample_zone) = "1_1".
Proof.
  apply (proj2 (get_id_ha_safe (zone_dev sample_zone))). reflexivity.
Defined.

Lemma zone_data_fields_witness :
  NoDup zone_data_keys
  ∧ Zone_data sample_zone !! AZD_NAME = Some (JStr "Salon")
  ∧ Zone_data sample_zone !! AZD_SETPOINT = Some (JFloat 21000)
  ∧ Zone_data sample_zone !! AZD_POWER = None.
Proof.
  assert (NoDup zone_data_keys) as Hkeys
    by (apply (bool_decide_unpack _); vm_compute; exact I).
  split; [exact Hkeys|].
  destruct (zone_data_fields sample_zone Hkeys)
    as (_ & _ & _ & _ & _ & Hname & _ & _ & _ & _ & Hpower & _ & Hsp & _).
  split; [exact Hname|]. split; [exact Hsp|exact Hpower].
Defined.

Lemma update_no_parameters_witness :
  device_update (JObj [("headers", JObj [])]) PARTIAL (AZone sample_zone)
  = (AZone sample_zone, Ok tt).
Proof. apply update_no_parameters; reflexivity. Defined.

Lemma Zone_update_mode_available_witness :
  Zone_update sample_modes_delta FULL sample_zone
  = (set_mode_available [HEATING; UNKNOWN] sample_zone, Ok tt).
Proof.
  apply (Zone_update_mode_available sample_modes_delta (JObj [])
           [JInt 3; JInt 99]).
  - apply (bool_decide_unpack _). vm_compute. exact I.
  - reflexivity.
  - reflexivity.
  - reflexivity.
Defined.

Lemma online_event_tracks_online_witness :
  online_event sample_with_zone = online sample_with_zone.
Proof.
  exact (online_event_tracks_online _ sample_with_zone_reachable).
Defined.

Lemma init_event_tracks_init_witness :
  api_init_event sample_with_zone = api_init sample_with_zone
  ∧ is_Some (update_dt sample_with_zone).
Proof.
  destruct (init_event_tracks_init _ sample_with_zone_reachable)
    as [Hev Hdt].
  split; [exact Hev|]. apply Hdt. reflexivity.
Defined.

Lemma nothing_taken_back_witness :
  api_init sample_powered = true
  ∧ published sample_with_zone `prefix_of` published sample_powered.
Proof.
  destruct (nothing_taken_back sample_with_zone sample_powered)
    as (Hinit & _ & Hpub & _).
  - apply rtc_once, on_message.
  - split; [apply Hinit; reflexivity|exact Hpub].
Defined.

Lemma stored_device_topic_witness :
  get_mqtt_topic (zone_dev sample_zone) None
  = Ok "airzone-mqtt-hass/airzone/zone/1_1".
Proof.
  destruct (stored_device_topic _ sample_with_zone_reachable) as [_ Hz].
  exact (Hz "1:1" sample_zone sample_with_zone_stored).
Defined.

Lemma mqtt_update_publishes_witness :
  ∃ l, published (mqtt_update sample_with_zone).1
       = (published sample_with_zone ++ l)%list
       ∧ length l = 2%nat.
Proof.
  destruct (mqtt_update_publishes _ sample_with_zone_reachable)
    as (l & Hl & Hlen & _).
  exists l. split; [exact Hl|]. rewrite Hlen. reflexivity.
Defined.

Lemma undecodable_payload_witness :
  msg_process "airzone/v1/online" None 0 sample_online
  = (sample_online, Raise JSONDecodeError).
Proof.
  destruct (undecodable_payload sample_online 0) as (_ & Hon & _);
    [exact sample_first_segments|reflexivity..|].
  exact Hon.
Defined.


Lemma response_destination_witness :
  cmd_destination sample_online "az.get_status"
  = "airzone/v1/response/az_get_status"
  ∧ msg_process (cmd_destination sample_online "az.get_status") None 0
      sample_online
    = msg_response ["response"; "az_get_status"] None 0 sample_online.
Proof.
  split; [reflexivity|].
  apply (response_destination sample_online "az.get_status" None 0);
    [exact sample_first_segments|reflexivity..].
Defined.

Lemma poll_answered_witness :
  let msg := sample_response 5000000 (cmd_req_id "az.get_status" 3000000)
               [sample_zone_entry] in
  (update 3000000 [msg] sample_online).2 = Ok tt
  ∧ update_dt (update 3000000 [msg] sample_online).1 = Some 5000000.
Proof.
  intros msg. subst msg.
  destruct (poll_answered sample_online
              (sample_snapshot (cmd_req_id "az.get_status" 3000000)
                 [sample_zone_entry])
              3000000 5000000)
    as (Hok & _ & Hdt & _);
    [exact sample_online_reachable|exact sample_first_segments
    |reflexivity..|].
  split; [exact Hok|exact Hdt].
Defined.

Lemma update_outcomes_witness :
  (update 3000000 [] sample_with_zone).2 = Ok tt
  ∧ api_lock (update 3000000 [] sample_with_zone).1 = false.
Proof.
  split; [reflexivity|].
  exact (proj2 (update_outcomes sample_with_zone 3000000 []
                  sample_with_zone_reachable)).
Defined.

Lemma online_announcement_witness :
  update 3000000 [] (msg_online (Some (JObj [])) sample_with_zone).1
  = ((msg_online (Some (JObj [])) sample_with_zone).1, Raise AirzoneOffline).
Proof.
  destruct (online_announcement sample_with_zone (JObj []) (JBool false))
    as (_ & _ & _ & _ & Hoff); [reflexivity|].
  exact (Hoff eq_refl 3000000 []).
Defined.


Lemma airzone_task_turn_outcomes_witness :
  api_lock (airzone_task_turn 3000000 [] sample_online).1 = false.
Proof.
  destruct (airzone_task_turn_outcomes sample_online 3000000 []
              sample_online_reachable) as (_ & Hfree & _).
  exact Hfree.
Defined.

Lemma snapshot_entry_witness :
  api_az_get_status_device "airzone-mqtt-hass/airzone" sample_zone_entry_on
    sample_with_zone
  = (sample_with_zone, Ok tt).
Proof.
  destruct (snapshot_entry sample_with_zone "airzone-mqtt-hass/airzone"
              sample_zone_entry_on (JStr "az_zone") JNull JNull [] [] 0)
    as (_ & _ & Hzone & _).
  exact (Hzone eq_refl eq_refl eq_refl).
Defined.

(** A snapshot whose first entry names no unit ends at that entry: the
    zone of the second entry is not stored, and the store is not
    initialised. *)
Lemma snapshot_ends_at_raising_entry :
  let r := api_az_get_status
             (sample_snapshot "r0" [sample_zone_entry_no_unit; sample_zone_entry])
             2000000 sample_online in
  r.2 = Raise ValueError
  ∧ zones r.1 = ∅
  ∧ api_init r.1 = false
  ∧ update_dt r.1 = None.
Proof.
  intros r. subst r.
  split; [reflexivity|]. split; [reflexivity|]. split; reflexivity.
Qed.

Lemma event_power_only_witness :
  ∃ zone' : Zone,
    zones (msg_events_status ["status"] (Some sample_power_event) 6000000
             sample_with_zone).1
    = <["1:1" := zone']> (zones sample_with_zone)
    ∧ power zone' = Some true
    ∧ setpoint zone' = Some 21000.
Proof.
  pose proof (event_power_only sample_with_zone ["status"] sample_power_event
                (JObj [("device_type", JStr "az_zone"); ("system_id", JInt 1);
                       ("device_id", JInt 1);
                       ("parameters", JObj [("power", JBool true)])])
                (JObj []) (JInt 1) (JStr "az_zone") (JInt 1) sample_zone
                6000000) as Hevent.
  destruct Hevent
    as (zone' & Hzones & _ & _ & Hpower & _ & _ & _ & _ & _ & Hsp & _).
  - apply (bool_decide_unpack _). vm_compute. exact I.
  - discriminate.
  - reflexivity.
  - reflexivity.
  - reflexivity.
  - reflexivity.
  - reflexivity.
  - reflexivity.
  - reflexivity.
  - reflexivity.
  - reflexivity.
  - exists zone'. split; [exact Hzones|]. split; [exact Hpower|].
    rewrite Hsp. reflexivity.
Defined.

(** An event whose parameters are [{power: true}] and whose meta data
    name a unit changes the unit of the zone as well; when they name
    what is no unit, the event raises and the power is not set either.
    C9 as it is stated does not hold. *)
Lemma power_event_changes_units :
  let st1 := (msg_events_status ["status"]
                (Some sample_power_event_fahrenheit) 6000000
                sample_with_zone).1 in
  let r2 := msg_events_status ["status"]
              (Some sample_power_event_no_unit) 6000000 sample_with_zone in
  zones sample_with_zone !! "1:1" = Some sample_zone
  ∧ units (zone_dev sample_zone) = CELSIUS
  ∧ power sample_zone = None
  ∧ zones st1 !! "1:1"
    = Some (set_power (Some true)
              (set_zone_dev (set_units FAHRENHEIT (zone_dev sample_zone))
                 sample_zone))
  ∧ r2.2 = Raise ValueError
  ∧ zones r2.1 !! "1:1" = Some sample_zone.
Proof.
  intros st1 r2. subst st1 r2.
  split; [reflexivity|]. split; [reflexivity|]. split; [reflexivity|].
  split; [reflexivity|]. split; reflexivity.
Qed.
End MoreSamples.
